(** * Execution memory of browser-use-self: admission, storage, ranking, synthesis

    A shallow embedding of [memory/memory_manager.py], [memory/rating_system.py]
    and [memory/strategy_store.py].

    - Python [int] is [Z].  An SQLite [INTEGER] has 64 bits: binding an
      [int] outside that range raises [OverflowError], which the [except]
      branches of the manager catch ([store_execution] rolls back and returns
      the failure message, the two listing methods return the empty list).
    - Python [float] and SQLite [REAL] are exact rationals [Q] (every
      constant of the source is a short decimal, and the inequalities proved
      below hold with a margin far above one unit of rounding; the scores of
      the ranking are multiples of one half, exact in double precision for
      ratings of the data model).  Only finite values are modelled.
    - Python [str] and SQLite [TEXT] are [string]: the bytes of the UTF-8
      encoding (SQLite's default BINARY collation is the bytewise order
      [String.compare]).  Characters are recognised on the bytes where the
      source looks at them: the letters [a-zA-Z], the CJK block
      U+4E00..U+9FFF, white space.
    - The SQLite file is a [Database]: the two tables as lists of rows, in
      insertion order.  Failures of the environment (disk, locks) are not
      modelled.
    - [async] methods that touch the keyword extractor or open a connection
      run in the state monad [M] over a [World]: the database plus the trace
      of external interactions.  [datetime.now().isoformat()] is the argument
      [now] of [store_execution]. *)

From Stdlib Require Import ZArith QArith Qminmax Lqa Lia Ascii String List Bool.
From Stdlib Require Import Sorting.Sorted Permutation.
From Stdlib Require Import Floats.
From stdpp Require Import base option list gmap strings sorting.

Open Scope Z_scope.

(* ===================================================================== *)
(** ** Text helpers (strings are UTF-8 byte strings) *)
(* ===================================================================== *)

Module Text.

Definition code (c : ascii) : N := N_of_ascii c.

Definition is_upper (c : ascii) : bool := (65 <=? code c)%N && (code c <=? 90)%N.
Definition is_lower (c : ascii) : bool := (97 <=? code c)%N && (code c <=? 122)%N.

(** A character of the class [[a-zA-Z]]. *)
Definition is_alpha (c : ascii) : bool := is_upper c || is_lower c.

(** A continuation byte of a multi-byte character. *)
Definition is_continuation (c : ascii) : bool :=
  (128 <=? code c)%N && (code c <=? 191)%N.

(** [len(s)]: the number of characters, that is of bytes that do not
    continue a character. *)
Definition len (s : string) : nat :=
  length (filter (fun c => negb (is_continuation c)) (list_ascii_of_string s)).

(** The three bytes of a character of the class [[\u4e00-\u9fff]]:
    E4 B8 80 (U+4E00) to E9 BF BF (U+9FFF). *)
Definition is_cjk (a b c : ascii) : bool :=
  is_continuation b && is_continuation c
  && (((code a =? 228)%N && (184 <=? code b)%N)
      || ((229 <=? code a)%N && (code a <=? 233)%N)).

(** [str.isspace] on a one-byte character. *)
Definition is_space (c : ascii) : bool :=
  ((9 <=? code c)%N && (code c <=? 13)%N)
  || ((28 <=? code c)%N && (code c <=? 32)%N).

(** The white space of two bytes: U+0085 and U+00A0. *)
Definition is_space2 (a b : ascii) : bool :=
  (code a =? 194)%N && ((code b =? 133)%N || (code b =? 160)%N).

(** The white space of three bytes: U+1680, U+2000..U+200A, U+2028,
    U+2029, U+202F, U+205F and U+3000. *)
Definition is_space3 (a b c : ascii) : bool :=
  ((code a =? 225)%N && (code b =? 154)%N && (code c =? 128)%N)
  || ((code a =? 226)%N && (code b =? 128)%N
      && (((128 <=? code c)%N && (code c <=? 138)%N)
          || (code c =? 168)%N || (code c =? 169)%N || (code c =? 175)%N))
  || ((code a =? 226)%N && (code b =? 129)%N && (code c =? 159)%N)
  || ((code a =? 227)%N && (code b =? 128)%N && (code c =? 128)%N).

Definition lower_char (c : ascii) : ascii :=
  if is_upper c then ascii_of_N (code c + 32) else c.

(** [str.lower] on the letters [A-Z]; every other byte is kept (exact on
    text whose cased letters are ASCII, as the runs of [findall] are). *)
Definition lower (s : string) : string :=
  string_of_list_ascii (map lower_char (list_ascii_of_string s)).

(** The leading white-space characters are dropped; [two] and [three]
    recognise the white space of two and of three bytes. *)
Fixpoint drop_spaces (two : ascii -> ascii -> bool)
         (three : ascii -> ascii -> ascii -> bool) (l : list ascii) : list ascii :=
  match l with
  | a :: l1 =>
      if is_space a then drop_spaces two three l1
      else match l1 with
           | b :: l2 =>
               if two a b then drop_spaces two three l2
               else match l2 with
                    | c :: l3 =>
                        if three a b c then drop_spaces two three l3 else l
                    | [] => l
                    end
           | [] => l
           end
  | [] => []
  end.

(** [str.lstrip]. *)
Definition lstrip (l : list ascii) : list ascii :=
  drop_spaces is_space2 is_space3 l.

(** [str.rstrip] on the reversed bytes: the white-space characters at the
    end of the text, whose bytes come in reverse order here. *)
Definition rstrip_reversed (l : list ascii) : list ascii :=
  drop_spaces (fun a b => is_space2 b a) (fun a b c => is_space3 c b a) l.

(** [str.strip]. *)
Definition strip (s : string) : string :=
  string_of_list_ascii
    (rev (rstrip_reversed (rev (lstrip (list_ascii_of_string s))))).

(** [str.split(',')]: the fields between commas, at least one field. *)
Fixpoint split_comma_go (cur : list ascii) (l : list ascii) : list string :=
  match l with
  | [] => [string_of_list_ascii (rev cur)]
  | c :: l' =>
      if Ascii.eqb c ","%char
      then string_of_list_ascii (rev cur) :: split_comma_go [] l'
      else split_comma_go (c :: cur) l'
  end.

Definition split_comma (s : string) : list string :=
  split_comma_go [] (list_ascii_of_string s).

(** The run the scan of [findall] is in. *)
Inductive Run := NoRun | LetterRun | CjkRun.

(** The run collected so far (its bytes in reverse) becomes a match. *)
Definition flush (cur : list ascii) (rest : list string) : list string :=
  match cur with
  | [] => rest
  | _ => string_of_list_ascii (rev cur) :: rest
  end.

(** [re.findall(r'[\u4e00-\u9fff]+|[a-zA-Z]+', text)]: the maximal runs of
    CJK characters and the maximal runs of letters, left to right; a run of
    one class ends where a character of the other class begins. *)
Fixpoint findall_go (run : Run) (cur : list ascii) (l : list ascii) : list string :=
  match l with
  | [] => flush cur []
  | a :: l1 =>
      if is_alpha a then
        match run with
        | CjkRun => flush cur (findall_go LetterRun [a] l1)
        | _ => findall_go LetterRun (a :: cur) l1
        end
      else
        match l1 with
        | b :: c :: l3 =>
            if is_cjk a b c then
              match run with
              | LetterRun => flush cur (findall_go CjkRun [c; b; a] l3)
              | _ => findall_go CjkRun (c :: b :: a :: cur) l3
              end
            else flush cur (findall_go NoRun [] l1)
        | _ => flush cur (findall_go NoRun [] l1)
        end
  end.

Definition findall (s : string) : list string :=
  findall_go NoRun [] (list_ascii_of_string s).

(** [' '.join(parts)]. *)
Fixpoint join_space (parts : list string) : string :=
  match parts with
  | [] => ""
  | [p] => p
  | p :: rest => p +:+ " " +:+ join_space rest
  end.

(** [list(set(l))]: the distinct elements of [l].  The iteration order of a
    Python set is unspecified; the model lists them by first occurrence. *)
Fixpoint distinct (l : list string) : list string :=
  match l with
  | [] => []
  | x :: l' => x :: filter (fun y => negb (String.eqb x y)) (distinct l')
  end.

End Text.

(* ===================================================================== *)
(** ** Data model *)
(* ===================================================================== *)

(** [@dataclass ExecutionRecord]; also one row of table [execution_records]
    (the two list fields are stored as JSON text and read back unchanged). *)
Record ExecutionRecord := {
  id : string;
  question : string;
  execution_steps : list string;
  result : string;
  rating : Z;
  timestamp : string;
  task_type : string;
  success : bool;
  execution_time : Q;
  similarity_keywords : list string
}.

(** One row of table [similarity_index]. *)
Record IndexRow := {
  keyword : string;
  record_id : string;
  weight : Q
}.

(** The two tables.  [id] is the primary key of [execution_records]: no two
    rows of a database the manager has written share an id. *)
Record Database := {
  execution_records : list ExecutionRecord;
  similarity_index : list IndexRow
}.

Definition empty_database : Database :=
  {| execution_records := []; similarity_index := [] |}.

(** External interactions of the memory manager. *)
Inductive Event :=
| EvExtractKeywords (question : string) (steps : list string)
| EvConnect.

Record World := {
  db : Database;
  trace : list Event
}.

Definition initial_world : World := {| db := empty_database; trace := [] |}.

(** State monad over the world. *)
Definition M (A : Type) : Type := World -> A * World.

Definition ret {A} (a : A) : M A := fun w => (a, w).

Definition bind {A B} (m : M A) (k : A -> M B) : M B :=
  fun w => let (a, w') := m w in k a w'.

Declare Scope mem_scope.
Delimit Scope mem_scope with mem.
Notation "'let*' x ':=' m 'in' k" := (bind m (fun x => k))
  (at level 10, x name, m at level 100, k at level 200) : mem_scope.
Notation "'run' m 'then' k" := (bind m (fun _ => k))
  (at level 10, m at level 100, k at level 200) : mem_scope.

Definition emit (e : Event) : M unit :=
  fun w => (tt, {| db := db w; trace := trace w ++ [e] |}).

Definition get_db : M Database := fun w => (db w, w).

Definition put_db (d : Database) : M unit :=
  fun w => (tt, {| db := d; trace := trace w |}).

(** [sqlite3.connect(self.db_path, ...)] and the pragmas that follow it. *)
Definition connect : M unit := emit EvConnect.

(** The range of an SQLite [INTEGER].  Binding a Python [int] outside it as
    a statement parameter raises [OverflowError] in [cursor.execute]. *)
Definition sqlite_int_min : Z := -9223372036854775808.
Definition sqlite_int_max : Z := 9223372036854775807.

Definition fits_sqlite_integer (n : Z) : bool :=
  (sqlite_int_min <=? n) && (n <=? sqlite_int_max).

(** [... LIMIT ?] for a limit SQLite can bind (the callers return before
    the query for any other): no upper bound for a negative limit. *)
Definition sql_limit {A} (limit : Z) (rows : list A) : list A :=
  if limit <? 0 then rows else take (Z.to_nat limit) rows.

(** Stable insertion sort: [x] goes before the first element it may precede. *)
Fixpoint insert_by {A} (before : A -> A -> bool) (x : A) (l : list A) : list A :=
  match l with
  | [] => [x]
  | y :: l' => if before x y then x :: l else y :: insert_by before x l'
  end.

Definition sort_by {A} (before : A -> A -> bool) (l : list A) : list A :=
  foldr (insert_by before) [] l.

(* ===================================================================== *)
(** ** memory_manager.py: class MemoryManager *)
(* ===================================================================== *)

(** What [store_execution] returns (a message string in the source). *)
Inductive StoreOutcome :=
| RatingBelowFour               (* "评分低于四星，不存储到记忆系统中" *)
| StoredAs (record_id : string) (* "执行记录已成功存储到记忆系统：{record_id}" *)
| StorageFailed.                (* "记忆存储失败：{str(e)}" *)

(** A record as [find_similar_executions] returns it: the dataclass with the
    attribute [weighted_score] set from column 11 of the result row. *)
Record ScoredRecord := {
  record : ExecutionRecord;
  weighted_score : Q
}.

(** The dictionary [get_statistics] returns. *)
Record Statistics := {
  total_records : Z;
  rating_distribution : gmap Z Z;
  task_type_distribution : gmap string Z;
  success_rate : Q
}.

Definition bool_to_Q (b : bool) : Q := if b then 1%Q else 0%Q.

Definition Z_to_Q (z : Z) : Q := inject_Z z.

Definition len_Q {A} (l : list A) : Q := inject_Z (Z.of_nat (length l)).

Section MemoryManager.

(** [hashlib.md5(content.encode()).hexdigest()[:12]]. *)
Variable md5_hex12 : string -> string.

(** [self.llm]: [None] when no model is configured; otherwise the text of
    the model's reply to the keyword prompt built from the question and the
    steps, [None] standing for a raised exception. *)
Variable llm : option (string -> list string -> option string).

Definition _generate_record_id (question timestamp : string) : string :=
  md5_hex12 (question +:+ "_" +:+ timestamp).

(** The regular-expression extraction of [_extract_keywords] (used without a
    model and as the fallback of the [except] branch). *)
Definition simple_keywords (question : string) (steps : list string) : list string :=
  let text := question +:+ " " +:+ Text.join_space steps in
  let keywords := Text.findall text in
  take 10 (Text.distinct
             (map Text.lower
                  (filter (fun kw => (1 <? Z.of_nat (Text.len kw))) keywords))).

Definition parse_keywords (keywords_text : string) : list string :=
  let keywords :=
    map (fun kw => Text.lower (Text.strip kw))
        (filter (fun kw => negb (String.eqb (Text.strip kw) ""))
                (Text.split_comma keywords_text)) in
  take 10 keywords.

(** The value [_extract_keywords] returns. *)
Definition extracted_keywords (question : string) (steps : list string) : list string :=
  match llm with
  | None => simple_keywords question steps
  | Some ainvoke =>
      match ainvoke question steps with
      | Some keywords_text => parse_keywords keywords_text
      | None => simple_keywords question steps
      end
  end.

(** [await self._extract_keywords(question, steps)]. *)
Definition _extract_keywords (question : string) (steps : list string)
  : M (list string) :=
  (run emit (EvExtractKeywords question steps) then
   ret (extracted_keywords question steps))%mem.

(** [INSERT OR REPLACE INTO execution_records]: [id] is the primary key, so
    a row with the same id is removed before the new row is added. *)
Definition insert_or_replace (r : ExecutionRecord) (rows : list ExecutionRecord)
  : list ExecutionRecord :=
  filter (fun r' => negb (String.eqb (id r') (id r))) rows ++ [r].

(** [DELETE FROM similarity_index WHERE record_id = ?]. *)
Definition delete_index (rid : string) (rows : list IndexRow) : list IndexRow :=
  filter (fun s => negb (String.eqb (record_id s) rid)) rows.

(** The loop [for keyword in keywords: INSERT INTO similarity_index ...]. *)
Definition insert_index (rid : string) (keywords : list string)
           (rows : list IndexRow) : list IndexRow :=
  fold_left
    (fun rows keyword =>
       rows ++ [{| keyword := keyword; record_id := rid; weight := 1%Q |}])
    keywords rows.

Definition store_execution
           (question : string) (execution_steps : list string) (result : string)
           (rating : Z) (task_type : string) (success : bool)
           (execution_time : Q) (now : string) : M StoreOutcome :=
  (if rating <? 4 then ret RatingBelowFour
   else
     let timestamp := now in
     let record_id := _generate_record_id question timestamp in
     let* keywords := _extract_keywords question execution_steps in
     let record :=
       {| id := record_id; question := question;
          execution_steps := execution_steps; result := result;
          rating := rating; timestamp := timestamp; task_type := task_type;
          success := success; execution_time := execution_time;
          similarity_keywords := keywords |} in
     run connect then
     if fits_sqlite_integer rating then
       let* d := get_db in
       let records := insert_or_replace record (execution_records d) in
       let index := delete_index record_id (similarity_index d) in
       let index := insert_index record_id keywords index in
       run put_db {| execution_records := records; similarity_index := index |} then
       ret (StoredAs record_id)
     else
       (* the first [cursor.execute] raises [OverflowError] on the rating:
          [except Exception], [conn.rollback()], nothing is written *)
       ret StorageFailed)%mem.

(** [COUNT(s.keyword)] of the group of [r]: the index rows of [r] whose
    keyword is one of the query's. *)
Definition match_count (d : Database) (current_keywords : list string)
           (r : ExecutionRecord) : Z :=
  Z.of_nat
    (length
       (filter (fun s => String.eqb (record_id s) (id r)
                         && bool_decide (keyword s ∈ current_keywords))
               (similarity_index d))).

(** Column [weighted_score] of the query. *)
Definition score_of (d : Database) (current_keywords : list string)
           (r : ExecutionRecord) : Q :=
  (Z_to_Q (match_count d current_keywords r) * 1
   + Z_to_Q (rating r) * 2
   + (if success r then 1 else 0)
   + (if (5 <=? rating r)%Z then 3
      else if (4 <=? rating r)%Z then 3 # 2
      else 0))%Q.

(** [ORDER BY weighted_score DESC, r.rating DESC, r.timestamp DESC]:
    [a] may come before [b]. *)
Definition rank_before (a b : ScoredRecord) : bool :=
  match (weighted_score a ?= weighted_score b)%Q with
  | Gt => true
  | Lt => false
  | Eq =>
      match (rating (record a) ?= rating (record b))%Z with
      | Gt => true
      | Lt => false
      | Eq => String.leb (timestamp (record b)) (timestamp (record a))
      end
  end.

(** The groups of the join: one row per record with at least one index row
    matching the query, with its score. *)
Definition matching_rows (d : Database) (current_keywords : list string)
  : list ScoredRecord :=
  map (fun r => {| record := r; weighted_score := score_of d current_keywords r |})
      (filter (fun r => 0 <? match_count d current_keywords r)
              (execution_records d)).

Definition similar_query (d : Database) (current_keywords : list string)
           (limit : Z) : list ScoredRecord :=
  sql_limit limit (sort_by rank_before (matching_rows d current_keywords)).

Definition find_similar_executions (question : string) (limit : Z)
  : M (list ScoredRecord) :=
  (let* current_keywords := _extract_keywords question [] in
   match current_keywords with
   | [] => ret []
   | _ =>
       run connect then
       let* d := get_db in
       if fits_sqlite_integer limit
       then ret (similar_query d current_keywords limit)
       else ret []   (* [OverflowError] on the limit: [except], [return []] *)
   end)%mem.

(** [ORDER BY timestamp DESC]. *)
Definition newer_first (a b : ExecutionRecord) : bool :=
  String.leb (timestamp b) (timestamp a).

Definition get_all_records (limit : Z) : M (list ExecutionRecord) :=
  (run connect then
   let* d := get_db in
   if fits_sqlite_integer limit
   then ret (sql_limit limit (sort_by newer_first (execution_records d)))
   else ret [])%mem.   (* [OverflowError] on the limit: [except], [return []] *)

Definition delete_record (rid : string) : M bool :=
  (run connect then
   let* d := get_db in
   run put_db
     {| execution_records :=
          filter (fun r => negb (String.eqb (id r) rid)) (execution_records d);
        similarity_index := delete_index rid (similarity_index d) |} then
   ret true)%mem.

(** [SELECT key, COUNT( * ) ... GROUP BY key] read into a [dict]. *)
Definition count_by `{Countable K} {A} (key : A -> K) (rows : list A) : gmap K Z :=
  foldr (fun r m => <[key r := default 0 (m !! key r) + 1]> m) ∅ rows.

(** [SELECT AVG(CAST(success AS FLOAT))]: NULL on an empty table. *)
Definition avg_success (rows : list ExecutionRecord) : option Q :=
  match rows with
  | [] => None
  | _ => Some (fold_left Qplus (map (fun r => bool_to_Q (success r)) rows) 0
               / len_Q rows)%Q
  end.

Definition get_statistics : M Statistics :=
  (run connect then
   let* d := get_db in
   let rows := execution_records d in
   ret {| total_records := Z.of_nat (length rows);
          rating_distribution := count_by rating rows;
          task_type_distribution := count_by task_type rows;
          success_rate := default 0%Q (avg_success rows) |})%mem.

End MemoryManager.

(* ===================================================================== *)
(** ** rating_system.py: class RatingSystem *)
(* ===================================================================== *)

(** The text [process_rating] puts under ["storage_message"]. *)
Inductive StorageMessage :=
| StorageDone (storage_result : StoreOutcome)  (* "✅ {storage_result}" *)
| BelowFourNotStored.                          (* "⚠️ 评分低于4星，未存储到记忆模块" *)

(** The dictionary [process_rating] returns. *)
Inductive RatingResult :=
| RatingRejected
    (* {"success": False, "message": "评分必须在1-5星之间", "stored": False} *)
| RatingProcessed (stored : bool) (rating : Z) (storage_message : StorageMessage)
                  (current_records_count : Z).

Section RatingSystem.

Variable md5_hex12 : string -> string.
Variable llm : option (string -> list string -> option string).

Definition should_store_execution (rating : Z) : bool := 4 <=? rating.

Definition process_rating
           (rating : Z) (question : string) (execution_steps : list string)
           (result : string) (task_type : string) (execution_time : Q)
           (now : string) : M RatingResult :=
  (if (rating <? 1) || (5 <? rating) then ret RatingRejected
   else
     let success := 4 <=? rating in
     let* storage :=
       (if 4 <=? rating then
          let* storage_result :=
            store_execution md5_hex12 llm question execution_steps result
                            rating task_type success execution_time now in
          ret (true, StorageDone storage_result)
        else ret (false, BelowFourNotStored)) in
     let* all_records := get_all_records 50 in
     let current_records_count := Z.of_nat (length all_records) in
     ret (RatingProcessed (fst storage) rating (snd storage)
                          current_records_count))%mem.

End RatingSystem.

(* ===================================================================== *)
(** ** strategy_store.py: class StrategyStore *)
(* ===================================================================== *)

(** One entry of [weighted_steps]. *)
Record WeightedStep := {
  step : string;
  step_weight : Q;
  step_rating : Z;
  step_record_id : string
}.

Inductive SuggestionMessage :=
| NoSimilarRecords        (* "未找到相似的历史执行记录" *)
| QualityInsufficient     (* "找到相似记录但执行质量不足" *)
| BasedOn (high_quality five_star : Z).
    (* "基于{..}条高质量记录生成执行建议（含{..}条五星记录）" *)

(** One entry of ["similar_records"]. *)
Record SimilarInfo := {
  info_question : string;
  info_rating : Z;
  info_timestamp : string;
  info_task_type : string;
  info_weighted_score : Q
}.

(** The dictionary [get_strategy_suggestions] returns. *)
Record Suggestion := {
  has_suggestions : bool;
  message : SuggestionMessage;
  suggested_steps : list string;
  confidence : Q;
  similar_records : list SimilarInfo
}.

(** Python's [min(a, b)]: [b] only when it is smaller. *)
Definition py_min (a b : Q) : Q :=
  match (b ?= a)%Q with Lt => b | _ => a end.

(** Python's [sum] of a list of floats. *)
Definition sum_Q (l : list Q) : Q := fold_left Qplus l 0%Q.

Definition is_high_quality (r : ScoredRecord) : bool :=
  (4 <=? rating (record r)) && success (record r).

Definition record_weight (r : ScoredRecord) : Q :=
  let record_weight :=
    if rating (record r) =? 5 then 3%Q
    else if rating (record r) =? 4 then (3 # 2)%Q
    else 1%Q in
  match (0 ?= weighted_score r)%Q with
  | Lt => (record_weight * (1 + weighted_score r / 10))%Q
  | _ => record_weight
  end.

Definition base_confidence (r : ScoredRecord) : Q :=
  (Z_to_Q (rating (record r)) / 5 * (8 # 10) + (2 # 10))%Q.

Definition weighted_confidence (r : ScoredRecord) : Q :=
  (base_confidence r * record_weight r)%Q.

Definition steps_of (r : ScoredRecord) (weighted_steps : list WeightedStep)
  : list WeightedStep :=
  fold_left
    (fun ws step =>
       ws ++ [{| step := step; step_weight := record_weight r;
                 step_rating := rating (record r);
                 step_record_id := id (record r) |}])
    (execution_steps (record r)) weighted_steps.

(** The loop [for record in similar_records] over the three accumulators
    [weighted_steps], [confidence_scores], [high_quality_records]. *)
Definition collect (similar : list ScoredRecord)
  : list WeightedStep * list Q * list ScoredRecord :=
  fold_left
    (fun acc r =>
       let '(weighted_steps, confidence_scores, high_quality_records) := acc in
       if is_high_quality r then
         (steps_of r weighted_steps,
          confidence_scores ++ [weighted_confidence r],
          high_quality_records ++ [r])
       else acc)
    similar ([], [], []).

(** [weighted_steps.sort(key=lambda x: x['weight'], reverse=True)]. *)
Definition heavier_first (a b : WeightedStep) : bool :=
  Qle_bool (step_weight b) (step_weight a).

(** The loop [for item in weighted_steps] with its [break]. *)
Fixpoint dedup_loop (items : list WeightedStep) (seen_steps : gset string)
         (unique_steps : list string) : list string :=
  match items with
  | [] => unique_steps
  | item :: rest =>
      if bool_decide (step item ∈ seen_steps)
      then dedup_loop rest seen_steps unique_steps
      else
        let seen_steps := seen_steps ∪ {[step item]} in
        let unique_steps := unique_steps ++ [step item] in
        if (15 <=? length unique_steps)%nat then unique_steps
        else dedup_loop rest seen_steps unique_steps
  end.

Definition five_star_count (high_quality_records : list ScoredRecord) : Z :=
  Z.of_nat (length (filter (fun r => rating (record r) =? 5) high_quality_records)).

Definition average_confidence (confidence_scores : list Q)
           (high_quality_records : list ScoredRecord) : Q :=
  match confidence_scores with
  | [] => 0%Q
  | _ =>
      let avg_confidence := (sum_Q confidence_scores / len_Q confidence_scores)%Q in
      let five_star_count := five_star_count high_quality_records in
      if 0 <? five_star_count
      then py_min (avg_confidence * (1 + Z_to_Q five_star_count * (1 # 10)))%Q 1%Q
      else avg_confidence
  end.

Definition similar_info (r : ScoredRecord) : SimilarInfo :=
  {| info_question := question (record r);
     info_rating := rating (record r);
     info_timestamp := timestamp (record r);
     info_task_type := task_type (record r);
     info_weighted_score := weighted_score r |}.

(** The body of [get_strategy_suggestions] after the retrieval. *)
Definition suggestions_from (similar : list ScoredRecord) : Suggestion :=
  match similar with
  | [] =>
      {| has_suggestions := false; message := NoSimilarRecords;
         suggested_steps := []; confidence := 0%Q; similar_records := [] |}
  | _ =>
      let '(weighted_steps, confidence_scores, high_quality_records) :=
        collect similar in
      match weighted_steps with
      | [] =>
          {| has_suggestions := false; message := QualityInsufficient;
             suggested_steps := []; confidence := 0%Q; similar_records := [] |}
      | _ =>
          let weighted_steps := sort_by heavier_first weighted_steps in
          let unique_steps := dedup_loop weighted_steps ∅ [] in
          {| has_suggestions := true;
             message := BasedOn (Z.of_nat (length high_quality_records))
                                (five_star_count high_quality_records);
             suggested_steps := unique_steps;
             confidence := average_confidence confidence_scores high_quality_records;
             similar_records := map similar_info high_quality_records |}
      end
  end.

Section StrategyStore.

Variable llm : option (string -> list string -> option string).

Definition get_strategy_suggestions (question : string) : M Suggestion :=
  (let* similar := find_similar_executions llm question 5 in
   ret (suggestions_from similar))%mem.

End StrategyStore.

(* ===================================================================== *)
(** ** Histories of calls *)
(* ===================================================================== *)

(** The record [store_execution] builds for its arguments. *)
Definition built_record md5 llm (q : string) (steps : list string) (res : string)
           (r : Z) (ty : string) (sc : bool) (et : Q) (now : string)
  : ExecutionRecord :=
  {| id := _generate_record_id md5 q now; question := q;
     execution_steps := steps; result := res; rating := r; timestamp := now;
     task_type := ty; success := sc; execution_time := et;
     similarity_keywords := extracted_keywords llm q steps |}.

(** One call of a public method of the subsystem. *)
Inductive Call :=
| CallStore (question : string) (execution_steps : list string) (result : string)
            (rating : Z) (task_type : string) (success : bool)
            (execution_time : Q) (now : string)
| CallProcessRating (rating : Z) (question : string) (execution_steps : list string)
                    (result : string) (task_type : string) (execution_time : Q)
                    (now : string)
| CallFind (question : string) (limit : Z)
| CallSuggest (question : string)
| CallGetAll (limit : Z)
| CallDelete (record_id : string)
| CallStatistics.

Section Histories.

Variable md5_hex12 : string -> string.
Variable llm : option (string -> list string -> option string).

(** The world after one call. *)
Definition perform (w : World) (c : Call) : World :=
  match c with
  | CallStore q steps res r ty sc et now =>
      snd (store_execution md5_hex12 llm q steps res r ty sc et now w)
  | CallProcessRating r q steps res ty et now =>
      snd (process_rating md5_hex12 llm r q steps res ty et now w)
  | CallFind q limit => snd (find_similar_executions llm q limit w)
  | CallSuggest q => snd (get_strategy_suggestions llm q w)
  | CallGetAll limit => snd (get_all_records limit w)
  | CallDelete rid => snd (delete_record rid w)
  | CallStatistics => snd (get_statistics w)
  end.

(** The world after a history of calls on a fresh, empty store. *)
Definition after_calls (history : list Call) : World :=
  fold_left perform history initial_world.

End Histories.

(** A history in which records are stored through [process_rating] only. *)
Definition rating_path_only (history : list Call) : bool :=
  forallb (fun c => match c with CallStore _ _ _ _ _ _ _ _ => false | _ => true end)
          history.

(** [rec] was built by a call of the history that passed the rating gate:
    a direct [store_execution], or a [process_rating] (which stores with
    [success = (rating >= 4)]). *)
Definition admitted_by md5 llm (history : list Call) (rec : ExecutionRecord) : Prop :=
  exists q steps res r ty sc et now,
    rec = built_record md5 llm q steps res r ty sc et now /\ 4 <= r /\
    (CallStore q steps res r ty sc et now ∈ history
     \/ (CallProcessRating r q steps res ty et now ∈ history /\ sc = true)).

(** The order of [ORDER BY weighted_score DESC, r.rating DESC, r.timestamp
    DESC] as a relation: [a] is placed no later than [b]. *)
Definition ranks_no_later (a b : ScoredRecord) : Prop :=
  (weighted_score b < weighted_score a)%Q
  \/ ((weighted_score a == weighted_score b)%Q
      /\ (rating (record b) < rating (record a)
          \/ (rating (record a) = rating (record b)
              /\ String.leb (timestamp (record b)) (timestamp (record a)) = true))).

(* ===================================================================== *)
(** ** Ghost views of the synthesizer's loops *)
(* ===================================================================== *)

(** The list [weighted_steps] when the record loop ends. *)
Definition weighted_steps_of (similar : list ScoredRecord) : list WeightedStep :=
  fst (fst (collect similar)).

(** The entries one high-quality record appends to [weighted_steps]. *)
Definition entries_of (r : ScoredRecord) : list WeightedStep :=
  map (fun s => {| step := s; step_weight := record_weight r;
                   step_rating := rating (record r);
                   step_record_id := id (record r) |})
      (execution_steps (record r)).

(** [dedup_loop] recording the entry it keeps instead of its text. *)
Fixpoint kept_entries (items : list WeightedStep) (seen_steps : gset string)
         (kept : list WeightedStep) : list WeightedStep :=
  match items with
  | [] => kept
  | item :: rest =>
      if bool_decide (step item ∈ seen_steps)
      then kept_entries rest seen_steps kept
      else
        let seen_steps := seen_steps ∪ {[step item]} in
        let kept := kept ++ [item] in
        if (15 <=? length kept)%nat then kept
        else kept_entries rest seen_steps kept
  end.

(** The first entry of every step text not seen before, without the cap. *)
Fixpoint first_entries (items : list WeightedStep) (seen_steps : gset string)
  : list WeightedStep :=
  match items with
  | [] => []
  | item :: rest =>
      if bool_decide (step item ∈ seen_steps)
      then first_entries rest seen_steps
      else item :: first_entries rest (seen_steps ∪ {[step item]})
  end.

(** [a] weighs at least as much as [b]. *)
Definition no_lighter (a b : WeightedStep) : Prop :=
  (step_weight b <= step_weight a)%Q.

(** The entries behind the suggested steps of [suggestions_from]. *)
Definition kept_of (similar : list ScoredRecord) : list WeightedStep :=
  kept_entries (sort_by heavier_first (weighted_steps_of similar)) ∅ [].

(* ===================================================================== *)
(** ** The confidence arithmetic in binary64 *)
(* ===================================================================== *)

(** The float operations of [get_strategy_suggestions] on IEEE 754 doubles,
    operation by operation, for the two stores of the bench: they check that
    the rational model above does not owe its verdicts to exact arithmetic. *)
Module Binary64.

(** [base_confidence * record_weight] of a record with a positive score. *)
Definition weighted_confidence (rating record_weight weighted_score : float) : float :=
  let base_confidence :=
    (rating / 5 * 0x1.999999999999ap-1 + 0x1.999999999999ap-3)%float in
  let record_weight := (record_weight * (1 + weighted_score / 10))%float in
  (base_confidence * record_weight)%float.

(** One four-star record of score 11.5: [sum(scores) / len(scores)]. *)
Definition four_star_alone : float :=
  ((0 + weighted_confidence 4 0x1.8p+0 0x1.7p+3) / 1)%float.

(** The same record after a five-star record of score 16: the average, the
    boost by [1 + 1 * 0.1], the clamp. *)
Definition with_five_star : float :=
  let avg_confidence :=
    ((0 + weighted_confidence 5 3 16 + weighted_confidence 4 0x1.8p+0 0x1.7p+3)
     / 2)%float in
  let boosted := (avg_confidence * (1 + 1 * 0x1.999999999999ap-4))%float in
  if PrimFloat.ltb 1 boosted then 1%float else boosted.

End Binary64.

(* ===================================================================== *)
(** ** A test bench: no model configured, a toy digest *)
(* ===================================================================== *)

Module Bench.

(** A toy digest for the bench: the content itself. *)
Definition digest (content : string) : string := content.

Definition no_llm : option (string -> list string -> option string) := None.

Definition store := store_execution digest no_llm.
Definition find := find_similar_executions no_llm.
Definition suggest := get_strategy_suggestions no_llm.

Definition steps_A : list string := ["open browser"; "search AI trends"; "summarize"].
Definition steps_B : list string := ["open browser"; "search AI news"].

(** Record A of the scenario, five stars. *)
Definition world_A : World :=
  snd (store "find AI trends" steps_A "done" 5 "search" true 12%Q "2025-01-01T10:00:00"
             initial_world).

(** A four-star record alone. *)
Definition world_4 : World :=
  snd (store "find AI news" steps_B "done" 4 "search" true 9%Q "2025-01-01T09:00:00"
             initial_world).

(** The four-star record, then the five-star record added. *)
Definition world_4_5 : World :=
  snd (store "find AI trends" steps_A "done" 5 "search" true 12%Q "2025-01-01T10:00:00"
             world_4).

(** A history on the rating path: five stars, three stars, four stars. *)
Definition ratings_history : list Call :=
  [CallProcessRating 5 "find AI trends" steps_A "done" "search" 12%Q "2025-01-01T10:00:00";
   CallProcessRating 3 "find AI news" steps_B "done" "search" 9%Q "2025-01-01T11:00:00";
   CallFind "AI trends" 3;
   CallProcessRating 4 "find AI papers" steps_B "done" "search" 9%Q "2025-01-01T12:00:00"].

(** Thirty distinct steps over two records. *)
Definition steps_a15 : list string :=
  ["open page a1"; "open page a2"; "open page a3"; "open page a4"; "open page a5";
   "open page a6"; "open page a7"; "open page a8"; "open page a9"; "open page a10";
   "open page a11"; "open page a12"; "open page a13"; "open page a14"; 
   "open page a15"].

Definition steps_b15 : list string :=
  ["open page b1"; "open page b2"; "open page b3"; "open page b4"; "open page b5";
   "open page b6"; "open page b7"; "open page b8"; "open page b9"; "open page b10";
   "open page b11"; "open page b12"; "open page b13"; "open page b14"; 
   "open page b15"].

Definition world_30 : World :=
  snd (store "visit pages" steps_a15 "done" 5 "browse" true 30%Q "2025-02-01T10:00:00"
        (snd (store "visit pages" steps_b15 "done" 4 "browse" true 31%Q
                    "2025-02-01T09:00:00" initial_world))).

End Bench.

(* ===================================================================== *)
(** ** The two tables together *)
(* ===================================================================== *)

(** The rows of [similarity_index] that belong to the record [rid]. *)
Definition index_rows_of (rid : string) (d : Database) : list IndexRow :=
  filter (fun s => String.eqb (record_id s) rid) (similarity_index d).

(** The rows [store_execution] inserts for a record: one per keyword, all
    of weight 1.0. *)
Definition keyword_rows (rid : string) (keywords : list string) : list IndexRow :=
  map (fun kw => {| keyword := kw; record_id := rid; weight := 1%Q |}) keywords.

(** The index agrees with the records: the rows of every stored record are
    its stored keywords, and every row belongs to a stored record. *)
Definition index_consistent (d : Database) : Prop :=
  (forall r, r ∈ execution_records d ->
             index_rows_of (id r) d = keyword_rows (id r) (similarity_keywords r))
  /\ (forall s, s ∈ similarity_index d ->
                exists r, r ∈ execution_records d /\ id r = record_id s).

(** The database after a record and its keyword rows are written. *)
Definition written_db (rec : ExecutionRecord) (d : Database) : Database :=
  {| execution_records := insert_or_replace rec (execution_records d);
     similarity_index :=
       insert_index (id rec) (similarity_keywords rec)
                    (delete_index (id rec) (similarity_index d)) |}.

(** The database after the two [DELETE] statements of [delete_record]. *)
Definition deleted_db (rid : string) (d : Database) : Database :=
  {| execution_records :=
       filter (fun r => negb (String.eqb (id r) rid)) (execution_records d);
     similarity_index := delete_index rid (similarity_index d) |}.

(** [ORDER BY timestamp DESC] as a relation: [a] is no older than [b]. *)
Definition no_older (a b : ExecutionRecord) : Prop :=
  String.leb (timestamp b) (timestamp a) = true.

(** More stores for the bench. *)
Module Cases.

(** The query of the bench with a keyword repeated and the order changed. *)
Definition query_1 : list string := ["ai"; "trends"; "ai"].
Definition query_2 : list string := ["trends"; "ai"].

(** A history that stores two records and deletes the first. *)
Definition history_delete : list Call :=
  [CallStore "find AI news" Bench.steps_B "done" 4 "search" true 9%Q "2025-01-01T09:00:00";
   CallStore "find AI trends" Bench.steps_A "done" 5 "search" true 12%Q
             "2025-01-01T10:00:00";
   CallDelete "find AI news_2025-01-01T09:00:00"].

End Cases.

(* ===================================================================== *)
(** ** rating_system.py: get_rating_statistics *)
(* ===================================================================== *)

(** [sum(term(k, v) for k, v in d.items())] over a dictionary of integers.
    (A generator with a filter, [sum(v for k, v in ... if c)], is the sum of
    the terms [v if c else 0].) *)
Definition dict_sum (term : Z -> Z -> Z) (d : gmap Z Z) : Z :=
  map_fold (fun k v acc => acc + term k v) 0 d.

(** The dictionary [get_rating_statistics] returns; the two early returns
    have no ["success_rate"] entry. *)
Record RatingStatistics := {
  total_ratings : Z;
  average_rating : Q;
  report_distribution : gmap Z Z;
  storage_rate : Q;
  report_success_rate : option Q
}.

Definition empty_report : RatingStatistics :=
  {| total_ratings := 0; average_rating := 0%Q; report_distribution := ∅;
     storage_rate := 0%Q; report_success_rate := None |}.

(** [get_statistics] answers [{}] only from its [except] branch, which the
    model does not reach, so the test [if not stats] is always false. *)
Definition get_rating_statistics : M RatingStatistics :=
  (let* stats := get_statistics in
   let rating_dist := rating_distribution stats in
   let total_ratings := dict_sum (fun _ count => count) rating_dist in
   if total_ratings =? 0 then ret empty_report
   else
     let weighted_sum := dict_sum (fun rating count => rating * count) rating_dist in
     let average_rating := (Z_to_Q weighted_sum / Z_to_Q total_ratings)%Q in
     let high_rating_count :=
       dict_sum (fun rating count => if 4 <=? rating then count else 0) rating_dist in
     let storage_rate :=
       if 0 <? total_ratings
       then (Z_to_Q high_rating_count / Z_to_Q total_ratings)%Q else 0%Q in
     ret {| total_ratings := total_ratings;
            average_rating := average_rating;
            report_distribution := rating_dist;
            storage_rate := storage_rate;
            report_success_rate := Some (success_rate stats) |})%mem.

(** The number of rows with a given key, as a dictionary entry: absent when
    there is none. *)
Definition count_entry {A K} `{EqDecision K} (key : A -> K) (k : K) (rows : list A)
  : option Z :=
  let n := Z.of_nat (length (filter (fun r => key r = k) rows)) in
  if n =? 0 then None else Some n.

(* ===================================================================== *)
(** ** strategy_store.py: optimize_strategy_with_memory *)
(* ===================================================================== *)

(** The prompt of a strategy: the caller's text, or one of the two texts
    [optimize_strategy_with_memory] formats around it, given by the values
    that fill the format string. *)
Inductive Prompt :=
| OriginalPrompt (text : string)
| EnhancedPrompt (original : string) (records : Z) (steps : list string)
                 (confidence : Q)
    (* "... 记忆增强提示 ... 根据{records}条相似的成功执行记录 ... {steps} ...
       策略置信度：{confidence:.1%} ..." *)
| ReferencePrompt (original : string) (confidence : Q) (steps : list string).
    (* "... 历史参考（仅供参考）... 策略置信度较低（{confidence:.1%}）... {steps} ..." *)

(** The text under ["memory_info"]. *)
Inductive MemoryInfo :=
| NoRelatedHistory                 (* "无相关历史记录" *)
| OptimizedWith (records : Z)      (* "基于{records}条历史记录优化" *)
| ReferenceTo (records : Z).       (* "参考{records}条历史记录（低置信度）" *)

Section Optimize.

(** The values of the entries of a strategy the method does not read. *)
Variable V : Type.
Variable llm : option (string -> list string -> option string).

(** [original_strategy]: the three entries the method reads and the rest. *)
Record Strategy := {
  task_prompt : string;
  max_steps : Z;
  strategy_task_type : string;
  other_entries : gmap string V
}.

(** The dictionary [optimize_strategy_with_memory] returns. *)
Record OptimizedStrategy := {
  optimized_prompt : Prompt;
  optimized_max_steps : Z;
  optimized_task_type : string;
  optimized_other_entries : gmap string V;
  memory_enhanced : bool;
  memory_info : MemoryInfo;
  optimized_confidence : option Q
}.

Definition optimize_strategy_with_memory (original_strategy : Strategy)
           (question : string) : M OptimizedStrategy :=
  (let* memory_suggestions := get_strategy_suggestions llm question in
   let records := Z.of_nat (length (similar_records memory_suggestions)) in
   if negb (has_suggestions memory_suggestions) then
     ret {| optimized_prompt := OriginalPrompt (task_prompt original_strategy);
            optimized_max_steps := max_steps original_strategy;
            optimized_task_type := strategy_task_type original_strategy;
            optimized_other_entries := other_entries original_strategy;
            memory_enhanced := false;
            memory_info := NoRelatedHistory;
            optimized_confidence := None |}
   else
     match (7 # 10 ?= confidence memory_suggestions)%Q with
     | Lt =>
         ret {| optimized_prompt :=
                  EnhancedPrompt (task_prompt original_strategy) records
                                 (suggested_steps memory_suggestions)
                                 (confidence memory_suggestions);
                optimized_max_steps := Z.min (max_steps original_strategy + 2) 25;
                optimized_task_type := strategy_task_type original_strategy;
                optimized_other_entries := ∅;
                memory_enhanced := true;
                memory_info := OptimizedWith records;
                optimized_confidence := Some (confidence memory_suggestions) |}
     | _ =>
         ret {| optimized_prompt :=
                  ReferencePrompt (task_prompt original_strategy)
                                  (confidence memory_suggestions)
                                  (take 99 (suggested_steps memory_suggestions));
                optimized_max_steps := max_steps original_strategy;
                optimized_task_type := strategy_task_type original_strategy;
                optimized_other_entries := other_entries original_strategy;
                memory_enhanced := true;
                memory_info := ReferenceTo records;
                optimized_confidence := Some (confidence memory_suggestions) |}
     end)%mem.

End Optimize.

Arguments task_prompt {V} _.
Arguments max_steps {V} _.
Arguments strategy_task_type {V} _.
Arguments other_entries {V} _.
Arguments optimized_prompt {V} _.
Arguments optimized_max_steps {V} _.
Arguments optimized_task_type {V} _.
Arguments optimized_other_entries {V} _.
Arguments memory_enhanced {V} _.
Arguments memory_info {V} _.
Arguments optimized_confidence {V} _.
Arguments optimize_strategy_with_memory {V} _ _ _.

(* ===================================================================== *)
(** ** strategy_store.py: get_strategy_templates *)
(* ===================================================================== *)

(** One entry of ["best_examples"]. *)
Record TemplateExample := {
  example_question : string;
  example_steps : list string;
  example_rating : Z;
  example_timestamp : string
}.

(** One entry of the list [get_strategy_templates] returns. *)
Record Template := {
  template_task_type : string;
  template_count : Z;
  best_examples : list TemplateExample
}.

Definition example_of (r : ExecutionRecord) : TemplateExample :=
  {| example_question := question r;
     example_steps := execution_steps r;
     example_rating := rating r;
     example_timestamp := timestamp r |}.

(** [templates[task_type].append(example)], the list being created on the
    first use of the key; the dictionary keeps its keys in insertion order. *)
Fixpoint add_example (task_type : string) (example : TemplateExample)
         (templates : list (string * list TemplateExample))
  : list (string * list TemplateExample) :=
  match templates with
  | [] => [(task_type, [example])]
  | (k, examples) :: rest =>
      if String.eqb k task_type then (k, examples ++ [example]) :: rest
      else (k, examples) :: add_example task_type example rest
  end.

(** [sorted(records, key=lambda x: x["rating"], reverse=True)]. *)
Definition better_rated_first (a b : TemplateExample) : bool :=
  example_rating b <=? example_rating a.

Definition get_strategy_templates : M (list Template) :=
  (let* records := get_all_records 100 in
   let high_quality_records :=
     filter (fun r => (4 <=? rating r) && success r) records in
   let templates :=
     fold_left (fun templates r => add_example (task_type r) (example_of r) templates)
               high_quality_records [] in
   ret (map (fun '(task_type, records) =>
               {| template_task_type := task_type;
                  template_count := Z.of_nat (length records);
                  best_examples := take 99 (sort_by better_rated_first records) |})
            templates))%mem.

(** The examples of the records of one task type, in their order. *)
Definition group_examples (task_type_ : string) (records : list ExecutionRecord)
  : list TemplateExample :=
  map example_of (filter (fun r => task_type r = task_type_) records).

(** [templates.get(task_type)]. *)
Fixpoint examples_of (task_type : string)
         (templates : list (string * list TemplateExample))
  : option (list TemplateExample) :=
  match templates with
  | [] => None
  | (k, examples) :: rest =>
      if String.eqb k task_type then Some examples else examples_of task_type rest
  end.

(** [a] is rated at least as high as [b]. *)
Definition rated_no_lower (a b : TemplateExample) : Prop :=
  example_rating b <= example_rating a.

(* ===================================================================== *)
(** ** task_executor.py: the caller of the rating path *)
(* ===================================================================== *)

Module Lines.

(** [str.split(sep)] for a one-character separator. *)
Fixpoint split_go (sep : ascii) (cur : list ascii) (l : list ascii) : list string :=
  match l with
  | [] => [string_of_list_ascii (rev cur)]
  | c :: l' =>
      if Ascii.eqb c sep
      then string_of_list_ascii (rev cur) :: split_go sep [] l'
      else split_go sep (c :: cur) l'
  end.

(** [text.split('\n')]. *)
Definition split_lines (text : string) : list string :=
  split_go "010"%char [] (list_ascii_of_string text).

(** [line.startswith(prefixes)] for a tuple of prefixes. *)
Definition startswith_any (prefixes : list string) (line : string) : bool :=
  existsb (fun p => String.prefix p line) prefixes.

End Lines.

(** The entries of [execution_plan] the rating path reads: [None] is an
    absent key. *)
Record ExecutionPlan := {
  plan_question : option string;
  plan_task_type : option string;
  plan_execution_strategy : option string;
  plan_result : option string;
  plan_execution_time : option Q
}.

(** The test of the loop of [_extract_execution_steps] on a stripped line. *)
Definition is_step_line (line : string) : bool :=
  negb (String.eqb line "")
  && (Lines.startswith_any ["1."; "2."; "3."; "4."; "5."] line
      || Lines.startswith_any ["•"; "-"; "*"] line).

(** [_extract_execution_steps]; [None] is the [KeyError] of
    [execution_plan['question']] or [execution_plan['task_type']] in the
    default description. *)
Definition _extract_execution_steps (execution_plan : ExecutionPlan)
  : option (list string) :=
  let strategy := default "" (plan_execution_strategy execution_plan) in
  let steps :=
    if String.eqb strategy "" then []
    else filter is_step_line (map Text.strip (Lines.split_lines strategy)) in
  match steps with
  | [] =>
      match plan_question execution_plan, plan_task_type execution_plan with
      | Some question, Some task_type =>
          Some (take 99 ["分析任务：" +:+ question;
                         "执行策略：" +:+ task_type +:+ "类型任务";
                         "浏览器自动化执行";
                         "提取和整理结果"])
      | _, _ => None
      end
  | _ => Some (take 99 steps)
  end.

(** What [process_execution_result] returns. *)
Inductive ProcessResult :=
| ProcessFailed
    (* {"success": False, "error": str(e), "execution_plan": execution_plan} *)
| ProcessDone (rating : Z) (feedback : string) (rating_result : RatingResult)
              (processed_at : string).
    (* {"success": True, "execution_plan": <the plan with these four entries
       set>, "rating_result": rating_result} *)

Section TaskExecutor.

Variable md5_hex12 : string -> string.
Variable llm : option (string -> list string -> option string).

(** [now] is the clock read inside [store_execution], [processed_at] the one
    read after [process_rating] returns. *)
Definition process_execution_result (execution_plan : ExecutionPlan) (rating : Z)
           (feedback : string) (now processed_at : string) : M ProcessResult :=
  match plan_question execution_plan with
  | None => ret ProcessFailed
  | Some question =>
      match _extract_execution_steps execution_plan with
      | None => ret ProcessFailed
      | Some execution_steps =>
          let result := default "" (plan_result execution_plan) in
          match plan_task_type execution_plan with
          | None => ret ProcessFailed
          | Some task_type =>
              let execution_time :=
                default 0%Q (plan_execution_time execution_plan) in
              (let* rating_result :=
                 process_rating md5_hex12 llm rating question execution_steps
                                result task_type execution_time now in
               ret (ProcessDone rating feedback rating_result processed_at))%mem
          end
      end
  end.

End TaskExecutor.

Module Plans.

(** A plan whose strategy has two numbered lines among other text. *)
Definition numbered : ExecutionPlan :=
  {| plan_question := Some "find AI trends";
     plan_task_type := Some "search";
     plan_execution_strategy :=
       Some (String "010" "Plan:" +:+ String "010" "  1. open browser  "
             +:+ String "010" "then" +:+ String "010" "2. search AI trends");
     plan_result := Some "done";
     plan_execution_time := Some 12%Q |}.

(** A plan without the task type. *)
Definition no_task_type : ExecutionPlan :=
  {| plan_question := Some "find AI trends";
     plan_task_type := None;
     plan_execution_strategy := Some "1. open browser";
     plan_result := None;
     plan_execution_time := None |}.

End Plans.

(* ===================================================================== *)
(** ** Shapes of keywords *)
(* ===================================================================== *)

(** The characters of a string. *)
Definition chars (s : string) : list ascii := list_ascii_of_string s.

(** Text made of one-byte (ASCII) characters only. *)
Definition is_ascii_text (s : string) : bool :=
  forallb (fun c => (Text.code c <? 128)%N) (chars s).

(** A keyword as the regular-expression extraction leaves it: at least two
    characters, all of them lower-case letters. *)
Definition is_plain_keyword (kw : string) : Prop :=
  (2 <= String.length kw)%nat
  /\ Forall (fun c => Text.is_lower c = true) (chars kw).


(* ===================================================================== *)
(** ** Running the monad *)
(* ===================================================================== *)

Ltac run_monad :=
  unfold bind, ret, emit, get_db, put_db, connect in *; simpl in *.

Lemma fits_sqlite_integer_spec n :
  fits_sqlite_integer n = true <-> sqlite_int_min <= n <= sqlite_int_max.
Proof.
  unfold fits_sqlite_integer. rewrite andb_true_iff, !Z.leb_le. tauto.
Qed.

Lemma fits_sqlite_integer_false n :
  fits_sqlite_integer n = false <-> n < sqlite_int_min \/ sqlite_int_max < n.
Proof.
  unfold fits_sqlite_integer. rewrite andb_false_iff, !Z.leb_gt. tauto.
Qed.

Lemma fits_sqlite_integer_rating r :
  4 <= r -> r <= sqlite_int_max -> fits_sqlite_integer r = true.
Proof.
  intros H4 Hmax. apply fits_sqlite_integer_spec.
  unfold sqlite_int_min. lia.
Qed.

Lemma store_execution_admitted md5 llm q steps res r ty sc et now w :
  4 <= r -> r <= sqlite_int_max ->
  store_execution md5 llm q steps res r ty sc et now w =
  (let rid := _generate_record_id md5 q now in
   let kws := extracted_keywords llm q steps in
   let rec :=
     {| id := rid; question := q; execution_steps := steps; result := res;
        rating := r; timestamp := now; task_type := ty; success := sc;
        execution_time := et; similarity_keywords := kws |} in
   (StoredAs rid,
    {| db := {| execution_records :=
                  insert_or_replace rec (execution_records (db w));
                similarity_index :=
                  insert_index rid kws (delete_index rid (similarity_index (db w))) |};
       trace := (trace w ++ [EvExtractKeywords q steps]) ++ [EvConnect] |})).
Proof.
  intros Hr Hmax. unfold store_execution.
  destruct (Z.ltb_spec r 4) as [Hlt|_]; [lia|].
  unfold _extract_keywords. run_monad.
  by rewrite fits_sqlite_integer_rating.
Qed.

(** A rating of four or more that SQLite cannot bind: the keywords are
    extracted, the connection is opened, the insertion fails and nothing is
    written. *)
Lemma store_execution_overflow md5 llm q steps res r ty sc et now w :
  sqlite_int_max < r ->
  store_execution md5 llm q steps res r ty sc et now w =
  (StorageFailed,
   {| db := db w;
      trace := (trace w ++ [EvExtractKeywords q steps]) ++ [EvConnect] |}).
Proof.
  intros Hmax. unfold store_execution.
  destruct (Z.ltb_spec r 4) as [Hlt|_]; [unfold sqlite_int_max in Hmax; lia|].
  unfold _extract_keywords. run_monad.
  assert (fits_sqlite_integer r = false) as ->; [|done].
  apply fits_sqlite_integer_false. by right.
Qed.

Lemma store_execution_rejected md5 llm q steps res r ty sc et now w :
  r < 4 ->
  store_execution md5 llm q steps res r ty sc et now w = (RatingBelowFour, w).
Proof.
  intros Hr. unfold store_execution.
  destruct (Z.ltb_spec r 4) as [_|Hge]; [reflexivity|lia].
Qed.

Lemma insert_index_app rid kws rows :
  insert_index rid kws rows =
  rows ++ map (fun k => {| keyword := k; record_id := rid; weight := 1%Q |}) kws.
Proof.
  unfold insert_index. revert rows.
  induction kws as [|k kws IH]; intros rows; simpl.
  - by rewrite app_nil_r.
  - rewrite IH. by rewrite <- app_assoc.
Qed.

Lemma elem_of_insert_or_replace r x rows :
  x ∈ insert_or_replace r rows ↔ (x ∈ rows ∧ id x ≠ id r) ∨ x = r.
Proof.
  unfold insert_or_replace.
  rewrite elem_of_app, list_elem_of_filter, list_elem_of_singleton.
  rewrite negb_True, Is_true_true, String.eqb_eq. tauto.
Qed.

(* ===================================================================== *)
(** ** Rating gate: low ratings leave no trace (C8) *)
(* ===================================================================== *)

(** C8. A call of [store_execution] with [rating < 4] returns the
    not-stored outcome; the trace of external interactions is exactly what it
    was (no keyword extraction, no connection) and the database is the same. *)
Theorem store_execution_low_rating_is_noop
        md5 llm q steps res r ty sc et now (w : World) :
  r < 4 ->
  let (outcome, w') := store_execution md5 llm q steps res r ty sc et now w in
  outcome = RatingBelowFour /\ trace w' = trace w /\ db w' = db w.
Proof.
  intros Hr. rewrite store_execution_rejected by exact Hr. auto.
Qed.

Lemma store_execution_low_rating_is_noop_witness :
  3 < 4 /\
  let (outcome, w') :=
    Bench.store "find AI news" Bench.steps_B "done" 3 "search" true 9%Q
                "2025-01-01T09:00:00" Bench.world_A in
  outcome = RatingBelowFour /\ trace w' = trace Bench.world_A
  /\ db w' = db Bench.world_A.
Proof.
  split; [lia|].
  apply (store_execution_low_rating_is_noop
           Bench.digest Bench.no_llm "find AI news" Bench.steps_B "done" 3
           "search" true 9%Q "2025-01-01T09:00:00" Bench.world_A).
  lia.
Defined.

(* ===================================================================== *)
(** ** Empty-query short-circuit (C5) *)
(* ===================================================================== *)

(** C5. When the keyword extraction of the question yields the empty list,
    [find_similar_executions] returns the empty sequence, and the only
    external interaction is that extraction: no connection to the record
    store is opened and the database is untouched. *)
Theorem find_similar_no_keywords llm question limit (w : World) :
  extracted_keywords llm question [] = [] ->
  let (found, w') := find_similar_executions llm question limit w in
  found = []
  /\ trace w' = trace w ++ [EvExtractKeywords question []]
  /\ (EvConnect ∉ drop (length (trace w)) (trace w'))
  /\ db w' = db w.
Proof.
  intros Hk. unfold find_similar_executions, _extract_keywords. run_monad.
  rewrite Hk. simpl. repeat split.
  rewrite drop_app_length. by intros ?%list_elem_of_singleton.
Qed.

Lemma find_similar_no_keywords_witness :
  extracted_keywords Bench.no_llm "2024 !?" [] = [] /\
  let (found, w') := Bench.find "2024 !?" 3 Bench.world_A in
  found = []
  /\ trace w' = trace Bench.world_A ++ [EvExtractKeywords "2024 !?" []]
  /\ (EvConnect ∉ drop (length (trace Bench.world_A)) (trace w'))
  /\ db w' = db Bench.world_A.
Proof.
  split; [reflexivity|].
  apply (find_similar_no_keywords Bench.no_llm "2024 !?" 3 Bench.world_A).
  reflexivity.
Defined.

(* ===================================================================== *)
(** ** Statistics of an empty store (C9) *)
(* ===================================================================== *)

(** C9. On a store without records [get_statistics] returns a total of 0,
    an empty rating histogram, an empty task-type histogram and a success
    rate of 0.0; the function is total, so a result is always returned. *)
Theorem get_statistics_empty_store (w : World) :
  execution_records (db w) = [] ->
  fst (get_statistics w) =
  {| total_records := 0; rating_distribution := ∅;
     task_type_distribution := ∅; success_rate := 0%Q |}.
Proof.
  intros He. unfold get_statistics. run_monad. by rewrite He.
Qed.

Lemma get_statistics_empty_store_witness :
  execution_records (db initial_world) = [] /\
  fst (get_statistics initial_world) =
  {| total_records := 0; rating_distribution := ∅;
     task_type_distribution := ∅; success_rate := 0%Q |}.
Proof.
  split; [reflexivity|].
  apply (get_statistics_empty_store initial_world). reflexivity.
Defined.

(* ===================================================================== *)
(** ** Sorting and limiting *)
(* ===================================================================== *)

Section Sorting.

Context {A : Type} (before : A -> A -> bool).

Lemma insert_by_Permutation x l : insert_by before x l ≡ₚ x :: l.
Proof.
  induction l as [|y l IH]; simpl; [done|].
  destruct (before x y); [done|].
  rewrite IH. apply Permutation_swap.
Qed.

Lemma sort_by_Permutation l : sort_by before l ≡ₚ l.
Proof.
  induction l as [|x l IH]; simpl; [done|].
  unfold sort_by in *. simpl. rewrite insert_by_Permutation. by rewrite IH.
Qed.

Lemma elem_of_sort_by x l : x ∈ sort_by before l ↔ x ∈ l.
Proof. by rewrite sort_by_Permutation. Qed.

Lemma length_sort_by l : length (sort_by before l) = length l.
Proof. by rewrite sort_by_Permutation. Qed.

Hypothesis before_total : forall a b, before a b = false -> before b a = true.

Lemma insert_by_HdRel a x l :
  before a x = true -> HdRel (fun a b => before a b = true) a l ->
  HdRel (fun a b => before a b = true) a (insert_by before x l).
Proof.
  intros Hax Hl. destruct l as [|y l]; simpl; [by constructor|].
  destruct (before x y); constructor; [done|].
  by inversion Hl.
Qed.

Lemma insert_by_Sorted x l :
  Sorted (fun a b => before a b = true) l ->
  Sorted (fun a b => before a b = true) (insert_by before x l).
Proof.
  induction 1 as [|y l Hs IH Hhd]; simpl; [by repeat constructor|].
  destruct (before x y) eqn:Hxy.
  - constructor; [by constructor|by constructor].
  - constructor; [done|]. apply insert_by_HdRel; auto.
Qed.

Lemma sort_by_Sorted l : Sorted (fun a b => before a b = true) (sort_by before l).
Proof.
  induction l as [|x l IH]; [constructor|].
  unfold sort_by in *. simpl. by apply insert_by_Sorted.
Qed.

End Sorting.

Lemma elem_of_sql_limit {A} (limit : Z) (x : A) l : x ∈ sql_limit limit l -> x ∈ l.
Proof.
  unfold sql_limit. destruct (limit <? 0); [done|].
  apply subseteq_take.
Qed.

Lemma sql_limit_prefix {A} (limit : Z) (l : list A) :
  sql_limit limit l `prefix_of` l.
Proof.
  unfold sql_limit. destruct (limit <? 0); [done|].
  exists (drop (Z.to_nat limit) l). by rewrite take_drop.
Qed.

Lemma sql_limit_sublist {A} (limit : Z) (l : list A) :
  sql_limit limit l `sublist_of` l.
Proof.
  unfold sql_limit. destruct (limit <? 0); [done|]. apply sublist_take.
Qed.

Lemma length_sql_limit {A} (limit : Z) (l : list A) :
  0 <= limit -> Z.of_nat (length (sql_limit limit l)) = Z.min limit (Z.of_nat (length l)).
Proof.
  intros Hl. unfold sql_limit.
  destruct (Z.ltb_spec limit 0); [lia|].
  rewrite length_take. lia.
Qed.

(* ===================================================================== *)
(** ** What each method does to the database *)
(* ===================================================================== *)

Section Frames.

Variable md5 : string -> string.
Variable llm : option (string -> list string -> option string).

Lemma find_similar_db q limit w : db (snd (find_similar_executions llm q limit w)) = db w.
Proof.
  unfold find_similar_executions, _extract_keywords. run_monad.
  destruct (extracted_keywords llm q []); [done|].
  by destruct (fits_sqlite_integer limit).
Qed.

Lemma find_similar_result q limit w :
  forall x, x ∈ fst (find_similar_executions llm q limit w) ->
            exists kws, x ∈ similar_query (db w) kws limit.
Proof.
  unfold find_similar_executions, _extract_keywords. run_monad.
  destruct (extracted_keywords llm q []) as [|k kws] eqn:Hk; simpl.
  - by intros x ?%elem_of_nil.
  - destruct (fits_sqlite_integer limit); simpl.
    + intros x Hx. by exists (k :: kws).
    + by intros x ?%elem_of_nil.
Qed.

Lemma get_strategy_suggestions_db q w : db (snd (get_strategy_suggestions llm q w)) = db w.
Proof.
  unfold get_strategy_suggestions, bind, ret.
  pose proof (find_similar_db q 5 w) as H.
  by destruct (find_similar_executions llm q 5 w).
Qed.

Lemma get_all_records_db limit w : db (snd (get_all_records limit w)) = db w.
Proof.
  unfold get_all_records. run_monad. by destruct (fits_sqlite_integer limit).
Qed.

Lemma get_all_records_result limit w :
  fst (get_all_records limit w) =
  if fits_sqlite_integer limit
  then sql_limit limit (sort_by newer_first (execution_records (db w)))
  else [].
Proof.
  unfold get_all_records. run_monad. by destruct (fits_sqlite_integer limit).
Qed.

Lemma get_statistics_db w : db (snd (get_statistics w)) = db w.
Proof. reflexivity. Qed.

Lemma delete_record_records rid w :
  execution_records (db (snd (delete_record rid w))) =
  filter (fun r => negb (String.eqb (id r) rid)) (execution_records (db w)).
Proof. reflexivity. Qed.

Lemma store_execution_records q steps res r ty sc et now w :
  execution_records (db (snd (store_execution md5 llm q steps res r ty sc et now w))) =
  if (4 <=? r) && (r <=? sqlite_int_max)
  then insert_or_replace (built_record md5 llm q steps res r ty sc et now)
                         (execution_records (db w))
  else execution_records (db w).
Proof.
  destruct (Z.leb_spec 4 r); [|by rewrite store_execution_rejected].
  destruct (Z.leb_spec r sqlite_int_max).
  - by rewrite store_execution_admitted.
  - by rewrite store_execution_overflow.
Qed.

Lemma process_rating_records r q steps res ty et now w :
  execution_records (db (snd (process_rating md5 llm r q steps res ty et now w))) =
  if (4 <=? r) && (r <=? 5)
  then insert_or_replace (built_record md5 llm q steps res r ty (4 <=? r) et now)
                         (execution_records (db w))
  else execution_records (db w).
Proof.
  unfold process_rating.
  destruct (Z.ltb_spec r 1), (Z.ltb_spec 5 r), (Z.leb_spec 4 r), (Z.leb_spec r 5);
    try lia; simpl; try reflexivity.
  unfold bind at 1 2.
  rewrite store_execution_admitted by (unfold sqlite_int_max; lia). reflexivity.
Qed.

(** A property of records that every stored record enjoys, once every record
    built by an admitted store enjoys it. *)
Lemma perform_preserves (P : ExecutionRecord -> Prop) (w : World) (c : Call) :
  (forall q steps res r ty sc et now,
      c = CallStore q steps res r ty sc et now -> 4 <= r ->
      P (built_record md5 llm q steps res r ty sc et now)) ->
  (forall r q steps res ty et now,
      c = CallProcessRating r q steps res ty et now -> 4 <= r ->
      P (built_record md5 llm q steps res r ty (4 <=? r) et now)) ->
  Forall P (execution_records (db w)) ->
  Forall P (execution_records (db (perform md5 llm w c))).
Proof.
  intros Hstore Hrate Hw. destruct c; cbn [perform].
  - rewrite store_execution_records.
    destruct (Z.leb_spec 4 rating0); [|done].
    cbn [andb]. destruct (rating0 <=? sqlite_int_max); [|done].
    apply Forall_forall. intros x [[Hx _]| ->]%elem_of_insert_or_replace.
    + eapply Forall_forall in Hw; eauto.
    + eapply Hstore; eauto.
  - rewrite process_rating_records.
    destruct (Z.leb_spec 4 rating0); simpl; [|done].
    destruct (rating0 <=? 5); [|done].
    apply Forall_forall. intros x [[Hx _]| ->]%elem_of_insert_or_replace.
    + eapply Forall_forall in Hw; eauto.
    + replace true with (4 <=? rating0) by (by apply Z.leb_le).
      eapply Hrate; eauto.
  - by rewrite find_similar_db.
  - by rewrite get_strategy_suggestions_db.
  - by rewrite get_all_records_db.
  - rewrite delete_record_records. apply Forall_forall.
    intros x [_ Hx]%list_elem_of_filter. eapply Forall_forall in Hw; eauto.
  - done.
Qed.

Lemma after_calls_snoc history c :
  after_calls md5 llm (history ++ [c]) = perform md5 llm (after_calls md5 llm history) c.
Proof. unfold after_calls. by rewrite fold_left_app. Qed.

(** Every stored record was admitted with four stars or more. *)
Lemma stored_ratings history :
  Forall (fun r => 4 <= rating r) (execution_records (db (after_calls md5 llm history))).
Proof.
  induction history as [|c history IH] using rev_ind; [constructor|].
  rewrite after_calls_snoc. apply perform_preserves; auto.
Qed.

Lemma filter_ids_NoDup (P : ExecutionRecord -> Prop) `{forall x, Decision (P x)} rows :
  NoDup (map id rows) -> NoDup (map id (filter P rows)).
Proof.
  induction rows as [|r rows IH]; [done|].
  cbn [map]. intros [Hr Hrows]%NoDup_cons. rewrite filter_cons.
  destruct (decide (P r)); [|by apply IH].
  cbn [map]. apply NoDup_cons. split; [|by apply IH].
  intros Hin. apply Hr.
  apply list_elem_of_In, in_map_iff in Hin as (x & Hx & Hin).
  apply list_elem_of_In, list_elem_of_filter in Hin as [_ Hin].
  apply list_elem_of_In, in_map_iff. exists x. split; [done|by apply list_elem_of_In].
Qed.

Lemma insert_or_replace_ids r rows :
  NoDup (map id rows) -> NoDup (map id (insert_or_replace r rows)).
Proof.
  intros Hrows. unfold insert_or_replace. rewrite map_app. apply NoDup_app.
  split; [by apply filter_ids_NoDup|]. split; [|apply NoDup_singleton].
  intros i Hi [->|[]%elem_of_nil]%elem_of_cons.
  apply list_elem_of_In, in_map_iff in Hi as (x & Hx & Hin).
  apply list_elem_of_In, list_elem_of_filter in Hin as [Hne _].
  apply negb_True in Hne. apply Hne, Is_true_true. by apply String.eqb_eq.
Qed.

(** The primary key holds in every store the manager has written. *)
Lemma stored_ids_unique history :
  NoDup (map id (execution_records (db (after_calls md5 llm history)))).
Proof.
  induction history as [|c history IH] using rev_ind; [constructor|].
  rewrite after_calls_snoc. destruct c; cbn [perform].
  - rewrite store_execution_records.
    destruct ((4 <=? rating0) && (rating0 <=? sqlite_int_max));
      [by apply insert_or_replace_ids|done].
  - rewrite process_rating_records.
    destruct ((4 <=? rating0) && (rating0 <=? 5)); [by apply insert_or_replace_ids|done].
  - by rewrite find_similar_db.
  - by rewrite get_strategy_suggestions_db.
  - by rewrite get_all_records_db.
  - rewrite delete_record_records. by apply filter_ids_NoDup.
  - done.
Qed.

End Frames.

(* ===================================================================== *)
(** ** Admission gate (C3) and the rating path (C10) *)
(* ===================================================================== *)

Section Admission.

Variable md5 : string -> string.
Variable llm : option (string -> list string -> option string).

Lemma admitted_by_mono history c rec :
  admitted_by md5 llm history rec -> admitted_by md5 llm (history ++ [c]) rec.
Proof.
  intros (q & steps & res & r & ty & sc & et & now & -> & Hr & H).
  exists q, steps, res, r, ty, sc, et, now. repeat split; [done|].
  rewrite !elem_of_app. tauto.
Qed.

(** Every stored record was built by an admitted call of the history. *)
Lemma stored_provenance history :
  Forall (admitted_by md5 llm history)
         (execution_records (db (after_calls md5 llm history))).
Proof.
  induction history as [|c history IH] using rev_ind; [constructor|].
  rewrite after_calls_snoc. apply perform_preserves.
  - intros q steps res r ty sc et now -> Hr.
    exists q, steps, res, r, ty, sc, et, now. repeat split; [done|].
    left. apply elem_of_app. right. by apply list_elem_of_singleton.
  - intros r q steps res ty et now -> Hr.
    exists q, steps, res, r, ty, (4 <=? r), et, now. repeat split; [done|].
    right. split; [|by apply Z.leb_le].
    apply elem_of_app. right. by apply list_elem_of_singleton.
  - eapply Forall_impl; [exact IH|]. intros rec. apply admitted_by_mono.
Qed.

End Admission.

(** C3. The admission decision is [rating >= 4].  After any history of
    calls on a fresh store: every stored record has a rating of at least 4
    and was built by a call of the history that passed the rating gate; whatever
    [find_similar_executions] or [get_all_records] returns has a rating of at
    least 4; for a rating that fits an SQLite integer, the record a further
    [store_execution] builds is in the store after that call iff its rating
    is at least 4; and for a larger rating that call returns the failure
    message and leaves the database as it was. *)
Theorem admission_gate md5 llm (history : list Call) :
  let w := after_calls md5 llm history in
  (forall r, should_store_execution r = bool_decide (4 <= r))
  /\ Forall (fun rec => 4 <= rating rec /\ admitted_by md5 llm history rec)
            (execution_records (db w))
  /\ (forall q limit,
        Forall (fun x => 4 <= rating (record x))
               (fst (find_similar_executions llm q limit w)))
  /\ (forall limit, Forall (fun rec => 4 <= rating rec) (fst (get_all_records limit w)))
  /\ (forall q steps res r ty sc et now,
        r <= sqlite_int_max ->
        (built_record md5 llm q steps res r ty sc et now
           ∈ execution_records
               (db (snd (store_execution md5 llm q steps res r ty sc et now w)))
         <-> 4 <= r))
  /\ (forall q steps res r ty sc et now,
        sqlite_int_max < r ->
        fst (store_execution md5 llm q steps res r ty sc et now w) = StorageFailed
        /\ db (snd (store_execution md5 llm q steps res r ty sc et now w)) = db w).
Proof.
  intros w. pose proof (stored_ratings md5 llm history) as Hinv.
  fold w in Hinv. split; [|split; [|split; [|split; [|split]]]].
  - intros r. unfold should_store_execution.
    destruct (Z.leb_spec 4 r); symmetry.
    + by apply bool_decide_eq_true.
    + apply bool_decide_eq_false. lia.
  - apply Forall_and. split; [done|]. apply stored_provenance.
  - intros q limit. apply Forall_forall. intros x Hx.
    apply find_similar_result in Hx as [kws Hx].
    apply elem_of_sql_limit, elem_of_sort_by in Hx.
    unfold matching_rows in Hx.
    apply list_elem_of_In, in_map_iff in Hx as (rec & <- & Hrec).
    apply list_elem_of_In, list_elem_of_filter in Hrec as [_ Hrec].
    simpl. eapply Forall_forall in Hinv; eauto.
  - intros limit. apply Forall_forall. intros rec Hrec.
    rewrite get_all_records_result in Hrec.
    destruct (fits_sqlite_integer limit); [|by apply elem_of_nil in Hrec].
    apply elem_of_sql_limit, elem_of_sort_by in Hrec.
    eapply Forall_forall in Hinv; eauto.
  - intros q steps res r ty sc et now Hmax. split.
    + intros Hin.
      pose proof (stored_ratings md5 llm
                    (history ++ [CallStore q steps res r ty sc et now])) as H.
      rewrite after_calls_snoc in H. cbn [perform] in H. fold w in H.
      eapply Forall_forall in H; [|exact Hin]. exact H.
    + intros Hr. rewrite store_execution_admitted by done. cbn [snd db execution_records].
      apply elem_of_insert_or_replace. by right.
  - intros q steps res r ty sc et now Hmax.
    by rewrite store_execution_overflow.
Qed.

(** C10. After a history in which records are stored through
    [process_rating] only, every stored record has [success = True]. *)
Theorem rating_path_records_succeed md5 llm (history : list Call) :
  rating_path_only history = true ->
  Forall (fun rec => success rec = true)
         (execution_records (db (after_calls md5 llm history))).
Proof.
  induction history as [|c history IH] using rev_ind; [constructor|].
  unfold rating_path_only in *. rewrite forallb_app. simpl.
  intros [Hh Hc]%andb_true_iff. rewrite after_calls_snoc.
  apply perform_preserves; [| |by apply IH].
  - intros q steps res r ty sc et now ->. discriminate.
  - intros r q steps res ty et now _ Hr. simpl. by apply Z.leb_le.
Qed.

Lemma rating_path_records_succeed_witness :
  rating_path_only Bench.ratings_history = true /\
  Forall (fun rec => success rec = true)
         (execution_records
            (db (after_calls Bench.digest Bench.no_llm Bench.ratings_history))).
Proof.
  split; [reflexivity|].
  apply (rating_path_records_succeed Bench.digest Bench.no_llm Bench.ratings_history).
  reflexivity.
Defined.

(* ===================================================================== *)
(** ** Re-storing the same record (C6) *)
(* ===================================================================== *)

Section Keyed.

Context {A : Type} (key : A -> string) (k : string).

Lemma filter_same_after_other (l : list A) :
  filter (fun x => String.eqb (key x) k)
         (filter (fun x => negb (String.eqb (key x) k)) l) = [].
Proof.
  induction l as [|a l IH]; [done|].
  rewrite (filter_cons (fun x => Is_true (negb (String.eqb (key x) k)))).
  destruct (decide _) as [Ha|Ha]; [|done].
  rewrite filter_cons. destruct (decide _) as [Hb|Hb]; [|done].
  apply negb_True in Ha. contradiction.
Qed.

Lemma filter_other_idem (l : list A) :
  filter (fun x => negb (String.eqb (key x) k))
         (filter (fun x => negb (String.eqb (key x) k)) l) =
  filter (fun x => negb (String.eqb (key x) k)) l.
Proof.
  induction l as [|a l IH]; [done|].
  rewrite (filter_cons _ a l).
  destruct (decide _) as [Ha|Ha]; [|done].
  rewrite filter_cons. destruct (decide _); [|done]. by rewrite IH.
Qed.

Lemma filter_same_all (l : list A) :
  Forall (fun x => key x = k) l -> filter (fun x => String.eqb (key x) k) l = l.
Proof.
  induction 1 as [|a l Ha Hl IH]; [done|].
  rewrite filter_cons. destruct (decide _) as [Hb|Hb]; [by rewrite IH|].
  exfalso. apply Hb. apply Is_true_true. by apply String.eqb_eq.
Qed.

Lemma filter_other_none (l : list A) :
  Forall (fun x => key x = k) l -> filter (fun x => negb (String.eqb (key x) k)) l = [].
Proof.
  induction 1 as [|a l Ha Hl IH]; [done|].
  rewrite filter_cons. destruct (decide _) as [Hb|Hb]; [|done].
  apply negb_True in Hb. exfalso. apply Hb. apply Is_true_true. by apply String.eqb_eq.
Qed.

End Keyed.

(** C6. Storing twice for the same question at the same timestamp, both
    times with a rating of at least four that fits an SQLite integer: both
    calls return the stored message with the derived id; exactly one record
    is left under that id, the one built by the second call; the index
    entries of that id are exactly one row per keyword of the second call;
    and the database is the one a single store of the second call alone
    would have produced. *)
Theorem store_twice_same_id
        md5 llm q now steps1 res1 r1 ty1 sc1 et1 steps2 res2 r2 ty2 sc2 et2
        (w : World) :
  4 <= r1 <= sqlite_int_max -> 4 <= r2 <= sqlite_int_max ->
  let rid := _generate_record_id md5 q now in
  let w1 := snd (store_execution md5 llm q steps1 res1 r1 ty1 sc1 et1 now w) in
  let w2 := snd (store_execution md5 llm q steps2 res2 r2 ty2 sc2 et2 now w1) in
  fst (store_execution md5 llm q steps1 res1 r1 ty1 sc1 et1 now w) = StoredAs rid
  /\ fst (store_execution md5 llm q steps2 res2 r2 ty2 sc2 et2 now w1) = StoredAs rid
  /\ filter (fun rec => String.eqb (id rec) rid) (execution_records (db w2))
  = [built_record md5 llm q steps2 res2 r2 ty2 sc2 et2 now]
  /\ filter (fun s => String.eqb (record_id s) rid) (similarity_index (db w2))
     = map (fun kw => {| keyword := kw; record_id := rid; weight := 1%Q |})
           (extracted_keywords llm q steps2)
  /\ db w2 = db (snd (store_execution md5 llm q steps2 res2 r2 ty2 sc2 et2 now w)).
Proof.
  intros [H1 H1'] [H2 H2'] rid w1 w2. subst w1 w2.
  rewrite !store_execution_admitted by done. cbn [fst snd db].
  fold rid. cbn zeta. split; [done|]. split; [done|].
  set (rec1 := {| id := rid; execution_steps := steps1 |}).
  set (rec2 := {| id := rid; execution_steps := steps2 |}).
  unfold insert_or_replace, delete_index. cbn [execution_records similarity_index id].
  rewrite !insert_index_app.
  set (rows1 := map _ (extracted_keywords llm q steps1)).
  set (rows2 := map _ (extracted_keywords llm q steps2)).
  assert (Hrows : forall kws,
             Forall (fun s => record_id s = rid)
                    (map (fun kw => {| keyword := kw; record_id := rid; weight := 1%Q |})
                         kws)).
  { intros kws. apply Forall_forall. intros s Hs.
    apply list_elem_of_In, in_map_iff in Hs as (kw & <- & _). done. }
  change (id rec1) with rid. change (id rec2) with rid.
  rewrite !filter_app.
  rewrite (filter_other_none id rid [rec1]) by (by repeat constructor).
  rewrite (filter_other_none record_id rid rows1) by apply Hrows.
  rewrite (filter_same_all id rid [rec2]) by (by repeat constructor).
  rewrite (filter_same_all record_id rid rows2) by apply Hrows.
  rewrite (filter_other_idem id rid), (filter_other_idem record_id rid).
  rewrite (filter_same_after_other id rid), (filter_same_after_other record_id rid).
  rewrite !app_nil_r. done.
Qed.

Lemma store_twice_same_id_witness :
  4 <= 4 <= sqlite_int_max /\ 4 <= 5 <= sqlite_int_max /\
  let rid := _generate_record_id Bench.digest "find AI trends" "2025-01-01T10:00:00" in
  let w1 := snd (Bench.store "find AI trends" Bench.steps_B "draft" 4 "search" true 9%Q
                             "2025-01-01T10:00:00" Bench.world_4) in
  let w2 := snd (Bench.store "find AI trends" Bench.steps_A "done" 5 "search" true 12%Q
                             "2025-01-01T10:00:00" w1) in
  fst (Bench.store "find AI trends" Bench.steps_B "draft" 4 "search" true 9%Q
                   "2025-01-01T10:00:00" Bench.world_4) = StoredAs rid
  /\ fst (Bench.store "find AI trends" Bench.steps_A "done" 5 "search" true 12%Q
                      "2025-01-01T10:00:00" w1) = StoredAs rid
  /\ filter (fun rec => String.eqb (id rec) rid) (execution_records (db w2))
  = [built_record Bench.digest Bench.no_llm "find AI trends" Bench.steps_A "done" 5
                  "search" true 12%Q "2025-01-01T10:00:00"]
  /\ filter (fun s => String.eqb (record_id s) rid) (similarity_index (db w2))
     = map (fun kw => {| keyword := kw; record_id := rid; weight := 1%Q |})
           (extracted_keywords Bench.no_llm "find AI trends" Bench.steps_A)
  /\ db w2 = db Bench.world_4_5.
Proof.
  split; [unfold sqlite_int_max; lia|]. split; [unfold sqlite_int_max; lia|].
  apply (store_twice_same_id
           Bench.digest Bench.no_llm "find AI trends" "2025-01-01T10:00:00"
           Bench.steps_B "draft" 4 "search" true 9%Q
           Bench.steps_A "done" 5 "search" true 12%Q Bench.world_4);
    unfold sqlite_int_max; lia.
Defined.

(* ===================================================================== *)
(** ** Ranking order (C4) *)
(* ===================================================================== *)

Lemma rank_before_spec a b : rank_before a b = true <-> ranks_no_later a b.
Proof.
  unfold rank_before, ranks_no_later.
  destruct (Qcompare_spec (weighted_score a) (weighted_score b)) as [Hq|Hq|Hq].
  - destruct (Z.compare_spec (rating (record a)) (rating (record b))) as [Hz|Hz|Hz].
    + split; [intros H; right; auto|].
      intros [H|[_ [H|[_ H]]]]; [lra|lia|done].
    + split; [done|]. intros [H|[_ [H|[H _]]]]; [lra|lia|lia].
    + split; [intros _; right; split; [done|left; lia]|done].
  - split; [done|]. intros [H|[H _]]; lra.
  - split; [by left|done].
Qed.

Lemma rank_before_total a b : rank_before a b = false -> rank_before b a = true.
Proof.
  unfold rank_before.
  destruct (Qcompare_spec (weighted_score a) (weighted_score b)) as [Hq|Hq|Hq],
           (Qcompare_spec (weighted_score b) (weighted_score a)) as [Hq'|Hq'|Hq'];
    try done; try (exfalso; lra).
  destruct (Z.compare_spec (rating (record a)) (rating (record b))) as [Hz|Hz|Hz],
           (Z.compare_spec (rating (record b)) (rating (record a))) as [Hz'|Hz'|Hz'];
    try done; try (exfalso; lia).
  intros H.
  destruct (String.leb_total (timestamp (record a)) (timestamp (record b))); congruence.
Qed.

Lemma String_leb_trans s1 s2 s3 :
  String.leb s1 s2 = true -> String.leb s2 s3 = true -> String.leb s1 s3 = true.
Proof.
  intros H12%Is_true_true H23%Is_true_true. apply Is_true_true.
  change (String.le s1 s3). by transitivity s2.
Qed.

Global Instance ranks_no_later_trans : Transitive ranks_no_later.
Proof.
  intros a b c Hab Hbc. unfold ranks_no_later in *.
  destruct Hab as [Hab|[Hab Hab']], Hbc as [Hbc|[Hbc Hbc']];
    try (left; lra).
  right. split; [lra|].
  destruct Hab' as [Hab'|[Hab' Hab'']], Hbc' as [Hbc'|[Hbc' Hbc'']];
    try (left; lia).
  right. split; [lia|]. eauto using String_leb_trans.
Qed.

Lemma StronglySorted_lookup {A} (R : relation A) (l : list A) i j a b :
  StronglySorted R l -> (i < j)%nat -> l !! i = Some a -> l !! j = Some b -> R a b.
Proof.
  intros Hs. revert i j. induction Hs as [|x l Hs IH Hall]; intros i j Hij Ha Hb.
  - done.
  - destruct j as [|j]; [lia|]. destruct i as [|i]; simpl in *.
    + injection Ha as <-. eapply Forall_forall in Hall; [exact Hall|].
      eapply list_elem_of_lookup_2; eauto.
    + eapply IH; [|exact Ha|exact Hb]. lia.
Qed.

Lemma Sorted_weaken {A} (R1 R2 : relation A) (l : list A) :
  (forall a b, R1 a b -> R2 a b) -> Sorted R1 l -> Sorted R2 l.
Proof.
  intros HR. induction 1 as [|x l Hs IH Hhd]; constructor; [done|].
  destruct Hhd; constructor; auto.
Qed.

Lemma sort_by_rank_StronglySorted l :
  StronglySorted ranks_no_later (sort_by rank_before l).
Proof.
  apply Sorted_StronglySorted; [apply _|].
  eapply Sorted_weaken; [|apply sort_by_Sorted; apply rank_before_total].
  intros a b. apply rank_before_spec.
Qed.

Lemma match_count_nil d r : match_count d [] r = 0.
Proof.
  unfold match_count. induction (similarity_index d) as [|s l IH]; [done|].
  rewrite filter_cons. destruct (decide _) as [H|H]; [|done].
  apply andb_True in H as [_ H]. apply bool_decide_unpack in H.
  by apply elem_of_nil in H.
Qed.

Lemma matching_rows_nil d : matching_rows d [] = [].
Proof.
  unfold matching_rows. induction (execution_records d) as [|r l IH]; [done|].
  rewrite filter_cons, match_count_nil. exact IH.
Qed.

Lemma find_similar_is_query llm q limit w :
  fits_sqlite_integer limit = true ->
  fst (find_similar_executions llm q limit w) =
  similar_query (db w) (extracted_keywords llm q []) limit.
Proof.
  intros Hfit.
  unfold find_similar_executions, _extract_keywords, bind, ret, emit, connect, get_db.
  destruct (extracted_keywords llm q []) eqn:Hk; [|by rewrite Hfit].
  cbn [fst]. unfold similar_query. rewrite matching_rows_nil.
  unfold sql_limit. cbn [sort_by foldr]. destruct (limit <? 0); [done|].
  by rewrite take_nil.
Qed.

(** A limit SQLite cannot bind: the query raises and the result is empty. *)
Lemma find_similar_overflow llm q limit w :
  fits_sqlite_integer limit = false ->
  fst (find_similar_executions llm q limit w) = [].
Proof.
  intros Hfit.
  unfold find_similar_executions, _extract_keywords, bind, ret, emit, connect, get_db.
  destruct (extracted_keywords llm q []) eqn:Hk; [done|by rewrite Hfit].
Qed.

Lemma elem_of_matching_rows d kws x :
  x ∈ matching_rows d kws <->
  exists r, x = {| record := r; weighted_score := score_of d kws r |}
            /\ r ∈ execution_records d /\ 0 < match_count d kws r.
Proof.
  unfold matching_rows. rewrite list_elem_of_In, in_map_iff. split.
  - intros (r & <- & Hr). apply list_elem_of_In, list_elem_of_filter in Hr as [Hm Hr].
    exists r. repeat split; [done|]. apply Is_true_true in Hm. by apply Z.ltb_lt.
  - intros (r & -> & Hr & Hm). exists r. split; [done|].
    apply list_elem_of_In, list_elem_of_filter. split; [|done].
    apply Is_true_true. by apply Z.ltb_lt.
Qed.




(** What is cut off by [LIMIT] comes after everything that is returned. *)
Lemma sql_limit_top {A} (R : relation A) (limit : Z) (l : list A) (x : A) :
  StronglySorted R l -> x ∈ l ->
  x ∈ sql_limit limit l
  \/ (Z.of_nat (length (sql_limit limit l)) = limit
      /\ Forall (fun y => R y x) (sql_limit limit l)).
Proof.
  intros Hs [i Hi]%list_elem_of_lookup_1. unfold sql_limit.
  destruct (Z.ltb_spec limit 0) as [Hneg|Hpos].
  - left. eapply list_elem_of_lookup_2; eauto.
  - destruct (Nat.lt_ge_cases i (Z.to_nat limit)) as [Hlt|Hge].
    + left. eapply list_elem_of_lookup_2. by rewrite lookup_take_lt.
    + right. pose proof (lookup_lt_Some _ _ _ Hi) as Hlen. split.
      * rewrite length_take. lia.
      * apply Forall_forall. intros y [j Hj]%list_elem_of_lookup_1.
        pose proof (lookup_lt_Some _ _ _ Hj) as Hjlen.
        rewrite length_take in Hjlen.
        rewrite lookup_take_lt in Hj by lia.
        eapply (StronglySorted_lookup R l j i); eauto. lia.
Qed.




(* ===================================================================== *)
(** ** Deduplication and cap of the suggested steps (C7) *)
(* ===================================================================== *)

Lemma dedup_loop_kept items seen kept :
  dedup_loop items seen (map step kept) = map step (kept_entries items seen kept).
Proof.
  revert seen kept.
  induction items as [|x items IH]; intros seen kept;
    cbn [dedup_loop kept_entries]; [done|].
  destruct (bool_decide (step x ∈ seen)); [apply IH|].
  replace (map step kept ++ [step x]) with (map step (kept ++ [x]))
    by (by rewrite map_app).
  rewrite !length_map.
  destruct (15 <=? length (kept ++ [x]))%nat; [done|apply IH].
Qed.

Lemma kept_entries_first items seen kept :
  (length kept < 15)%nat ->
  kept_entries items seen kept =
  kept ++ take (15 - length kept) (first_entries items seen).
Proof.
  revert seen kept.
  induction items as [|x items IH]; intros seen kept Hk;
    cbn [kept_entries first_entries].
  - by rewrite take_nil, app_nil_r.
  - destruct (bool_decide (step x ∈ seen)); [by apply IH|].
    rewrite length_app. cbn [length].
    destruct (Nat.leb_spec 15 (length kept + 1)) as [Hc|Hc].
    + replace (15 - length kept)%nat with 1%nat by lia. simpl. by rewrite take_0.
    + rewrite IH by (rewrite length_app; simpl; lia).
      rewrite length_app. simpl.
      replace (15 - length kept)%nat with (S (15 - (length kept + 1))) by lia.
      simpl. by rewrite <- app_assoc.
Qed.

Lemma first_entries_sublist items seen : first_entries items seen `sublist_of` items.
Proof.
  revert seen. induction items as [|x items IH]; intros seen; simpl; [done|].
  destruct (bool_decide (step x ∈ seen)).
  - by apply sublist_cons.
  - by apply sublist_skip.
Qed.

Lemma first_entries_unseen items seen x :
  x ∈ first_entries items seen -> step x ∉ seen.
Proof.
  revert seen. induction items as [|y items IH]; intros seen; simpl.
  - by intros ?%elem_of_nil.
  - destruct (bool_decide_reflect (step y ∈ seen)) as [Hy|Hy]; [apply IH|].
    intros [->|Hx]%elem_of_cons; [done|].
    apply IH in Hx. set_solver.
Qed.

Lemma first_entries_NoDup items seen : NoDup (map step (first_entries items seen)).
Proof.
  revert seen. induction items as [|y items IH]; intros seen; simpl; [constructor|].
  destruct (bool_decide_reflect (step y ∈ seen)) as [Hy|Hy]; [apply IH|].
  simpl. constructor; [|apply IH].
  intros Hin. apply list_elem_of_In, in_map_iff in Hin as (x & Hx & Hin).
  apply list_elem_of_In, first_entries_unseen in Hin. set_solver.
Qed.

Lemma heavier_first_spec a b :
  heavier_first a b = true <-> (step_weight b <= step_weight a)%Q.
Proof. apply Qle_bool_iff. Qed.

Lemma heavier_first_total a b : heavier_first a b = false -> heavier_first b a = true.
Proof.
  intros H. apply heavier_first_spec.
  destruct (Qlt_le_dec (step_weight a) (step_weight b)) as [Hlt|Hle].
  - by apply Qlt_le_weak.
  - apply heavier_first_spec in Hle. congruence.
Qed.

Global Instance no_lighter_trans : Transitive no_lighter.
Proof. intros a b c Hab Hbc. unfold no_lighter in *. lra. Qed.

Lemma sort_by_weight_StronglySorted l :
  StronglySorted no_lighter (sort_by heavier_first l).
Proof.
  apply Sorted_StronglySorted; [apply _|].
  eapply Sorted_weaken; [|apply sort_by_Sorted; apply heavier_first_total].
  intros a b. apply heavier_first_spec.
Qed.

(** In a list sorted by weight, the first entry of a step text is its
    heaviest. *)
Lemma first_entries_heaviest items seen :
  StronglySorted no_lighter items ->
  forall x y, x ∈ first_entries items seen -> y ∈ items -> step y = step x ->
              (step_weight y <= step_weight x)%Q.
Proof.
  intros Hs. revert seen.
  induction Hs as [|a items Hs IH Hall]; intros seen x y; simpl.
  - by intros ?%elem_of_nil.
  - destruct (bool_decide_reflect (step a ∈ seen)) as [Ha|Ha].
    + intros Hx [->|Hy]%elem_of_cons Heq; [|by eapply IH].
      apply first_entries_unseen in Hx. congruence.
    + intros [->|Hx]%elem_of_cons [->|Hy]%elem_of_cons Heq.
      * lra.
      * eapply Forall_forall in Hall; eauto.
      * apply first_entries_unseen in Hx. set_solver.
      * by eapply IH.
Qed.

Lemma get_strategy_suggestions_result llm q w :
  fst (get_strategy_suggestions llm q w) =
  suggestions_from (fst (find_similar_executions llm q 5 w)).
Proof.
  unfold get_strategy_suggestions, bind, ret.
  by destruct (find_similar_executions llm q 5 w).
Qed.

Lemma suggested_steps_kept similar :
  suggested_steps (suggestions_from similar) = map step (kept_of similar).
Proof.
  unfold suggestions_from, kept_of, weighted_steps_of.
  destruct similar as [|r similar]; [done|].
  destruct (collect (r :: similar)) as [[ws cs] hq]. cbn [fst].
  destruct ws as [|x ws]; [done|].
  cbn [suggested_steps]. apply (dedup_loop_kept _ ∅ []).
Qed.

Lemma kept_of_first similar :
  kept_of similar =
  take 15 (first_entries (sort_by heavier_first (weighted_steps_of similar)) ∅).
Proof. unfold kept_of. by rewrite kept_entries_first by (simpl; lia). Qed.

(** C7. The suggested steps of [get_strategy_suggestions] contain no text
    twice and are at most 15; they are the texts of the entries kept by the
    loop, and each kept entry is an entry of [weighted_steps] that weighs at
    least as much as every entry with the same text. *)
Theorem suggested_steps_unique_capped llm (question : string) (w : World) :
  let similar := fst (find_similar_executions llm question 5 w) in
  let steps := suggested_steps (fst (get_strategy_suggestions llm question w)) in
  NoDup steps
  /\ (length steps <= 15)%nat
  /\ steps = map step (kept_of similar)
  /\ Forall (fun k =>
               k ∈ weighted_steps_of similar
               /\ Forall (fun x => step x = step k ->
                                   (step_weight x <= step_weight k)%Q)
                         (weighted_steps_of similar))
            (kept_of similar).
Proof.
  intros similar steps.
  assert (Hsteps : steps = map step (kept_of similar)).
  { subst steps. rewrite get_strategy_suggestions_result. apply suggested_steps_kept. }
  rewrite Hsteps, kept_of_first.
  set (sorted := sort_by heavier_first (weighted_steps_of similar)).
  split; [|split; [|split]].
  - rewrite <- firstn_map.
    apply (sublist_NoDup _ (map step (first_entries sorted ∅)));
      [apply first_entries_NoDup|apply sublist_take].
  - rewrite length_map, length_take. lia.
  - done.
  - apply Forall_forall. intros k Hk. apply subseteq_take in Hk.
    split.
    + apply (elem_of_sort_by heavier_first). fold sorted.
      eapply sublist_subseteq; [apply first_entries_sublist|done].
    + apply Forall_forall. intros x Hx Heq.
      eapply (first_entries_heaviest sorted ∅); [|exact Hk| |exact Heq].
      * apply sort_by_weight_StronglySorted.
      * by apply elem_of_sort_by.
Qed.

(** Thirty distinct steps over two records: the fifteen steps of the
    five-star record are suggested, in their order. *)
Example thirty_steps_capped :
  suggested_steps (fst (Bench.suggest "visit pages" Bench.world_30)) = Bench.steps_a15.
Proof. vm_compute. reflexivity. Qed.

(* ===================================================================== *)
(** ** Confidence (C1, C2) *)
(* ===================================================================== *)

Lemma filter_none {A} (P : A -> Prop) `{forall x, Decision (P x)} (l : list A) :
  Forall (fun x => ~ P x) l -> filter P l = [].
Proof.
  induction 1 as [|x l Hx Hl IH]; [done|]. by rewrite filter_cons_False.
Qed.

Lemma steps_of_app r ws : steps_of r ws = ws ++ entries_of r.
Proof.
  unfold steps_of, entries_of. revert ws.
  induction (execution_steps (record r)) as [|s l IH]; intros ws; simpl.
  - by rewrite app_nil_r.
  - rewrite IH. by rewrite <- app_assoc.
Qed.

(** The three accumulators of the record loop, in closed form. *)
Lemma collect_spec similar :
  collect similar =
  (flat_map entries_of (filter is_high_quality similar),
   map weighted_confidence (filter is_high_quality similar),
   filter is_high_quality similar).
Proof.
  unfold collect.
  enough (H : forall ws cs hq,
             fold_left
               (fun acc r =>
                  let '(weighted_steps, confidence_scores, high_quality_records) := acc in
                  if is_high_quality r then
                    (steps_of r weighted_steps,
                     confidence_scores ++ [weighted_confidence r],
                     high_quality_records ++ [r])
                  else acc) similar (ws, cs, hq) =
             (ws ++ flat_map entries_of (filter is_high_quality similar),
              cs ++ map weighted_confidence (filter is_high_quality similar),
              hq ++ filter is_high_quality similar)) by apply H.
  induction similar as [|r similar IH]; intros ws cs hq.
  - simpl. by rewrite !app_nil_r.
  - cbn [fold_left]. rewrite filter_cons.
    destruct (is_high_quality r) eqn:Hr.
    + rewrite IH, steps_of_app.
      destruct (decide (Is_true true)) as [_|Hn]; [|by destruct Hn].
      simpl. by rewrite <- !app_assoc.
    + rewrite IH. destruct (decide (Is_true false)) as [Hn|_]; [by destruct Hn|done].
Qed.

Lemma confidence_of_suggestions similar :
  has_suggestions (suggestions_from similar) = true ->
  filter is_high_quality similar <> []
  /\ confidence (suggestions_from similar) =
     average_confidence (map weighted_confidence (filter is_high_quality similar))
                        (filter is_high_quality similar).
Proof.
  unfold suggestions_from. destruct similar as [|r similar]; [done|].
  rewrite collect_spec.
  destruct (filter is_high_quality (r :: similar)) as [|h hq]; [done|].
  destruct (flat_map entries_of (h :: hq)); [done|]. done.
Qed.

Lemma len_Q_cons {A} (x : A) l : (len_Q (x :: l) == len_Q l + 1)%Q.
Proof.
  unfold len_Q. cbn [length]. rewrite Nat2Z.inj_succ. unfold Z.succ.
  by rewrite inject_Z_plus.
Qed.

Lemma len_Q_pos {A} (x : A) l : (0 < len_Q (x :: l))%Q.
Proof.
  unfold len_Q. change 0%Q with (inject_Z 0). rewrite <- Zlt_Qlt.
  cbn [length]. lia.
Qed.

Lemma fold_Qplus_lower_bound (c : Q) (l : list Q) (a : Q) :
  Forall (fun x => (c <= x)%Q) l ->
  (a + c * len_Q l <= fold_left Qplus l a)%Q.
Proof.
  intros Hl. revert a. induction Hl as [|x l Hx Hl IH]; intros a.
  - cbn [fold_left]. change (len_Q (@nil Q)) with 0%Q. lra.
  - cbn [fold_left]. specialize (IH (a + x)%Q).
    rewrite len_Q_cons. lra.
Qed.

(** The Python average of a non-empty list is at least any lower bound of
    its elements. *)
Lemma average_lower_bound (c x : Q) (l : list Q) :
  Forall (fun y => (c <= y)%Q) (x :: l) ->
  (c <= sum_Q (x :: l) / len_Q (x :: l))%Q.
Proof.
  intros Hl. apply Qle_shift_div_l; [apply len_Q_pos|].
  pose proof (fold_Qplus_lower_bound c (x :: l) 0 Hl) as H.
  unfold sum_Q. lra.
Qed.

Lemma py_min_le_r a b : (py_min a b <= b)%Q.
Proof.
  unfold py_min. destruct (Qcompare_spec b a) as [H|H|H]; lra.
Qed.

Lemma base_confidence_four r :
  rating (record r) = 4 -> (base_confidence r == 84 # 100)%Q.
Proof. intros H4. unfold base_confidence, Z_to_Q. rewrite H4. reflexivity. Qed.

Lemma record_weight_four r :
  rating (record r) = 4 -> (3 # 2 <= record_weight r)%Q.
Proof.
  intros H4. unfold record_weight. rewrite H4.
  change (4 =? 5) with false. change (4 =? 4) with true. cbv iota.
  destruct (Qcompare_spec 0 (weighted_score r)) as [H|H|H]; try lra.
  assert (Hs : (0 <= weighted_score r / 10)%Q)
    by (apply Qle_shift_div_l; lra).
  revert Hs. generalize (weighted_score r / 10)%Q. intros s Hs. lra.
Qed.

(** A four-star record contributes at least 0.84 * 1.5 = 1.26. *)
Lemma four_star_contribution r :
  rating (record r) = 4 -> (126 # 100 <= weighted_confidence r)%Q.
Proof.
  intros H4. unfold weighted_confidence.
  rewrite (base_confidence_four r H4).
  pose proof (record_weight_four r H4). lra.
Qed.

(** Without a five-star record the average is returned as it is: a set of
    four-star records that yields suggestions has a confidence of at least
    1.26. *)
Lemma four_star_only_confidence similar :
  Forall (fun r => rating (record r) = 4) (filter is_high_quality similar) ->
  has_suggestions (suggestions_from similar) = true ->
  (126 # 100 <= confidence (suggestions_from similar))%Q.
Proof.
  intros H4 Hs. apply confidence_of_suggestions in Hs as [Hne ->].
  destruct (filter is_high_quality similar) as [|h hq] eqn:Hhq; [done|].
  unfold average_confidence. cbn [map].
  assert (H0 : five_star_count (h :: hq) = 0).
  { unfold five_star_count. rewrite filter_none; [done|].
    eapply Forall_impl; [exact H4|]. intros r Hr. simpl in Hr.
    rewrite Hr. simpl. tauto. }
  rewrite H0. cbn [Z.ltb Z.compare].
  change (weighted_confidence h :: map weighted_confidence hq)
    with (map weighted_confidence (h :: hq)).
  assert (Hall : Forall (fun y => (126 # 100 <= y)%Q)
                        (map weighted_confidence (h :: hq))).
  { apply Forall_forall. intros y Hy.
    apply list_elem_of_In, in_map_iff in Hy as (r & <- & Hr).
    apply four_star_contribution.
    eapply Forall_forall in H4; [exact H4|by apply list_elem_of_In]. }
  cbn [map] in *. by apply average_lower_bound.
Qed.

(** With a five-star record among the contributing records the result is
    clamped: the confidence is at most 1. *)
Lemma five_star_confidence similar :
  0 < five_star_count (filter is_high_quality similar) ->
  (confidence (suggestions_from similar) <= 1)%Q.
Proof.
  intros H5. unfold suggestions_from. destruct similar as [|r similar]; [done|].
  rewrite collect_spec.
  destruct (flat_map entries_of _); [done|].
  cbn [confidence]. unfold average_confidence.
  destruct (map weighted_confidence _); [done|].
  replace (0 <? five_star_count _) with true by (symmetry; by apply Z.ltb_lt).
  apply py_min_le_r.
Qed.

(** Adding a five-star record to four-star records that yield suggestions
    lowers the confidence. *)
Lemma five_star_addition_lowers_confidence (r5 : ScoredRecord) similar :
  Forall (fun r => rating (record r) = 4) (filter is_high_quality similar) ->
  has_suggestions (suggestions_from similar) = true ->
  rating (record r5) = 5 -> success (record r5) = true ->
  (confidence (suggestions_from (r5 :: similar))
   < confidence (suggestions_from similar))%Q.
Proof.
  intros H4 Hs H5 Hsucc.
  pose proof (four_star_only_confidence similar H4 Hs) as Hlow.
  assert (Hhigh : (confidence (suggestions_from (r5 :: similar)) <= 1)%Q).
  { apply five_star_confidence. rewrite filter_cons.
    assert (Hq : is_high_quality r5 = true)
      by (unfold is_high_quality; rewrite H5, Hsucc; done).
    rewrite Hq. destruct (decide (Is_true true)) as [_|Hn]; [|by destruct Hn].
    unfold five_star_count. rewrite filter_cons.
    rewrite H5. simpl. lia. }
  lra.
Qed.

Lemma record_weight_pos r : (0 < record_weight r)%Q.
Proof.
  unfold record_weight.
  assert (Hw : (0 < (if rating (record r) =? 5 then 3
                    else if rating (record r) =? 4 then 3 # 2 else 1))%Q)
    by (destruct (rating (record r) =? 5), (rating (record r) =? 4); lra).
  revert Hw. generalize (if rating (record r) =? 5 then 3%Q
                         else if rating (record r) =? 4 then (3 # 2)%Q else 1%Q).
  intros w Hw.
  destruct (Qcompare_spec 0 (weighted_score r)) as [H|H|H]; try done.
  apply Qmult_lt_0_compat; [done|].
  assert (Hs : (0 <= weighted_score r / 10)%Q) by (apply Qle_shift_div_l; lra).
  lra.
Qed.

Lemma weighted_confidence_nonneg r :
  is_high_quality r = true -> (0 <= weighted_confidence r)%Q.
Proof.
  intros [Hr _]%andb_true_iff. apply Z.leb_le in Hr.
  unfold weighted_confidence. apply Qmult_le_0_compat.
  - unfold base_confidence, Z_to_Q.
    assert (H4 : (4 <= inject_Z (rating (record r)))%Q)
      by (change 4%Q with (inject_Z 4); by rewrite <- Zle_Qle).
    assert (Hd : (0 <= inject_Z (rating (record r)) / 5)%Q)
      by (apply Qle_shift_div_l; lra).
    lra.
  - apply Qlt_le_weak, record_weight_pos.
Qed.

(** The confidence is never negative. *)
Lemma confidence_nonneg similar : (0 <= confidence (suggestions_from similar))%Q.
Proof.
  unfold suggestions_from. destruct similar as [|r similar]; [done|].
  rewrite collect_spec.
  destruct (flat_map entries_of _); [done|].
  cbn [confidence]. unfold average_confidence.
  set (hq := filter is_high_quality (r :: similar)).
  assert (Hall : Forall (fun y => (0 <= y)%Q) (map weighted_confidence hq)).
  { apply Forall_forall. intros y Hy.
    apply list_elem_of_In, in_map_iff in Hy as (x & <- & Hx).
    apply weighted_confidence_nonneg.
    apply list_elem_of_In, list_elem_of_filter in Hx as [Hx _].
    by apply Is_true_true. }
  destruct (map weighted_confidence hq) as [|c cs] eqn:Hcs; [done|].
  assert (Havg : (0 <= sum_Q (c :: cs) / len_Q (c :: cs))%Q)
    by (by apply average_lower_bound).
  destruct (Z.ltb_spec 0 (five_star_count hq)) as [H5|H5]; [|done].
  assert (Hb : (0 <= 1 + Z_to_Q (five_star_count hq) * (1 # 10))%Q).
  { assert (0 <= Z_to_Q (five_star_count hq))%Q; [|lra].
    unfold Z_to_Q. change 0%Q with (inject_Z 0). rewrite <- Zle_Qle. lia. }
  pose proof (Qmult_le_0_compat _ _ Havg Hb) as Hprod.
  unfold py_min.
  destruct (Qcompare_spec 1 (sum_Q (c :: cs) / len_Q (c :: cs)
                             * (1 + Z_to_Q (five_star_count hq) * (1 # 10))));
    lra.
Qed.

(** C1 (defect). The confidence [get_strategy_suggestions] returns is not
    always in [0, 1]: for a store holding one four-star record the clamp
    [min(..., 1.0)] of the five-star branch is never reached and the
    weighted average 0.84 * 1.5 * (1 + 11.5 / 10) = 2.709 is returned. *)
Theorem four_star_confidence_exceeds_one :
  let s := fst (Bench.suggest "AI trends" Bench.world_4) in
  has_suggestions s = true
  /\ (confidence s == 2709 # 1000)%Q
  /\ (1 < confidence s)%Q.
Proof. vm_compute. repeat split; reflexivity. Qed.

(** C2 (defect). Adding a five-star record to a four-star record does not
    raise the confidence: the four-star record alone yields 2.709, the two
    together yield the clamped value 1. *)
Theorem five_star_record_lowers_confidence :
  let c4 := confidence (fst (Bench.suggest "AI trends" Bench.world_4)) in
  let c45 := confidence (fst (Bench.suggest "AI trends" Bench.world_4_5)) in
  (c4 == 2709 # 1000)%Q /\ (c45 == 1)%Q /\ (c45 < c4)%Q.
Proof. vm_compute. repeat split; reflexivity. Qed.

(** The scenario of the specification: only record A is stored and found,
    its three steps are suggested, the confidence is 1. *)
Example scenario_five_star :
  let s := fst (Bench.suggest "AI trends" Bench.world_A) in
  map (fun x => question (record x)) (fst (Bench.find "AI trends" 3 Bench.world_A))
  = ["find AI trends"]
  /\ suggested_steps s = Bench.steps_A
  /\ (8 # 10 < confidence s)%Q.
Proof. vm_compute. repeat split; reflexivity. Qed.

(** The ranking on the two-record store: the five-star record first. *)
Example ranking_two_records :
  map (fun x => (rating (record x), weighted_score x))
      (fst (Bench.find "AI trends" 3 Bench.world_4_5))
  = [(5, 16%Q); (4, (23 # 2)%Q)].
Proof. vm_compute. reflexivity. Qed.

(** A rating SQLite cannot store: the extractor is called and the
    connection opened, then the insertion fails and nothing is written. *)
Example store_rating_overflow :
  Bench.store "find AI news" Bench.steps_B "done" (2 ^ 63) "search" true 9%Q
              "2025-01-01T09:00:00" Bench.world_A
  = (StorageFailed,
     {| db := db Bench.world_A;
        trace := trace Bench.world_A
                 ++ [EvExtractKeywords "find AI news" Bench.steps_B; EvConnect] |}).
Proof. vm_compute. reflexivity. Qed.

(** A limit SQLite cannot bind: nothing is returned; the least limit it
    can bind is negative and returns every record. *)
Example find_limit_overflow :
  fst (Bench.find "AI trends" (2 ^ 63) Bench.world_A) = []
  /\ map (fun x => question (record x))
         (fst (Bench.find "AI trends" (- 2 ^ 63) Bench.world_A))
     = ["find AI trends"]
  /\ fst (get_all_records (2 ^ 63) Bench.world_A) = []
  /\ fst (get_all_records (- 2 ^ 63 - 1) Bench.world_A) = []
  /\ map question (fst (get_all_records (- 2 ^ 63) Bench.world_A))
     = ["find AI trends"].
Proof. vm_compute. repeat split; reflexivity. Qed.

(** The same two values on IEEE 754 doubles: above 1 without the five-star
    record, exactly 1 with it. *)
Example binary64_confidences :
  PrimFloat.ltb 1 Binary64.four_star_alone = true
  /\ PrimFloat.eqb Binary64.with_five_star 1 = true
  /\ PrimFloat.ltb Binary64.with_five_star Binary64.four_star_alone = true.
Proof. repeat split; reflexivity. Qed.

(* ===================================================================== *)
(** ** The database after each call *)
(* ===================================================================== *)

Section Databases.

Variable md5 : string -> string.
Variable llm : option (string -> list string -> option string).

Lemma store_execution_db q steps res r ty sc et now w :
  db (snd (store_execution md5 llm q steps res r ty sc et now w)) =
  if (4 <=? r) && (r <=? sqlite_int_max)
  then written_db (built_record md5 llm q steps res r ty sc et now) (db w)
  else db w.
Proof.
  destruct (Z.leb_spec 4 r); [|by rewrite store_execution_rejected].
  destruct (Z.leb_spec r sqlite_int_max).
  - by rewrite store_execution_admitted.
  - by rewrite store_execution_overflow.
Qed.

Lemma process_rating_db r q steps res ty et now w :
  db (snd (process_rating md5 llm r q steps res ty et now w)) =
  if (4 <=? r) && (r <=? 5)
  then written_db (built_record md5 llm q steps res r ty (4 <=? r) et now) (db w)
  else db w.
Proof.
  unfold process_rating.
  destruct (Z.ltb_spec r 1), (Z.ltb_spec 5 r), (Z.leb_spec 4 r), (Z.leb_spec r 5);
    try lia; simpl; try reflexivity.
  unfold bind at 1 2.
  rewrite store_execution_admitted by (unfold sqlite_int_max; lia). reflexivity.
Qed.

Lemma delete_record_db rid w : db (snd (delete_record rid w)) = deleted_db rid (db w).
Proof. reflexivity. Qed.

(** A property of databases that holds after every history, once it holds
    for the empty database and is kept by a write and by a delete. *)
Lemma after_calls_invariant (I : Database -> Prop) :
  I empty_database ->
  (forall rec d, I d -> I (written_db rec d)) ->
  (forall rid d, I d -> I (deleted_db rid d)) ->
  forall history, I (db (after_calls md5 llm history)).
Proof.
  intros Hempty Hwrite Hdelete history.
  induction history as [|c history IH] using rev_ind; [exact Hempty|].
  rewrite after_calls_snoc. destruct c; cbn [perform].
  - rewrite store_execution_db.
    destruct ((4 <=? rating0) && (rating0 <=? sqlite_int_max)); auto.
  - rewrite process_rating_db.
    destruct ((4 <=? rating0) && (rating0 <=? 5)); auto.
  - by rewrite find_similar_db.
  - by rewrite get_strategy_suggestions_db.
  - by rewrite get_all_records_db.
  - rewrite delete_record_db. auto.
  - done.
Qed.

End Databases.

Section KeyedMore.

Context {A : Type} (key : A -> string).

Lemma filter_key_after_other (k k' : string) (l : list A) :
  k <> k' ->
  filter (fun x => String.eqb (key x) k')
         (filter (fun x => negb (String.eqb (key x) k)) l)
  = filter (fun x => String.eqb (key x) k') l.
Proof.
  intros Hne. induction l as [|a l IH]; [done|].
  rewrite (filter_cons (fun x => Is_true (negb (String.eqb (key x) k)))).
  destruct (decide _) as [Ha|Ha].
  - rewrite !filter_cons. destruct (decide _); by rewrite IH.
  - rewrite IH, filter_cons. destruct (decide _) as [Hb|Hb]; [|done].
    exfalso. apply Ha, negb_True. intros Hk.
    apply Is_true_true, String.eqb_eq in Hk, Hb. congruence.
Qed.

Lemma filter_key_absent (k k' : string) (l : list A) :
  Forall (fun x => key x = k) l -> k <> k' ->
  filter (fun x => String.eqb (key x) k') l = [].
Proof.
  intros Hl Hne. induction Hl as [|a l Ha Hl IH]; [done|].
  rewrite filter_cons. destruct (decide _) as [Hb|Hb]; [|done].
  apply Is_true_true, String.eqb_eq in Hb. congruence.
Qed.

Lemma filter_other_id (k : string) (l : list A) :
  Forall (fun x => key x <> k) l ->
  filter (fun x => negb (String.eqb (key x) k)) l = l.
Proof.
  induction 1 as [|a l Ha Hl IH]; [done|].
  rewrite filter_cons. destruct (decide _) as [Hb|Hb]; [by rewrite IH|].
  exfalso. apply Hb, negb_True. intros Hk.
  by apply Is_true_true, String.eqb_eq in Hk.
Qed.

End KeyedMore.

Lemma keyword_rows_record_id rid kws :
  Forall (fun s => record_id s = rid) (keyword_rows rid kws).
Proof.
  apply Forall_forall. intros s Hs.
  apply list_elem_of_In, in_map_iff in Hs as (kw & <- & _). done.
Qed.

Lemma index_rows_of_written rec d rid :
  index_rows_of rid (written_db rec d) =
  if String.eqb (id rec) rid
  then keyword_rows (id rec) (similarity_keywords rec)
  else index_rows_of rid d.
Proof.
  unfold index_rows_of, written_db. cbn [similarity_index].
  rewrite insert_index_app. fold (keyword_rows (id rec) (similarity_keywords rec)).
  unfold delete_index. rewrite filter_app.
  destruct (String.eqb_spec (id rec) rid) as [<-|Hne].
  - rewrite (filter_same_after_other record_id (id rec)).
    rewrite (filter_same_all record_id (id rec)) by apply keyword_rows_record_id.
    done.
  - rewrite (filter_key_after_other record_id (id rec) rid) by done.
    rewrite (filter_key_absent record_id (id rec) rid
               (keyword_rows (id rec) (similarity_keywords rec)))
      by (done || apply keyword_rows_record_id).
    by rewrite app_nil_r.
Qed.

Lemma index_rows_of_deleted rid' d rid :
  index_rows_of rid (deleted_db rid' d) =
  if String.eqb rid' rid then [] else index_rows_of rid d.
Proof.
  unfold index_rows_of, deleted_db, delete_index. cbn [similarity_index].
  destruct (String.eqb_spec rid' rid) as [<-|Hne].
  - apply (filter_same_after_other record_id rid').
  - by apply (filter_key_after_other record_id rid' rid).
Qed.

Lemma written_db_consistent rec d :
  index_consistent d -> index_consistent (written_db rec d).
Proof.
  intros [Hrows Href]. split.
  - intros r Hr. rewrite index_rows_of_written.
    cbn [written_db execution_records] in Hr.
    apply elem_of_insert_or_replace in Hr as [[Hr Hne]| ->].
    + destruct (String.eqb_spec (id rec) (id r)) as [Heq|_]; [congruence|].
      by apply Hrows.
    + by rewrite String.eqb_refl.
  - intros s Hs. cbn [written_db similarity_index execution_records] in *.
    rewrite insert_index_app in Hs. apply elem_of_app in Hs as [Hs|Hs].
    + apply list_elem_of_filter in Hs as [Hne Hs].
      destruct (Href s Hs) as (r & Hr & Hid). exists r. split; [|done].
      apply elem_of_insert_or_replace. left. split; [done|].
      apply negb_True in Hne. intros Heq. apply Hne, Is_true_true.
      apply String.eqb_eq. congruence.
    + exists rec. split; [apply elem_of_insert_or_replace; by right|].
      apply list_elem_of_In, in_map_iff in Hs as (kw & <- & _). done.
Qed.

Lemma deleted_db_consistent rid d :
  index_consistent d -> index_consistent (deleted_db rid d).
Proof.
  intros [Hrows Href]. split.
  - intros r Hr. rewrite index_rows_of_deleted.
    cbn [deleted_db execution_records] in Hr.
    apply list_elem_of_filter in Hr as [Hne Hr].
    destruct (String.eqb_spec rid (id r)) as [Heq|_]; [|by apply Hrows].
    apply negb_True in Hne. exfalso. apply Hne, Is_true_true.
    by apply String.eqb_eq.
  - intros s Hs. cbn [deleted_db similarity_index execution_records] in *.
    apply list_elem_of_filter in Hs as [Hne Hs].
    destruct (Href s Hs) as (r & Hr & Hid). exists r. split; [|done].
    apply list_elem_of_filter. split; [|done]. by rewrite Hid.
Qed.

Lemma index_agrees_with_records_aux md5 llm (history : list Call) :
  index_consistent (db (after_calls md5 llm history)).
Proof.
  apply after_calls_invariant.
  - split; [by intros r ?%elem_of_nil|by intros s ?%elem_of_nil].
  - intros rec d. apply written_db_consistent.
  - intros rid d. apply deleted_db_consistent.
Qed.

(** X1. After any history of calls on a fresh store the keyword index
    agrees with the records: the index rows of every stored record are
    exactly one row of weight 1.0 per keyword stored in the record, in
    order, and every index row belongs to a stored record. *)
Theorem index_agrees_with_records md5 llm (history : list Call) :
  let d := db (after_calls md5 llm history) in
  Forall (fun r => index_rows_of (id r) d
                   = keyword_rows (id r) (similarity_keywords r))
         (execution_records d)
  /\ Forall (fun s => exists r, r ∈ execution_records d /\ id r = record_id s)
            (similarity_index d).
Proof.
  intros d. destruct (index_agrees_with_records_aux md5 llm history) as [Hrows Href].
  split; apply Forall_forall; auto.
Qed.

(* ===================================================================== *)
(** ** Keywords: how many, and how they are matched *)
(* ===================================================================== *)

Lemma extracted_keywords_length llm q steps :
  (length (extracted_keywords llm q steps) <= 10)%nat.
Proof.
  unfold extracted_keywords, simple_keywords, parse_keywords.
  destruct llm as [ainvoke|]; [destruct (ainvoke q steps)|];
    rewrite length_take; lia.
Qed.

Lemma stored_keywords_length md5 llm history :
  Forall (fun r => (length (similarity_keywords r) <= 10)%nat)
         (execution_records (db (after_calls md5 llm history))).
Proof.
  induction history as [|c history IH] using rev_ind; [constructor|].
  rewrite after_calls_snoc. apply perform_preserves; [| |exact IH].
  - intros; apply extracted_keywords_length.
  - intros; apply extracted_keywords_length.
Qed.

Lemma length_filter_keyword_rows rid (kws query : list string) :
  length (filter (fun s => bool_decide (keyword s ∈ query)) (keyword_rows rid kws))
  = length (filter (fun kw => kw ∈ query) kws).
Proof.
  induction kws as [|kw kws IH]; [done|].
  cbn [keyword_rows map]. fold (keyword_rows rid kws). rewrite !filter_cons.
  cbn [keyword].
  destruct (decide (kw ∈ query)) as [Hin|Hin].
  - rewrite decide_True by (by apply bool_decide_pack).
    cbn [length]. by rewrite IH.
  - rewrite decide_False by (by intros ?%bool_decide_unpack). exact IH.
Qed.

Lemma match_count_index_rows d query r :
  match_count d query r =
  Z.of_nat (length (filter (fun s => bool_decide (keyword s ∈ query))
                           (index_rows_of (id r) d))).
Proof.
  unfold match_count, index_rows_of. do 2 f_equal.
  rewrite list_filter_filter. apply list_filter_iff.
  intros s. rewrite andb_True. tauto.
Qed.

(** X2. After any history of calls, the match count [COUNT(s.keyword)] of a
    stored record for a query is the number of the record's stored keywords
    that occur among the query keywords; it is at most 10, the cap of the
    keyword extraction. *)
Theorem match_count_of_stored_records md5 llm (history : list Call)
        (query : list string) :
  let d := db (after_calls md5 llm history) in
  Forall (fun r =>
            match_count d query r
            = Z.of_nat (length (filter (fun kw => kw ∈ query) (similarity_keywords r)))
            /\ 0 <= match_count d query r <= 10)
         (execution_records d).
Proof.
  intros d. apply Forall_forall. intros r Hr.
  pose proof (index_agrees_with_records_aux md5 llm history) as [Hrows _].
  fold d in Hrows.
  assert (Hm : match_count d query r
               = Z.of_nat (length (filter (fun kw => kw ∈ query)
                                          (similarity_keywords r)))).
  { rewrite match_count_index_rows, (Hrows r Hr).
    by rewrite length_filter_keyword_rows. }
  split; [exact Hm|]. rewrite Hm.
  pose proof (stored_keywords_length md5 llm history) as Hlen.
  eapply Forall_forall in Hlen; [|exact Hr].
  pose proof (length_filter (fun kw => kw ∈ query) (similarity_keywords r)).
  lia.
Qed.

Lemma match_count_same_set d (query1 query2 : list string) r :
  (forall kw, kw ∈ query1 <-> kw ∈ query2) ->
  match_count d query1 r = match_count d query2 r.
Proof.
  intros Hq. unfold match_count. do 2 f_equal. apply list_filter_iff.
  intros s. rewrite !andb_True, !bool_decide_spec, Hq. tauto.
Qed.

(** X3. The similarity query depends only on the set of query keywords:
    two keyword lists with the same elements (repetitions and order aside)
    give the same match counts, the same scores and the same result. *)
Theorem similar_query_same_set (d : Database) (query1 query2 : list string)
        (limit : Z) :
  (forall kw, kw ∈ query1 <-> kw ∈ query2) ->
  similar_query d query1 limit = similar_query d query2 limit.
Proof.
  intros Hq. unfold similar_query, matching_rows. do 2 f_equal.
  assert (Hm : forall r, match_count d query1 r = match_count d query2 r)
    by (intros r; by apply match_count_same_set).
  induction (execution_records d) as [|r rows IH]; [done|].
  rewrite !filter_cons, Hm. destruct (decide _); [|exact IH].
  cbn [map]. rewrite IH. do 2 f_equal. unfold score_of. by rewrite Hm.
Qed.

Lemma similar_query_same_set_witness :
  (forall kw, kw ∈ Cases.query_1 <-> kw ∈ Cases.query_2)
  /\ similar_query (db Bench.world_4_5) Cases.query_1 3
     = similar_query (db Bench.world_4_5) Cases.query_2 3.
Proof.
  assert (H : forall kw, kw ∈ Cases.query_1 <-> kw ∈ Cases.query_2).
  { intros kw. unfold Cases.query_1, Cases.query_2.
    rewrite !elem_of_cons, !elem_of_nil. tauto. }
  split; [exact H|].
  apply (similar_query_same_set (db Bench.world_4_5) Cases.query_1 Cases.query_2 3 H).
Defined.

(* ===================================================================== *)
(** ** Listing and deleting records *)
(* ===================================================================== *)

Lemma newer_first_total a b : newer_first a b = false -> newer_first b a = true.
Proof.
  unfold newer_first. intros H.
  destruct (String.leb_total (timestamp a) (timestamp b)); congruence.
Qed.

Global Instance no_older_trans : Transitive no_older.
Proof. intros a b c Hab Hbc. unfold no_older in *. eauto using String_leb_trans. Qed.

(** X4. [get_all_records] returns distinct rows of the store, newest
    timestamp first, and does not change the database.  For a limit SQLite
    cannot bind it returns the empty list.  For any other limit: the number
    of returned records is [min(limit, stored)] when the limit is not
    negative; they are all the stored records when it is negative (no bound
    in SQLite); and a stored record that is not returned was cut off by the
    limit: [limit] records are returned and none of them is older than it. *)
Theorem get_all_records_newest_first (limit : Z) (w : World) :
  let stored := execution_records (db w) in
  let found := fst (get_all_records limit w) in
  StronglySorted no_older found
  /\ found ⊆+ stored
  /\ (fits_sqlite_integer limit = false -> found = [])
  /\ (fits_sqlite_integer limit = true -> 0 <= limit ->
      Z.of_nat (length found) = Z.min limit (Z.of_nat (length stored)))
  /\ (fits_sqlite_integer limit = true -> limit < 0 -> found ≡ₚ stored)
  /\ (fits_sqlite_integer limit = true ->
      forall r, r ∈ stored ->
                r ∈ found
                \/ (Z.of_nat (length found) = limit
                    /\ Forall (fun x => no_older x r) found))
  /\ db (snd (get_all_records limit w)) = db w.
Proof.
  intros stored found. subst found. rewrite get_all_records_result.
  set (sorted := sort_by newer_first stored).
  assert (Hs : StronglySorted no_older sorted).
  { apply Sorted_StronglySorted; [apply _|].
    eapply Sorted_weaken; [|apply sort_by_Sorted; apply newer_first_total].
    by intros a b. }
  assert (Hperm : sorted ≡ₚ stored) by apply sort_by_Permutation.
  destruct (sql_limit_prefix limit sorted) as [rest Hrest].
  destruct (fits_sqlite_integer limit).
  - split; [|split; [|split; [|split; [|split; [|split]]]]].
    + rewrite Hrest in Hs. by apply StronglySorted_app_1_l in Hs.
    + transitivity sorted; [|by rewrite Hperm].
      apply sublist_submseteq, sql_limit_sublist.
    + done.
    + intros _ Hl. rewrite length_sql_limit by done. subst sorted.
      by rewrite length_sort_by.
    + intros _ Hl. unfold sql_limit.
      by replace (limit <? 0) with true by (symmetry; by apply Z.ltb_lt).
    + intros _ r Hr. apply sql_limit_top; [done|].
      subst sorted. by apply elem_of_sort_by.
    + apply get_all_records_db.
  - split; [constructor|]. split; [apply submseteq_nil_l|].
    repeat split; try done. apply get_all_records_db.
Qed.

(** X5. [delete_record] answers [True]; afterwards no record has the
    deleted id and no index row refers to it, while the records and index
    rows of every other id are as before. *)
Theorem delete_record_removes_only_that_id (rid : string) (w : World) :
  let (ok, w') := delete_record rid w in
  ok = true
  /\ Forall (fun r => id r <> rid) (execution_records (db w'))
  /\ index_rows_of rid (db w') = []
  /\ (forall rid', rid' <> rid ->
        filter (fun r => String.eqb (id r) rid') (execution_records (db w'))
        = filter (fun r => String.eqb (id r) rid') (execution_records (db w))
        /\ index_rows_of rid' (db w') = index_rows_of rid' (db w)).
Proof.
  unfold delete_record. run_monad. fold (deleted_db rid (db w)).
  split; [done|]. split; [|split].
  - apply Forall_forall. intros r [Hne _]%list_elem_of_filter.
    apply negb_True in Hne. intros Heq. apply Hne, Is_true_true.
    by apply String.eqb_eq.
  - rewrite index_rows_of_deleted. by rewrite String.eqb_refl.
  - intros rid' Hne. split.
    + cbn [deleted_db execution_records].
      by apply (filter_key_after_other id rid rid').
    + rewrite index_rows_of_deleted.
      destruct (String.eqb_spec rid rid'); [congruence|done].
Qed.

Lemma written_then_deleted rec d :
  Forall (fun r => id r <> id rec) (execution_records d) ->
  Forall (fun s => record_id s <> id rec) (similarity_index d) ->
  deleted_db (id rec) (written_db rec d) = d.
Proof.
  intros Hr Hs. destruct d as [rows index].
  unfold deleted_db, written_db, insert_or_replace, delete_index.
  cbn [execution_records similarity_index] in *.
  rewrite insert_index_app.
  fold (keyword_rows (id rec) (similarity_keywords rec)).
  rewrite !filter_app.
  rewrite (filter_other_idem id (id rec)), (filter_other_idem record_id (id rec)).
  rewrite (filter_other_none id (id rec) [rec]) by (by repeat constructor).
  rewrite (filter_other_none record_id (id rec) (keyword_rows _ _))
    by apply keyword_rows_record_id.
  rewrite !app_nil_r.
  rewrite (filter_other_id id (id rec) rows) by done.
  by rewrite (filter_other_id record_id (id rec) index) by done.
Qed.

(** X6. Storing a record with a rating of at least four that fits an
    SQLite integer, under an id no stored record has, returns the stored
    message with that id, and deleting the id afterwards gives back the
    database as it was (after any history of calls). *)
Theorem store_then_delete_restores
        md5 llm (history : list Call) q steps res r ty sc et now :
  let w := after_calls md5 llm history in
  let rid := _generate_record_id md5 q now in
  4 <= r <= sqlite_int_max ->
  Forall (fun rec => id rec <> rid) (execution_records (db w)) ->
  let w1 := snd (store_execution md5 llm q steps res r ty sc et now w) in
  fst (store_execution md5 llm q steps res r ty sc et now w) = StoredAs rid
  /\ db (snd (delete_record rid w1)) = db w.
Proof.
  intros w rid [Hr Hmax] Hfresh w1. split.
  - by rewrite store_execution_admitted.
  - subst w1. rewrite delete_record_db, store_execution_admitted by done.
    cbn [snd db]. fold rid.
    change (deleted_db rid (written_db (built_record md5 llm q steps res r ty sc et now)
                                       (db w)) = db w).
    apply (written_then_deleted (built_record md5 llm q steps res r ty sc et now));
      [exact Hfresh|].
    destruct (index_agrees_with_records_aux md5 llm history) as [_ Href].
    apply Forall_forall. intros s Hs.
    destruct (Href s Hs) as (rec & Hrec & Hid). rewrite <- Hid.
    eapply Forall_forall in Hfresh; [exact Hfresh|exact Hrec].
Qed.

Lemma store_then_delete_restores_witness :
  let w := after_calls Bench.digest Bench.no_llm Cases.history_delete in
  let rid := _generate_record_id Bench.digest "find AI news" "2025-01-01T09:00:00" in
  4 <= 4 <= sqlite_int_max
  /\ Forall (fun rec => id rec <> rid) (execution_records (db w))
  /\ fst (Bench.store "find AI news" Bench.steps_B "done" 4 "search" true 9%Q
                      "2025-01-01T09:00:00" w) = StoredAs rid
  /\ db (snd (delete_record rid
                (snd (Bench.store "find AI news" Bench.steps_B "done" 4 "search" true
                                  9%Q "2025-01-01T09:00:00" w)))) = db w.
Proof.
  assert (Hfresh :
            Forall (fun rec => id rec <> "find AI news_2025-01-01T09:00:00")
                   (execution_records
                      (db (after_calls Bench.digest Bench.no_llm Cases.history_delete)))).
  { vm_compute. repeat constructor. discriminate. }
  split; [unfold sqlite_int_max; lia|]. split; [exact Hfresh|].
  apply (store_then_delete_restores
           Bench.digest Bench.no_llm Cases.history_delete
           "find AI news" Bench.steps_B "done" 4 "search" true 9%Q
           "2025-01-01T09:00:00"); [unfold sqlite_int_max; lia|exact Hfresh].
Defined.

(* ===================================================================== *)
(** ** Statistics *)
(* ===================================================================== *)

Lemma count_by_lookup `{Countable K} {A} (key : A -> K) (rows : list A) (k : K) :
  count_by key rows !! k = count_entry key k rows.
Proof.
  unfold count_entry. induction rows as [|r rows IH]; [done|].
  cbn [count_by foldr]. fold (count_by key rows).
  rewrite filter_cons. destruct (decide (key r = k)) as [Hk|Hk].
  - rewrite Hk, lookup_insert_eq, IH. cbn [length].
    set (n := length (filter (fun r => key r = k) rows)).
    destruct (Z.eqb_spec (Z.of_nat n) 0) as [Hn|Hn];
      destruct (Z.eqb_spec (Z.of_nat (S n)) 0); try lia;
      simpl; f_equal; lia.
  - by rewrite lookup_insert_ne.
Qed.

Lemma dict_sum_insert_fresh term k v (m : gmap Z Z) :
  m !! k = None -> dict_sum term (<[k:=v]> m) = dict_sum term m + term k v.
Proof.
  intros Hk. unfold dict_sum. rewrite map_fold_insert_L; [done| |done].
  intros; lia.
Qed.

Lemma dict_sum_insert term k v (m : gmap Z Z) :
  dict_sum term (<[k:=v]> m) =
  dict_sum term m - from_option (term k) 0 (m !! k) + term k v.
Proof.
  destruct (m !! k) as [old|] eqn:Hk; cbn [from_option].
  - rewrite <- (insert_delete_eq m k v).
    rewrite dict_sum_insert_fresh by apply lookup_delete_eq.
    unfold dict_sum at 2.
    rewrite (map_fold_delete_L _ _ k old m); [|intros; lia|done].
    fold (dict_sum term (delete k m)). lia.
  - rewrite dict_sum_insert_fresh by done. lia.
Qed.

(** Summing a term linear in the count over a histogram is summing its
    coefficient over the rows. *)
Lemma dict_sum_count_by {A} (term : Z -> Z -> Z) (c : Z -> Z) (key : A -> Z)
      (rows : list A) :
  (forall k v, term k v = c k * v) ->
  dict_sum term (count_by key rows) = foldr (fun r acc => c (key r) + acc) 0 rows.
Proof.
  intros Hterm. induction rows as [|r rows IH]; [done|].
  cbn [count_by foldr]. fold (count_by key rows).
  rewrite dict_sum_insert, IH.
  destruct (count_by key rows !! key r) as [old|];
    cbn [from_option default]; unfold Datatypes.id;
    rewrite !Hterm, Z.mul_add_distr_l; lia.
Qed.

Lemma foldr_count {A} (rows : list A) :
  foldr (fun _ acc => 1 + acc) 0 rows = Z.of_nat (length rows).
Proof. induction rows as [|r rows IH]; [done|]. cbn [foldr length]. lia. Qed.

Lemma total_ratings_count {A} (key : A -> Z) (rows : list A) :
  dict_sum (fun _ count => count) (count_by key rows) = Z.of_nat (length rows).
Proof.
  rewrite (dict_sum_count_by _ (fun _ => 1)) by (intros; lia).
  apply foldr_count.
Qed.

Lemma fold_Qplus_upper_bound (c : Q) (l : list Q) (a : Q) :
  Forall (fun x => (x <= c)%Q) l ->
  (fold_left Qplus l a <= a + c * len_Q l)%Q.
Proof.
  intros Hl. revert a. induction Hl as [|x l Hx Hl IH]; intros a.
  - cbn [fold_left]. change (len_Q (@nil Q)) with 0%Q. lra.
  - cbn [fold_left]. specialize (IH (a + x)%Q).
    rewrite len_Q_cons. lra.
Qed.

Lemma len_Q_map {A B} (f : A -> B) (l : list A) : len_Q (map f l) = len_Q l.
Proof. unfold len_Q. by rewrite length_map. Qed.

Lemma avg_success_bounds rows :
  (0 <= default 0 (avg_success rows) <= 1)%Q.
Proof.
  destruct rows as [|r rows]; [cbn; lra|].
  cbn [avg_success default]. rewrite <- (len_Q_map (fun r => bool_to_Q (success r))).
  set (l := map (fun r => bool_to_Q (success r)) (r :: rows)).
  assert (Hpos : (0 < len_Q l)%Q) by apply len_Q_pos.
  assert (Hall : Forall (fun x => (0 <= x <= 1)%Q) l).
  { apply Forall_forall. intros x Hx.
    apply list_elem_of_In, in_map_iff in Hx as (r' & <- & _).
    unfold bool_to_Q. destruct (success r'); lra. }
  split.
  - apply Qle_shift_div_l; [done|].
    pose proof (fold_Qplus_lower_bound 0 l 0) as H. lapply H; [lra|].
    eapply Forall_impl; [exact Hall|]. by intros x [? ?].
  - apply Qle_shift_div_r; [done|].
    pose proof (fold_Qplus_upper_bound 1 l 0) as H. lapply H; [lra|].
    eapply Forall_impl; [exact Hall|]. by intros x [? ?].
Qed.

(** X7. [get_statistics] counts faithfully: the total is the number of
    records; the rating histogram has, under each rating, the number of
    records with that rating, and no entry for a rating no record has (the
    same for task types); the histogram counts add up to the total; and the
    success rate lies between 0 and 1. *)
Theorem get_statistics_counts (w : World) :
  let rows := execution_records (db w) in
  let stats := fst (get_statistics w) in
  total_records stats = Z.of_nat (length rows)
  /\ (forall k, rating_distribution stats !! k = count_entry rating k rows)
  /\ (forall t, task_type_distribution stats !! t = count_entry task_type t rows)
  /\ dict_sum (fun _ count => count) (rating_distribution stats) = total_records stats
  /\ (0 <= success_rate stats <= 1)%Q.
Proof.
  intros rows stats. subst stats. unfold get_statistics. run_monad. fold rows.
  split; [done|]. split; [|split; [|split]].
  - intros k. apply count_by_lookup.
  - intros t. apply count_by_lookup.
  - apply total_ratings_count.
  - apply avg_success_bounds.
Qed.

(* ===================================================================== *)
(** ** The rating path *)
(* ===================================================================== *)

(** X8. [process_rating] rejects a rating outside 1..5 before any side
    effect: the rejection is returned and the world (database, extractor
    calls, connections) is exactly what it was. *)
Theorem process_rating_rejects_out_of_range
        md5 llm r q steps res ty et now (w : World) :
  r < 1 \/ 5 < r ->
  process_rating md5 llm r q steps res ty et now w = (RatingRejected, w).
Proof.
  intros Hr. unfold process_rating.
  destruct (Z.ltb_spec r 1), (Z.ltb_spec 5 r); try lia; reflexivity.
Qed.

Lemma process_rating_rejects_out_of_range_witness :
  (6 < 1 \/ 5 < 6)
  /\ process_rating Bench.digest Bench.no_llm 6 "find AI news" Bench.steps_B "done"
                    "search" 9%Q "2025-01-01T09:00:00" Bench.world_A
     = (RatingRejected, Bench.world_A).
Proof.
  split; [lia|].
  apply (process_rating_rejects_out_of_range
           Bench.digest Bench.no_llm 6 "find AI news" Bench.steps_B "done"
           "search" 9%Q "2025-01-01T09:00:00" Bench.world_A).
  lia.
Defined.

(** X9. For a rating in 1..5 [process_rating] reports [stored] exactly when
    the rating is at least 4; below 4 the database is unchanged, from 4 on
    it holds the record built with [success = True]; and the reported size
    of the memory is the number of stored records capped at 50, the default
    limit of [get_all_records]. *)
Theorem process_rating_in_range md5 llm r q steps res ty et now (w : World) :
  1 <= r <= 5 ->
  let (result, w') := process_rating md5 llm r q steps res ty et now w in
  result
  = RatingProcessed
      (4 <=? r) r
      (if 4 <=? r then StorageDone (StoredAs (_generate_record_id md5 q now))
       else BelowFourNotStored)
      (Z.min 50 (Z.of_nat (length (execution_records (db w')))))
  /\ db w' = (if 4 <=? r
             then written_db (built_record md5 llm q steps res r ty true et now) (db w)
             else db w).
Proof.
  intros Hr.
  pose proof (process_rating_db md5 llm r q steps res ty et now w) as Hdb.
  unfold process_rating in *.
  destruct (Z.ltb_spec r 1), (Z.ltb_spec 5 r); try lia. cbn [orb] in *.
  destruct (Z.leb_spec 4 r) as [H4|H4].
  - unfold bind at 1 2 in Hdb. unfold bind at 1 2.
    rewrite store_execution_admitted in * by (unfold sqlite_int_max; lia).
    cbn zeta in *.
    unfold bind, ret, get_all_records, connect, emit, get_db in *.
    change (fits_sqlite_integer 50) with true in *.
    cbn [fst snd db] in *.
    replace (r <=? 5) with true in Hdb by (symmetry; by apply Z.leb_le).
    cbn [andb] in Hdb. split; [|exact Hdb].
    rewrite length_sql_limit by lia. rewrite length_sort_by. done.
  - unfold bind, ret, get_all_records, connect, emit, get_db.
    change (fits_sqlite_integer 50) with true.
    cbn [fst snd db]. split; [|done].
    rewrite length_sql_limit by lia. by rewrite length_sort_by.
Qed.

Lemma process_rating_in_range_witness :
  1 <= 5 <= 5 /\
  let (result, w') :=
    process_rating Bench.digest Bench.no_llm 5 "find AI trends" Bench.steps_A "done"
                   "search" 12%Q "2025-01-01T10:00:00" Bench.world_4 in
  result
  = RatingProcessed
      true 5
      (StorageDone (StoredAs (_generate_record_id Bench.digest "find AI trends"
                                                  "2025-01-01T10:00:00")))
      (Z.min 50 (Z.of_nat (length (execution_records (db w')))))
  /\ db w' = written_db (built_record Bench.digest Bench.no_llm "find AI trends"
                                      Bench.steps_A "done" 5 "search" true 12%Q
                                      "2025-01-01T10:00:00") (db Bench.world_4).
Proof.
  split; [lia|].
  apply (process_rating_in_range
           Bench.digest Bench.no_llm 5 "find AI trends" Bench.steps_A "done"
           "search" 12%Q "2025-01-01T10:00:00" Bench.world_4).
  lia.
Defined.

Lemma get_rating_statistics_fst (w : World) :
  fst (get_rating_statistics w) =
  let rows := execution_records (db w) in
  let rating_dist := count_by rating rows in
  let total_ratings := Z.of_nat (length rows) in
  if total_ratings =? 0 then empty_report
  else
    {| total_ratings := total_ratings;
       average_rating :=
         (Z_to_Q (dict_sum (fun rating count => (rating * count)%Z) rating_dist)
          / Z_to_Q total_ratings)%Q;
       report_distribution := rating_dist;
       storage_rate :=
         if 0 <? total_ratings
         then (Z_to_Q (dict_sum (fun rating count =>
                                   if (4 <=? rating)%Z then count else 0%Z)
                                rating_dist)
               / Z_to_Q total_ratings)%Q
         else 0%Q;
       report_success_rate := Some (default 0%Q (avg_success rows)) |}.
Proof.
  unfold get_rating_statistics, get_statistics, bind, ret, connect, emit, get_db.
  cbn [fst snd db rating_distribution success_rate].
  rewrite total_ratings_count. cbn zeta.
  by destruct (Z.of_nat (length (execution_records (db w))) =? 0).
Qed.

(** X10. On a store without records [get_rating_statistics] returns the
    empty report: no ratings, average 0.0, an empty distribution, storage
    rate 0.0, and no success-rate entry. *)
Theorem get_rating_statistics_empty_store (w : World) :
  execution_records (db w) = [] ->
  fst (get_rating_statistics w) = empty_report.
Proof. intros He. rewrite get_rating_statistics_fst, He. reflexivity. Qed.

Lemma get_rating_statistics_empty_store_witness :
  execution_records (db initial_world) = []
  /\ fst (get_rating_statistics initial_world) = empty_report.
Proof.
  split; [reflexivity|].
  apply (get_rating_statistics_empty_store initial_world). reflexivity.
Defined.

Lemma sum_of_ratings_lower_bound (rows : list ExecutionRecord) :
  Forall (fun r => 4 <= rating r) rows ->
  4 * Z.of_nat (length rows) <= foldr (fun r acc => rating r + acc) 0 rows.
Proof.
  induction 1 as [|r rows Hr Hrows IH]; [done|]. cbn [foldr length]. lia.
Qed.

Lemma count_of_high_ratings (rows : list ExecutionRecord) :
  Forall (fun r => 4 <= rating r) rows ->
  foldr (fun r acc => (if 4 <=? rating r then 1 else 0) + acc) 0 rows
  = Z.of_nat (length rows).
Proof.
  induction 1 as [|r rows Hr Hrows IH]; [done|]. cbn [foldr length].
  rewrite IH. destruct (Z.leb_spec 4 (rating r)); lia.
Qed.

(** X11. After any history of calls that leaves records in the store,
    [get_rating_statistics] reports as many ratings as there are records, a
    storage rate of exactly 1 (every stored rating is at least 4) and an
    average rating of at least 4; the distribution and the success rate are
    those of [get_statistics]. *)
Theorem get_rating_statistics_of_stored md5 llm (history : list Call) :
  let w := after_calls md5 llm history in
  let report := fst (get_rating_statistics w) in
  execution_records (db w) <> [] ->
  total_ratings report = Z.of_nat (length (execution_records (db w)))
  /\ (storage_rate report == 1)%Q
  /\ (4 <= average_rating report)%Q
  /\ report_distribution report = rating_distribution (fst (get_statistics w))
  /\ report_success_rate report = Some (success_rate (fst (get_statistics w))).
Proof.
  intros w report Hne. subst report. rewrite get_rating_statistics_fst.
  pose proof (stored_ratings md5 llm history) as Hall. fold w in Hall.
  set (rows := execution_records (db w)) in *. cbn zeta.
  assert (Hn : 0 < Z.of_nat (length rows)) by (destruct rows; [done|cbn; lia]).
  destruct (Z.eqb_spec (Z.of_nat (length rows)) 0) as [H0|_]; [lia|].
  replace (0 <? Z.of_nat (length rows)) with true by (symmetry; by apply Z.ltb_lt).
  cbn [total_ratings storage_rate average_rating report_distribution
       report_success_rate].
  assert (HnQ : (0 < Z_to_Q (Z.of_nat (length rows)))%Q).
  { unfold Z_to_Q. change 0%Q with (inject_Z 0). by rewrite <- Zlt_Qlt. }
  split; [done|]. split; [|split; [|done]].
  - rewrite (dict_sum_count_by _ (fun k => if 4 <=? k then 1 else 0))
      by (intros k v; destruct (4 <=? k); lia).
    rewrite count_of_high_ratings by done.
    unfold Qdiv. apply Qmult_inv_r. lra.
  - rewrite (dict_sum_count_by _ (fun k => k)) by (intros; lia).
    apply Qle_shift_div_l; [done|].
    pose proof (sum_of_ratings_lower_bound rows Hall) as Hsum.
    unfold Z_to_Q. change 4%Q with (inject_Z 4).
    rewrite <- inject_Z_mult, <- Zle_Qle. done.
Qed.

Lemma get_rating_statistics_of_stored_witness :
  let w := after_calls Bench.digest Bench.no_llm Bench.ratings_history in
  let report := fst (get_rating_statistics w) in
  execution_records (db w) <> []
  /\ total_ratings report = Z.of_nat (length (execution_records (db w)))
  /\ (storage_rate report == 1)%Q
  /\ (4 <= average_rating report)%Q
  /\ report_distribution report = rating_distribution (fst (get_statistics w))
  /\ report_success_rate report = Some (success_rate (fst (get_statistics w))).
Proof.
  assert (Hne : execution_records
                  (db (after_calls Bench.digest Bench.no_llm Bench.ratings_history))
                <> []) by (vm_compute; discriminate).
  split; [exact Hne|].
  apply (get_rating_statistics_of_stored Bench.digest Bench.no_llm
                                         Bench.ratings_history Hne).
Defined.

(* ===================================================================== *)
(** ** What the confidence can be *)
(* ===================================================================== *)

Lemma record_weight_ge_one r : (1 <= record_weight r)%Q.
Proof.
  unfold record_weight.
  assert (Hw : (1 <= (if rating (record r) =? 5 then 3
                     else if rating (record r) =? 4 then 3 # 2 else 1))%Q)
    by (destruct (rating (record r) =? 5), (rating (record r) =? 4); lra).
  revert Hw. generalize (if rating (record r) =? 5 then 3%Q
                         else if rating (record r) =? 4 then (3 # 2)%Q else 1%Q).
  intros w Hw.
  destruct (Qcompare_spec 0 (weighted_score r)) as [H|H|H]; try done.
  assert (Hs : (0 <= weighted_score r / 10)%Q) by (apply Qle_shift_div_l; lra).
  revert Hs. generalize (weighted_score r / 10)%Q. intros s Hs.
  assert (0 <= w * s)%Q by (apply Qmult_le_0_compat; lra). lra.
Qed.

Lemma base_confidence_ge_one r :
  5 <= rating (record r) -> (1 <= base_confidence r)%Q.
Proof.
  intros H5. unfold base_confidence, Z_to_Q.
  assert (Hr : (5 <= inject_Z (rating (record r)))%Q)
    by (change 5%Q with (inject_Z 5); by rewrite <- Zle_Qle).
  assert (Hd : (1 <= inject_Z (rating (record r)) / 5)%Q)
    by (apply Qle_shift_div_l; lra).
  lra.
Qed.

(** Every contributing record adds at least 1 to the sum of confidences. *)
Lemma high_quality_contribution r :
  is_high_quality r = true -> (1 <= weighted_confidence r)%Q.
Proof.
  intros [Hr _]%andb_true_iff. apply Z.leb_le in Hr.
  destruct (Z.eq_dec (rating (record r)) 4) as [H4|H4].
  - pose proof (four_star_contribution r H4). lra.
  - unfold weighted_confidence. apply Qmult_le_1_compat.
    + apply base_confidence_ge_one. lia.
    + apply record_weight_ge_one.
Qed.

Lemma confidence_ge_one similar :
  has_suggestions (suggestions_from similar) = true ->
  (1 <= confidence (suggestions_from similar))%Q
  /\ (0 < five_star_count (filter is_high_quality similar) ->
      (confidence (suggestions_from similar) == 1)%Q).
Proof.
  intros Hs. apply confidence_of_suggestions in Hs as [Hne ->].
  set (hq := filter is_high_quality similar) in *.
  assert (Hall : Forall (fun y => (1 <= y)%Q) (map weighted_confidence hq)).
  { apply Forall_forall. intros y Hy.
    apply list_elem_of_In, in_map_iff in Hy as (x & <- & Hx).
    apply high_quality_contribution.
    apply list_elem_of_In, list_elem_of_filter in Hx as [Hx _].
    by apply Is_true_true. }
  unfold average_confidence.
  destruct (map weighted_confidence hq) as [|c cs] eqn:Hcs.
  { destruct hq; [done|discriminate]. }
  assert (Havg : (1 <= sum_Q (c :: cs) / len_Q (c :: cs))%Q)
    by (by apply average_lower_bound).
  revert Havg. generalize (sum_Q (c :: cs) / len_Q (c :: cs))%Q. intros avg Havg.
  destruct (Z.ltb_spec 0 (five_star_count hq)) as [H5|H5].
  - assert (Hk : (1 <= Z_to_Q (five_star_count hq))%Q).
    { unfold Z_to_Q. change 1%Q with (inject_Z 1). rewrite <- Zle_Qle. lia. }
    revert Hk. generalize (Z_to_Q (five_star_count hq)). intros k Hk.
    assert (Hprod : (1 <= avg * (1 + k * (1 # 10)))%Q)
      by (apply Qmult_le_1_compat; lra).
    unfold py_min.
    destruct (Qcompare_spec 1 (avg * (1 + k * (1 # 10)))) as [He|Hl|Hg].
    + split; [lra|intros _; by symmetry].
    + split; [lra|intros _; reflexivity].
    + lra.
  - split; [done|lia].
Qed.

(** X12. Whenever [get_strategy_suggestions] reports suggestions the
    confidence is at least 1, and it is exactly 1 as soon as a five-star
    record contributes; without suggestions it is 0.  (Every contributing
    record weighs in with at least 1, so the average never falls below the
    clamp.) *)
Theorem confidence_when_suggestions llm (question : string) (w : World) :
  let similar := fst (find_similar_executions llm question 5 w) in
  let s := fst (get_strategy_suggestions llm question w) in
  if has_suggestions s
  then (1 <= confidence s)%Q
       /\ (0 < five_star_count (filter is_high_quality similar) ->
           (confidence s == 1)%Q)
  else confidence s = 0%Q /\ suggested_steps s = [].
Proof.
  intros similar s. subst s. rewrite get_strategy_suggestions_result. fold similar.
  destruct (has_suggestions (suggestions_from similar)) eqn:Hs.
  - by apply confidence_ge_one.
  - unfold suggestions_from in *. destruct similar as [|r similar]; [done|].
    destruct (collect (r :: similar)) as [[ws cs] hq].
    destruct ws; [done|discriminate].
Qed.

(** X13. [optimize_strategy_with_memory] without suggestions returns the
    original strategy marked as not enhanced.  With suggestions it always
    takes the high-confidence branch (the confidence is at least 1, above
    the 0.7 threshold): the enhanced prompt carries the suggested steps,
    [max_steps] becomes [min(max_steps + 2, 25)], the task type is kept and
    the other entries of the original strategy are dropped. *)
Theorem optimize_strategy_outcome {V} llm (original : Strategy V)
        (question : string) (w : World) :
  let s := fst (get_strategy_suggestions llm question w) in
  let out := fst (optimize_strategy_with_memory llm original question w) in
  if has_suggestions s
  then out = {| optimized_prompt :=
                  EnhancedPrompt (task_prompt original)
                                 (Z.of_nat (length (similar_records s)))
                                 (suggested_steps s) (confidence s);
                optimized_max_steps := Z.min (max_steps original + 2) 25;
                optimized_task_type := strategy_task_type original;
                optimized_other_entries := ∅;
                memory_enhanced := true;
                memory_info := OptimizedWith (Z.of_nat (length (similar_records s)));
                optimized_confidence := Some (confidence s) |}
       /\ optimized_max_steps out <= 25
  else out = {| optimized_prompt := OriginalPrompt (task_prompt original);
                optimized_max_steps := max_steps original;
                optimized_task_type := strategy_task_type original;
                optimized_other_entries := other_entries original;
                memory_enhanced := false;
                memory_info := NoRelatedHistory;
                optimized_confidence := None |}.
Proof.
  intros s out. subst out. unfold optimize_strategy_with_memory, bind.
  pose proof (get_strategy_suggestions_result llm question w) as Hres.
  fold s in Hres.
  destruct (get_strategy_suggestions llm question w) as [s' w'] eqn:Hrun.
  cbn [fst] in *. subst s.
  destruct (has_suggestions s') eqn:Hs; cbn [negb]; [|done].
  rewrite Hres in Hs. apply confidence_ge_one in Hs as [Hc _]. rewrite <- Hres in Hc.
  destruct (Qcompare_spec (7 # 10) (confidence s')) as [He|Hl|Hg]; [lra| |lra].
  cbn [ret fst optimized_max_steps]. split; [done|lia].
Qed.

(* ===================================================================== *)
(** ** Where the suggested steps come from *)
(* ===================================================================== *)

Lemma weighted_steps_of_spec similar :
  weighted_steps_of similar = flat_map entries_of (filter is_high_quality similar).
Proof. unfold weighted_steps_of. by rewrite collect_spec. Qed.

Lemma elem_of_weighted_steps x similar :
  x ∈ weighted_steps_of similar <->
  exists r, r ∈ similar /\ is_high_quality r = true
            /\ step x ∈ execution_steps (record r)
            /\ x = {| step := step x; step_weight := record_weight r;
                      step_rating := rating (record r);
                      step_record_id := id (record r) |}.
Proof.
  rewrite weighted_steps_of_spec, list_elem_of_In, in_flat_map. split.
  - intros (r & Hr & Hx).
    apply list_elem_of_In, list_elem_of_filter in Hr as [Hq Hr].
    unfold entries_of in Hx. apply in_map_iff in Hx as (t & <- & Ht).
    exists r. repeat split; [done|by apply Is_true_true|by apply list_elem_of_In].
  - intros (r & Hr & Hq & Ht & Hx). exists r. split.
    + apply list_elem_of_In, list_elem_of_filter. split; [by apply Is_true_true|done].
    + unfold entries_of. apply in_map_iff. exists (step x).
      split; [by symmetry|by apply list_elem_of_In].
Qed.

Lemma has_suggestions_spec similar :
  has_suggestions (suggestions_from similar) = true <-> weighted_steps_of similar <> [].
Proof.
  unfold suggestions_from, weighted_steps_of.
  destruct similar as [|r similar]; [done|].
  destruct (collect (r :: similar)) as [[ws cs] hq]. cbn [fst].
  by destruct ws.
Qed.

(** X14. [get_strategy_suggestions] reports suggestions exactly when some
    retrieved record with rating >= 4 and [success] has a step.  Every
    suggested step is a step of such a record, and the records listed under
    ["similar_records"] are exactly those records, in retrieval order. *)
Theorem suggestions_come_from_high_quality llm (question : string) (w : World) :
  let similar := fst (find_similar_executions llm question 5 w) in
  let s := fst (get_strategy_suggestions llm question w) in
  (has_suggestions s = true <->
   exists r, r ∈ similar /\ is_high_quality r = true
             /\ execution_steps (record r) <> [])
  /\ Forall (fun t => exists r, r ∈ similar /\ is_high_quality r = true
                                /\ t ∈ execution_steps (record r))
            (suggested_steps s)
  /\ (has_suggestions s = true ->
      similar_records s = map similar_info (filter is_high_quality similar)).
Proof.
  intros similar s. subst s. rewrite get_strategy_suggestions_result. fold similar.
  split; [|split].
  - rewrite has_suggestions_spec. split.
    + intros Hne. destruct (weighted_steps_of similar) as [|x ws] eqn:Hws; [done|].
      assert (Hx : x ∈ weighted_steps_of similar) by (rewrite Hws; constructor).
      apply elem_of_weighted_steps in Hx as (r & Hr & Hq & Ht & _).
      exists r. repeat split; [done..|]. intros He. rewrite He in Ht.
      by apply elem_of_nil in Ht.
    + intros (r & Hr & Hq & Hsteps) He.
      destruct (execution_steps (record r)) as [|t ts] eqn:Hts; [done|].
      assert (Hx : {| step := t; step_weight := record_weight r;
                      step_rating := rating (record r);
                      step_record_id := id (record r) |} ∈ weighted_steps_of similar).
      { apply elem_of_weighted_steps. exists r. cbn [step].
        repeat split; [done..|rewrite Hts; constructor]. }
      rewrite He in Hx. by apply elem_of_nil in Hx.
  - rewrite suggested_steps_kept, kept_of_first. apply Forall_forall. intros t Ht.
    apply list_elem_of_In, in_map_iff in Ht as (x & <- & Hx).
    apply list_elem_of_In, subseteq_take in Hx.
    eapply sublist_subseteq in Hx; [|apply first_entries_sublist].
    apply elem_of_sort_by, elem_of_weighted_steps in Hx as (r & Hr & Hq & Ht & _).
    by exists r.
  - intros Hs. unfold suggestions_from in *.
    destruct similar as [|r similar]; [done|].
    rewrite collect_spec in *.
    by destruct (flat_map entries_of (filter is_high_quality (r :: similar))).
Qed.





(* ===================================================================== *)
(** ** Strategy templates *)
(* ===================================================================== *)

Lemma examples_of_add k' k ex t :
  examples_of k' (add_example k ex t) =
  if String.eqb k k' then Some (default [] (examples_of k t) ++ [ex])
  else examples_of k' t.
Proof.
  induction t as [|[k0 exs] t IH]; cbn [add_example examples_of].
  - destruct (String.eqb k k'); done.
  - destruct (String.eqb_spec k0 k) as [->|Hne]; cbn [examples_of].
    + destruct (String.eqb_spec k k'); done.
    + destruct (String.eqb_spec k0 k') as [->|Hne'].
      * destruct (String.eqb_spec k k'); [congruence|done].
      * exact IH.
Qed.

Lemma add_example_keys k ex t :
  map fst (add_example k ex t) =
  if bool_decide (k ∈ map fst t) then map fst t else map fst t ++ [k].
Proof.
  induction t as [|[k0 exs] t IH]; cbn [add_example map fst]; [done|].
  destruct (String.eqb_spec k0 k) as [->|Hne]; cbn [map fst].
  - rewrite bool_decide_eq_true_2 by constructor. done.
  - rewrite IH. destruct (bool_decide_reflect (k ∈ map fst t)) as [Hin|Hin].
    + rewrite bool_decide_eq_true_2 by (by constructor). done.
    + rewrite bool_decide_eq_false_2; [done|].
      intros [?|?]%elem_of_cons; congruence.
Qed.

Lemma add_example_NoDup k ex t : NoDup (map fst t) -> NoDup (map fst (add_example k ex t)).
Proof.
  intros Ht. rewrite add_example_keys.
  destruct (bool_decide_reflect (k ∈ map fst t)); [done|].
  apply NoDup_app. split; [done|]. split; [|apply NoDup_singleton].
  intros x Hx ->%list_elem_of_singleton. done.
Qed.

Lemma examples_of_elem k exs t :
  NoDup (map fst t) -> (k, exs) ∈ t -> examples_of k t = Some exs.
Proof.
  induction t as [|[k0 exs0] t IH]; [by intros _ ?%elem_of_nil|].
  cbn [map fst examples_of]. intros [Hk0 Ht]%NoDup_cons [Heq|Hin]%elem_of_cons.
  - injection Heq as <- <-. by rewrite String.eqb_refl.
  - destruct (String.eqb_spec k0 k) as [->|_]; [|by apply IH].
    exfalso. apply Hk0. apply list_elem_of_In, in_map_iff.
    exists (k, exs). split; [done|by apply list_elem_of_In].
Qed.

Lemma examples_of_key k exs t : examples_of k t = Some exs -> k ∈ map fst t.
Proof.
  induction t as [|[k0 exs0] t IH]; [done|]. cbn [examples_of map fst].
  destruct (String.eqb_spec k0 k) as [->|_]; [constructor|].
  intros H. apply elem_of_cons. right. by apply IH.
Qed.

(** The dictionary built by the grouping loop, key by key. *)
Lemma grouping_spec (records : list ExecutionRecord) :
  let templates :=
    fold_left (fun templates r => add_example (task_type r) (example_of r) templates)
              records [] in
  NoDup (map fst templates)
  /\ forall k, examples_of k templates =
               match group_examples k records with
               | [] => None
               | g => Some g
               end.
Proof.
  induction records as [|r records IH] using rev_ind; [split; [constructor|done]|].
  cbn zeta in *. rewrite fold_left_app. cbn [fold_left].
  destruct IH as [Hnd Hlook]. split; [by apply add_example_NoDup|].
  intros k. rewrite examples_of_add. unfold group_examples in *.
  rewrite filter_app, map_app, filter_cons, filter_nil.
  destruct (String.eqb_spec (task_type r) k) as [<-|Hne].
  - rewrite decide_True by done. rewrite Hlook. cbn [map].
    destruct (map example_of (filter _ records)); done.
  - rewrite decide_False by done. cbn [map]. rewrite app_nil_r. apply Hlook.
Qed.

Lemma better_rated_first_total a b :
  better_rated_first a b = false -> better_rated_first b a = true.
Proof. unfold better_rated_first. intros H%Z.leb_gt. apply Z.leb_le. lia. Qed.

Global Instance rated_no_lower_trans : Transitive rated_no_lower.
Proof. intros a b c. unfold rated_no_lower. lia. Qed.

(** X16. [get_strategy_templates] groups the records with rating >= 4 and
    [success] among the 100 most recent by task type: no task type appears
    twice, every such record's task type has a template, and the template
    of a task type counts its records (at least one) and lists their
    examples best rating first, at most 99, all rated at least 4. *)
Theorem strategy_templates_group_by_task_type (w : World) :
  let high_quality :=
    filter (fun r => (4 <=? rating r) && success r) (fst (get_all_records 100 w)) in
  let templates := fst (get_strategy_templates w) in
  NoDup (map template_task_type templates)
  /\ Forall (fun r => task_type r ∈ map template_task_type templates) high_quality
  /\ Forall (fun t =>
               let group := group_examples (template_task_type t) high_quality in
               template_count t = Z.of_nat (length group)
               /\ 0 < template_count t
               /\ best_examples t = take 99 (sort_by better_rated_first group)
               /\ StronglySorted rated_no_lower (best_examples t)
               /\ Forall (fun e => 4 <= example_rating e) (best_examples t))
            templates.
Proof.
  intros hq templates. subst templates.
  unfold get_strategy_templates, bind, ret.
  destruct (get_all_records 100 w) as [records w'] eqn:Hrun. cbn [fst] in *.
  fold hq.
  destruct (grouping_spec hq) as [Hnd Hlook]. cbn zeta in *.
  set (groups := fold_left _ hq []) in *.
  assert (Hkeys : map template_task_type
                      (map (fun '(task_type, records) =>
                              {| template_task_type := task_type;
                                 template_count := Z.of_nat (length records);
                                 best_examples :=
                                   take 99 (sort_by better_rated_first records) |})
                           groups) = map fst groups).
  { rewrite map_map. apply map_ext. by intros [k exs]. }
  rewrite Hkeys. split; [done|]. split.
  - apply Forall_forall. intros r Hr.
    apply (examples_of_key _ (group_examples (task_type r) hq)).
    rewrite Hlook.
    assert (Hin : example_of r ∈ group_examples (task_type r) hq).
    { unfold group_examples. apply list_elem_of_In, in_map.
      apply list_elem_of_In, list_elem_of_filter. done. }
    destruct (group_examples (task_type r) hq); [by apply elem_of_nil in Hin|done].
  - apply Forall_forall. intros t Ht.
    apply list_elem_of_In, in_map_iff in Ht as ([k exs] & <- & Hin).
    apply list_elem_of_In in Hin. cbn [template_task_type template_count best_examples].
    pose proof (examples_of_elem k exs groups Hnd Hin) as Hex.
    rewrite Hlook in Hex.
    destruct (group_examples k hq) as [|e g] eqn:Hg; [done|].
    injection Hex as <-. cbn zeta.
    split; [done|]. split; [cbn; lia|]. split; [done|]. split.
    + assert (Hs : StronglySorted rated_no_lower
                                  (sort_by better_rated_first (e :: g))).
      { apply Sorted_StronglySorted; [apply _|].
        eapply Sorted_weaken; [|apply sort_by_Sorted; apply better_rated_first_total].
        intros a b. unfold better_rated_first, rated_no_lower. apply Z.leb_le. }
      rewrite <- (take_drop 99 (sort_by better_rated_first (e :: g))) in Hs.
      by apply StronglySorted_app_1_l in Hs.
    + apply Forall_forall. intros x Hx.
      apply subseteq_take, elem_of_sort_by in Hx. rewrite <- Hg in Hx.
      unfold group_examples in Hx.
      apply list_elem_of_In, in_map_iff in Hx as (r & <- & Hr).
      apply list_elem_of_In, list_elem_of_filter in Hr as [_ Hr].
      subst hq. apply list_elem_of_filter in Hr as [Hq _].
      apply andb_True in Hq as [Hq _]. apply Is_true_true in Hq.
      cbn. by apply Z.leb_le.
Qed.

(* ===================================================================== *)
(** ** The steps handed to the rating path *)
(* ===================================================================== *)

Lemma is_step_line_nonempty line : is_step_line line = true -> line <> "".
Proof.
  unfold is_step_line. intros [Hne _]%andb_true_iff.
  apply negb_true_iff, String.eqb_neq in Hne. done.
Qed.

Lemma extract_execution_steps_cases (plan : ExecutionPlan) :
  match _extract_execution_steps plan with
  | Some steps =>
      (1 <= length steps <= 99)%nat /\ Forall (fun s => s <> "") steps
  | None => plan_question plan = None \/ plan_task_type plan = None
  end.
Proof.
  unfold _extract_execution_steps.
  set (steps := if String.eqb _ "" then [] else _).
  assert (Hsteps : Forall (fun s => s <> "") steps).
  { subst steps. destruct (String.eqb _ ""); [constructor|].
    apply Forall_forall. intros s [Hs _]%list_elem_of_filter.
    apply is_step_line_nonempty. by apply Is_true_true. }
  destruct steps as [|s steps].
  - destruct (plan_question plan) as [q|]; [|by left].
    destruct (plan_task_type plan) as [ty|]; [|by right].
    split; [cbn; lia|]. cbn [take]. repeat constructor; discriminate.
  - split.
    + rewrite length_take. cbn [length]. lia.
    + by apply Forall_take.
Qed.

Lemma prefix_spec (p s : string) :
  String.prefix p s = true <-> exists rest, s = p +:+ rest.
Proof.
  revert s. induction p as [|a p IH]; intros s.
  - split; [intros _; by exists s|]. intros _. by destruct s.
  - destruct s as [|b s]; cbn [String.prefix].
    + split; [done|]. intros [rest Hrest]. discriminate Hrest.
    + destruct (ascii_dec a b) as [->|Hab].
      * rewrite IH. split; intros [rest Hrest]; exists rest.
        -- by rewrite Hrest.
        -- by injection Hrest.
      * split; [done|]. intros [rest Hrest]. injection Hrest as Hb _. congruence.
Qed.

(** The test of the loop: the line begins with one of the eight marks
    (and so is not empty). *)
Lemma is_step_line_spec line :
  is_step_line line = true <->
  exists mark rest,
    mark ∈ ["1."; "2."; "3."; "4."; "5."; "•"; "-"; "*"] /\ line = mark +:+ rest.
Proof.
  split.
  - unfold is_step_line, Lines.startswith_any.
    intros [_ [H|H]%orb_true_iff]%andb_true_iff;
      apply existsb_exists in H as (mark & Hmark & [rest Hrest]%prefix_spec);
      exists mark, rest; (split; [|done]);
      apply list_elem_of_In in Hmark;
      revert Hmark; rewrite !elem_of_cons, !elem_of_nil; tauto.
  - intros (mark & rest & Hmark & ->).
    assert (Hprefix : String.prefix mark (mark +:+ rest) = true)
      by (apply prefix_spec; by exists rest).
    unfold is_step_line, Lines.startswith_any. apply andb_true_iff. split.
    + destruct mark; [|reflexivity]. exfalso. revert Hmark.
      rewrite !elem_of_cons, elem_of_nil. intros H.
      repeat (destruct H as [H|H]; [discriminate H|]). done.
    + apply orb_true_iff. revert Hmark. rewrite !elem_of_cons, elem_of_nil.
      intros [H|[H|[H|[H|[H|[H|[H|[H|[]]]]]]]]];
        [left|left|left|left|left|right|right|right];
        apply existsb_exists; exists mark; (split; [|exact Hprefix]);
        rewrite H; cbn [In]; tauto.
Qed.

(** X17. The test [_extract_execution_steps] applies to a stripped line
    of the strategy is that it begins with one of ["1."] to ["5."], ["•"],
    ["-"], ["*"].  When some line passes it, the function returns those
    lines, stripped and in order, at most 99 of them.  When none does (or the
    strategy is empty or absent), it returns the default description of four
    steps built from the question and the task type, and fails with
    [KeyError] exactly when the plan lacks one of the two.  Every result has
    between 1 and 99 steps, none of them empty. *)
Theorem extract_execution_steps_shape (plan : ExecutionPlan) :
  let strategy := default "" (plan_execution_strategy plan) in
  let step_lines :=
    filter is_step_line (map Text.strip (Lines.split_lines strategy)) in
  (forall line,
      is_step_line line = true <->
      exists mark rest,
        mark ∈ ["1."; "2."; "3."; "4."; "5."; "•"; "-"; "*"] /\ line = mark +:+ rest)
  /\ match _extract_execution_steps plan with
     | Some steps =>
         (1 <= length steps <= 99)%nat
         /\ Forall (fun s => s <> "") steps
         /\ match step_lines with
            | [] =>
                exists question task_type,
                  plan_question plan = Some question
                  /\ plan_task_type plan = Some task_type
                  /\ steps = ["分析任务：" +:+ question;
                              "执行策略：" +:+ task_type +:+ "类型任务";
                              "浏览器自动化执行";
                              "提取和整理结果"]
            | _ => steps = take 99 step_lines
            end
     | None =>
         step_lines = []
         /\ (plan_question plan = None \/ plan_task_type plan = None)
     end.
Proof.
  intros strategy step_lines. split; [apply is_step_line_spec|].
  unfold _extract_execution_steps. fold strategy.
  assert (Hsteps :
            (if String.eqb strategy ""
             then []
             else filter is_step_line (map Text.strip (Lines.split_lines strategy)))
            = step_lines).
  { destruct (String.eqb_spec strategy "") as [He|_]; [|done].
    subst step_lines. by rewrite He. }
  rewrite Hsteps.
  assert (Hne : Forall (fun s => s <> "") step_lines).
  { apply Forall_forall. intros s [Hs _]%list_elem_of_filter.
    apply is_step_line_nonempty. by apply Is_true_true. }
  destruct step_lines as [|s steps].
  - destruct (plan_question plan) as [q|]; [|by split; [|left]].
    destruct (plan_task_type plan) as [ty|]; [|by split; [|right]].
    cbn [take]. split; [cbn; lia|]. split; [repeat constructor; discriminate|].
    by exists q, ty.
  - split; [rewrite length_take; cbn [length]; lia|].
    split; [by apply Forall_take|done].
Qed.

(** X18. [process_execution_result] fails without any side effect when
    the plan lacks its question or its task type.  Otherwise it is
    [process_rating] on the plan's question, task type, result (default
    empty), execution time (default 0.0) and the extracted steps, of which
    there are between 1 and 99. *)
Theorem process_execution_result_outcome
        md5 llm (plan : ExecutionPlan) (rating : Z) (feedback now processed_at : string)
        (w : World) :
  match plan_question plan, plan_task_type plan with
  | Some question, Some task_type =>
      exists steps,
        _extract_execution_steps plan = Some steps
        /\ (1 <= length steps <= 99)%nat
        /\ process_execution_result md5 llm plan rating feedback now processed_at w
           = (let (rating_result, w') :=
                process_rating md5 llm rating question steps
                               (default "" (plan_result plan)) task_type
                               (default 0%Q (plan_execution_time plan)) now w in
              (ProcessDone rating feedback rating_result processed_at, w'))
  | _, _ =>
      process_execution_result md5 llm plan rating feedback now processed_at w
      = (ProcessFailed, w)
  end.
Proof.
  pose proof (extract_execution_steps_cases plan) as Hshape.
  unfold process_execution_result.
  destruct (plan_question plan) as [q|] eqn:Hq; [|done].
  destruct (plan_task_type plan) as [ty|] eqn:Hty.
  - destruct (_extract_execution_steps plan) as [steps|] eqn:Hsteps.
    + exists steps. split; [done|]. split; [apply Hshape|]. reflexivity.
    + destruct Hshape; congruence.
  - by destruct (_extract_execution_steps plan).
Qed.

(** The numbered lines of a strategy are the steps, stripped, in order. *)
Example extract_numbered_lines :
  _extract_execution_steps Plans.numbered
  = Some ["1. open browser"; "2. search AI trends"].
Proof. vm_compute. reflexivity. Qed.

(** A plan without task type fails and stores nothing, even with five
    stars. *)
Example process_plan_without_task_type :
  process_execution_result Bench.digest Bench.no_llm Plans.no_task_type 5 ""
                           "2025-01-01T10:00:00" "2025-01-01T10:00:01" Bench.world_4
  = (ProcessFailed, Bench.world_4).
Proof. reflexivity. Qed.

(* ===================================================================== *)
(** ** Keyword extraction *)
(* ===================================================================== *)

Lemma lower_char_of_alpha c :
  Text.is_alpha c = true -> Text.is_lower (Text.lower_char c) = true.
Proof.
  destruct c as [[] [] [] [] [] [] [] []]; vm_compute; intros H;
    first [reflexivity|discriminate H].
Qed.




Lemma chars_of_list l : chars (string_of_list_ascii l) = l.
Proof. apply list_ascii_of_string_of_list_ascii. Qed.

Lemma string_length_chars s : String.length s = length (chars s).
Proof. induction s as [|c s IH]; [done|]. cbn. by rewrite IH. Qed.

Lemma chars_lower s : chars (Text.lower s) = map Text.lower_char (chars s).
Proof. unfold Text.lower. apply chars_of_list. Qed.

Lemma chars_app (s1 s2 : string) : chars (s1 +:+ s2) = chars s1 ++ chars s2.
Proof.
  unfold chars. induction s1 as [|c s1 IH]; [done|].
  change (String c s1 +:+ s2) with (String c (s1 +:+ s2)). cbn. by f_equal.
Qed.

Lemma is_ascii_text_chars s :
  is_ascii_text s = true -> Forall (fun c => (Text.code c <? 128)%N = true) (chars s).
Proof.
  unfold is_ascii_text. intros H. apply Forall_forall. intros c Hc.
  apply list_elem_of_In in Hc. by apply (proj1 (forallb_forall _ _) H).
Qed.

Lemma join_space_ascii steps :
  forallb is_ascii_text steps = true ->
  Forall (fun c => (Text.code c <? 128)%N = true) (chars (Text.join_space steps)).
Proof.
  induction steps as [|p steps IH]; [constructor|].
  cbn [forallb]. intros [Hp Hsteps]%andb_true_iff. cbn [Text.join_space].
  destruct steps as [|p' steps]; [by apply is_ascii_text_chars|].
  rewrite !chars_app. apply Forall_app. split; [by apply is_ascii_text_chars|].
  apply Forall_app. split; [by repeat constructor|by apply IH].
Qed.

(** A one-byte character does not begin a CJK character. *)
Lemma is_cjk_ascii a b c : (Text.code a <? 128)%N = true -> Text.is_cjk a b c = false.
Proof.
  intros Ha%N.ltb_lt. unfold Text.is_cjk.
  destruct (N.eqb_spec (Text.code a) 228); [lia|].
  destruct (N.leb_spec 229 (Text.code a)); [lia|].
  cbn [andb orb]. apply andb_false_r.
Qed.

Lemma is_alpha_not_continuation c :
  Text.is_alpha c = true -> Text.is_continuation c = false.
Proof.
  destruct c as [[] [] [] [] [] [] [] []]; vm_compute; intros H;
    first [reflexivity|discriminate H].
Qed.

(** A run of letters has one byte per character. *)
Lemma len_letters s :
  Forall (fun c => Text.is_alpha c = true) (chars s) -> Text.len s = String.length s.
Proof.
  intros H. unfold Text.len. rewrite string_length_chars. fold (chars s).
  induction H as [|c l Hc Hl IH]; [done|].
  rewrite filter_cons. rewrite (is_alpha_not_continuation c Hc).
  destruct (decide _) as [_|Hn]; [cbn [length]; by rewrite IH|].
  exfalso. by apply Hn.
Qed.

Lemma flush_Forall (P : string -> Prop) cur rest :
  (cur <> [] -> P (string_of_list_ascii (rev cur))) ->
  Forall P rest -> Forall P (Text.flush cur rest).
Proof.
  intros Hcur Hrest. destruct cur as [|c cur]; [done|].
  cbn [Text.flush]. constructor; [by apply Hcur|done].
Qed.

Lemma rev_letters cur :
  Forall (fun c => Text.is_alpha c = true) cur ->
  Forall (fun c => Text.is_alpha c = true) (chars (string_of_list_ascii (rev cur))).
Proof.
  intros Hcur. rewrite chars_of_list. apply Forall_forall. intros x Hx.
  apply list_elem_of_In, in_rev, list_elem_of_In in Hx.
  eapply Forall_forall in Hcur; eauto.
Qed.

(** On one-byte text the runs [findall] returns are runs of letters. *)
Lemma findall_go_letters state cur l :
  Forall (fun c => (Text.code c <? 128)%N = true) l ->
  Forall (fun c => Text.is_alpha c = true) cur ->
  Forall (fun s => Forall (fun c => Text.is_alpha c = true) (chars s))
         (Text.findall_go state cur l).
Proof.
  intros Hl. revert state cur.
  induction Hl as [|a l1 Ha Hl1 IH]; intros state cur Hcur; cbn [Text.findall_go].
  - apply flush_Forall; [intros _; by apply rev_letters|constructor].
  - destruct (Text.is_alpha a) eqn:Halpha.
    + destruct state; try (apply IH; by constructor).
      apply flush_Forall; [intros _; by apply rev_letters|].
      apply IH. by repeat constructor.
    + assert (Hnext : Forall (fun s => Forall (fun c => Text.is_alpha c = true) (chars s))
                             (Text.flush cur (Text.findall_go Text.NoRun [] l1))).
      { apply flush_Forall; [intros _; by apply rev_letters|]. apply IH. constructor. }
      destruct l1 as [|b [|c l3]]; [exact Hnext|exact Hnext|].
      by rewrite is_cjk_ascii.
Qed.

Lemma distinct_subseteq l : Text.distinct l ⊆ l.
Proof.
  induction l as [|x l IH]; [done|]. cbn [Text.distinct].
  intros y [->|Hy]%elem_of_cons; [constructor|].
  apply list_elem_of_filter in Hy as [_ Hy]. apply elem_of_cons. right. by apply IH.
Qed.

Lemma distinct_NoDup l : NoDup (Text.distinct l).
Proof.
  induction l as [|x l IH]; [constructor|]. cbn [Text.distinct].
  apply NoDup_cons. split.
  - intros [Hne _]%list_elem_of_filter. apply negb_True in Hne.
    apply Hne, Is_true_true. apply String.eqb_refl.
  - by apply NoDup_filter.
Qed.

(** X19. On ASCII text the regular-expression extraction of
    [_extract_keywords] (no model configured, or the model call failed)
    yields at most 10 keywords, no keyword twice, each of at least two
    characters and made of lower-case letters only. *)
Theorem fallback_keywords_shape (question : string) (steps : list string) :
  is_ascii_text question = true ->
  forallb is_ascii_text steps = true ->
  let keywords := simple_keywords question steps in
  (length keywords <= 10)%nat
  /\ NoDup keywords
  /\ Forall is_plain_keyword keywords.
Proof.
  intros Hquestion Hsteps keywords. subst keywords. unfold simple_keywords.
  set (runs := Text.findall _).
  assert (Hruns : Forall (fun s => Forall (fun c => Text.is_alpha c = true) (chars s))
                         runs).
  { apply findall_go_letters; [|constructor].
    fold (chars (question +:+ " " +:+ Text.join_space steps)).
    rewrite !chars_app. apply Forall_app. split; [by apply is_ascii_text_chars|].
    apply Forall_app. split; [by repeat constructor|by apply join_space_ascii]. }
  split; [rewrite length_take; lia|]. split.
  - eapply sublist_NoDup; [apply distinct_NoDup|apply sublist_take].
  - apply Forall_forall. intros kw Hkw.
    apply subseteq_take, distinct_subseteq in Hkw.
    apply list_elem_of_In, in_map_iff in Hkw as (token & <- & Htoken).
    apply list_elem_of_In, list_elem_of_filter in Htoken as [Hlen Htoken].
    eapply Forall_forall in Hruns; [|exact Htoken].
    apply Is_true_true, Z.ltb_lt in Hlen. rewrite len_letters in Hlen by done.
    split.
    + rewrite string_length_chars, chars_lower, length_map, <- string_length_chars.
      lia.
    + rewrite chars_lower. apply Forall_forall. intros c Hc.
      apply list_elem_of_In, in_map_iff in Hc as (c0 & <- & Hc0).
      apply lower_char_of_alpha.
      eapply Forall_forall in Hruns; [exact Hruns|by apply list_elem_of_In].
Qed.

Lemma fallback_keywords_shape_witness :
  is_ascii_text "Find AI trends, find more AI" = true
  /\ forallb is_ascii_text Bench.steps_A = true
  /\ (length (simple_keywords "Find AI trends, find more AI" Bench.steps_A) <= 10)%nat
  /\ NoDup (simple_keywords "Find AI trends, find more AI" Bench.steps_A)
  /\ Forall is_plain_keyword (simple_keywords "Find AI trends, find more AI" Bench.steps_A).
Proof.
  split; [reflexivity|]. split; [reflexivity|].
  apply (fallback_keywords_shape "Find AI trends, find more AI" Bench.steps_A);
    reflexivity.
Defined.




Section DropSpaces.

Variable two : ascii -> ascii -> bool.
Variable three : ascii -> ascii -> ascii -> bool.





End DropSpaces.







(** Chinese text: runs of CJK characters and runs of letters are keywords,
    a single character is not. *)
Example fallback_keywords_chinese :
  simple_keywords "查找AI趋势 x 新 find" ["打开浏览器"; "search AI"]
  = ["查找"; "ai"; "趋势"; "find"; "打开浏览器"; "search"].
Proof. vm_compute. reflexivity. Qed.

(** Ideographic and no-break spaces are stripped like blanks. *)
Example strip_unicode_spaces :
  Text.strip "　 1. 打开浏览器 　 " = "1. 打开浏览器"
  /\ parse_keywords "人工智能,　趋势　, News " = ["人工智能"; "趋势"; "news"].
Proof. vm_compute. split; reflexivity. Qed.

(** A reply with blanks, an empty field, upper case and a trailing comma. *)
Example reply_keywords_example :
  parse_keywords " AI , Trends,, news ," = ["ai"; "trends"; "news"].
Proof. reflexivity. Qed.

(* ===================================================================== *)
(** ** Storing, finding, deleting *)
(* ===================================================================== *)

(** X21. After any history of calls no two stored records share an id:
    the primary key of [execution_records] holds, whatever ids the digest
    produces. *)
Theorem stored_ids_are_unique md5 llm (history : list Call) :
  NoDup (map id (execution_records (db (after_calls md5 llm history)))).
Proof.
  apply (after_calls_invariant md5 llm
           (fun d => NoDup (map id (execution_records d)))).
  - constructor.
  - intros rec d Hd. by apply insert_or_replace_ids.
  - intros rid d Hd. by apply filter_ids_NoDup.
Qed.

Lemma score_of_lower_bound d query r :
  4 <= rating r -> 1 <= match_count d query r ->
  (21 # 2 <= score_of d query r)%Q.
Proof.
  intros Hr Hm. unfold score_of, Z_to_Q.
  assert (HrQ : (4 <= inject_Z (rating r))%Q)
    by (change 4%Q with (inject_Z 4); by rewrite <- Zle_Qle).
  assert (HmQ : (1 <= inject_Z (match_count d query r))%Q)
    by (change 1%Q with (inject_Z 1); by rewrite <- Zle_Qle).
  revert HrQ HmQ.
  generalize (inject_Z (rating r)), (inject_Z (match_count d query r)).
  intros x y Hx Hy.
  destruct (success r), (5 <=? rating r) eqn:H5; try lra;
    replace (4 <=? rating r) with true by (symmetry; by apply Z.leb_le); lra.
Qed.

(** X22. After any history of calls, every record [find_similar_executions]
    returns is a stored record sharing at least one keyword with the query;
    its score is the query's [weighted_score] formula and is at least 10.5,
    so the synthesizer's test [weighted_score > 0] always succeeds and the
    record weight is the star weight times [1 + weighted_score / 10]. *)
Theorem found_records_scores md5 llm (history : list Call)
        (question : string) (limit : Z) :
  let w := after_calls md5 llm history in
  let query := extracted_keywords llm question [] in
  Forall (fun x =>
            record x ∈ execution_records (db w)
            /\ 1 <= match_count (db w) query (record x)
            /\ weighted_score x = score_of (db w) query (record x)
            /\ (21 # 2 <= weighted_score x)%Q
            /\ record_weight x
               = ((if rating (record x) =? 5 then 3
                   else if rating (record x) =? 4 then 3 # 2 else 1)
                  * (1 + weighted_score x / 10))%Q)
         (fst (find_similar_executions llm question limit w)).
Proof.
  intros w query.
  destruct (fits_sqlite_integer limit) eqn:Hfit;
    [|rewrite find_similar_overflow by done; constructor].
  rewrite find_similar_is_query by done. fold query.
  apply Forall_forall. intros x Hx.
  apply elem_of_sql_limit, elem_of_sort_by, elem_of_matching_rows in Hx
    as (r & -> & Hr & Hm).
  cbn [record weighted_score].
  pose proof (stored_ratings md5 llm history) as Hall. fold w in Hall.
  eapply Forall_forall in Hall; [|exact Hr].
  assert (Hs : (21 # 2 <= score_of (db w) query r)%Q)
    by (apply score_of_lower_bound; [done|lia]).
  split; [done|]. split; [lia|]. split; [done|]. split; [done|].
  unfold record_weight. cbn [record weighted_score].
  destruct (Qcompare_spec 0 (score_of (db w) query r)) as [He|Hl|Hg];
    [lra|done|lra].
Qed.

(** X23. The read operations leave the database as it is:
    [find_similar_executions], [get_all_records], [get_statistics],
    [get_rating_statistics], [get_strategy_suggestions],
    [get_strategy_templates] and [optimize_strategy_with_memory]. *)
Theorem read_operations_keep_database
        {V} llm (question : string) (limit : Z) (original : Strategy V) (w : World) :
  db (snd (find_similar_executions llm question limit w)) = db w
  /\ db (snd (get_all_records limit w)) = db w
  /\ db (snd (get_statistics w)) = db w
  /\ db (snd (get_rating_statistics w)) = db w
  /\ db (snd (get_strategy_suggestions llm question w)) = db w
  /\ db (snd (get_strategy_templates w)) = db w
  /\ db (snd (optimize_strategy_with_memory llm original question w)) = db w.
Proof.
  pose proof (get_strategy_suggestions_db llm question w) as Hs.
  split; [apply find_similar_db|]. split; [apply get_all_records_db|].
  split; [done|]. split; [|split; [done|split; [|]]].
  - unfold get_rating_statistics, get_statistics, bind, ret, connect, emit, get_db.
    cbn [fst snd]. by destruct (dict_sum _ _ =? 0).
  - unfold get_strategy_templates, bind, ret.
    pose proof (get_all_records_db 100 w) as Ha.
    by destruct (get_all_records 100 w).
  - unfold optimize_strategy_with_memory, bind, ret.
    destruct (get_strategy_suggestions llm question w) as [s w'].
    cbn [snd] in *. destruct (negb (has_suggestions s)); [done|].
    by destruct (7 # 10 ?= confidence s)%Q.
Qed.

Lemma match_count_positive d query r kw :
  {| keyword := kw; record_id := id r; weight := 1%Q |} ∈ similarity_index d ->
  kw ∈ query -> 1 <= match_count d query r.
Proof.
  intros Hrow Hkw. unfold match_count.
  assert (Hin : {| keyword := kw; record_id := id r; weight := 1%Q |}
                  ∈ filter (fun s => String.eqb (record_id s) (id r)
                                     && bool_decide (keyword s ∈ query))
                           (similarity_index d)).
  { apply list_elem_of_filter. split; [|done]. cbn [record_id keyword].
    rewrite String.eqb_refl. cbn [andb]. by apply bool_decide_pack. }
  destruct (filter _ (similarity_index d)); [by apply elem_of_nil in Hin|].
  cbn [length]. lia.
Qed.

(** X24. A record that was just stored is found again: after a
    [store_execution] with a rating of at least four that fits an SQLite
    integer, [find_similar_executions] for any question whose keywords
    include one of the record's keywords returns that record with its new
    fields, provided the limit fits an SQLite integer and does not cut the
    ranking (it is at least the number of stored records). *)
Theorem store_then_find
        md5 llm q steps res r ty sc et now (question : string) (limit : Z)
        (w : World) :
  let rec := built_record md5 llm q steps res r ty sc et now in
  let w1 := snd (store_execution md5 llm q steps res r ty sc et now w) in
  4 <= r <= sqlite_int_max ->
  (exists kw, kw ∈ extracted_keywords llm question []
              /\ kw ∈ similarity_keywords rec) ->
  Z.of_nat (length (execution_records (db w1))) <= limit <= sqlite_int_max ->
  fst (store_execution md5 llm q steps res r ty sc et now w) = StoredAs (id rec)
  /\ rec ∈ map record (fst (find_similar_executions llm question limit w1)).
Proof.
  intros rec w1 [Hr Hmax] (kw & Hquery & Hkw) [Hlimit Hlmax].
  split; [by rewrite store_execution_admitted|].
  rewrite find_similar_is_query
    by (apply fits_sqlite_integer_spec; unfold sqlite_int_min; lia).
  set (query := extracted_keywords llm question []) in *.
  assert (Hdb : db w1 = written_db rec (db w)).
  { subst w1. by rewrite store_execution_admitted. }
  assert (Hstored : rec ∈ execution_records (db w1)).
  { rewrite Hdb. apply elem_of_insert_or_replace. by right. }
  assert (Hm : 1 <= match_count (db w1) query rec).
  { apply (match_count_positive _ _ _ kw); [|done].
    rewrite Hdb. cbn [written_db similarity_index]. rewrite insert_index_app.
    apply elem_of_app. right. apply list_elem_of_In, in_map_iff.
    exists kw. split; [done|by apply list_elem_of_In]. }
  assert (Hrow : {| record := rec; weighted_score := score_of (db w1) query rec |}
                   ∈ similar_query (db w1) query limit).
  { unfold similar_query, sql_limit.
    destruct (limit <? 0); [|rewrite take_ge];
      try (apply elem_of_sort_by, elem_of_matching_rows; exists rec;
           repeat split; [done|lia]).
    rewrite length_sort_by. unfold matching_rows. rewrite length_map.
    pose proof (length_filter (fun r0 => Is_true (0 <? match_count (db w1) query r0))
                              (execution_records (db w1))).
    lia. }
  apply list_elem_of_In, in_map_iff. eexists. split; [|by apply list_elem_of_In].
  done.
Qed.

Lemma store_then_find_witness :
  let rec := built_record Bench.digest Bench.no_llm "find AI trends" Bench.steps_A
                          "done" 5 "search" true 12%Q "2025-01-01T10:00:00" in
  4 <= 5 <= sqlite_int_max
  /\ (exists kw, kw ∈ extracted_keywords Bench.no_llm "AI trends" []
                 /\ kw ∈ similarity_keywords rec)
  /\ Z.of_nat (length (execution_records (db Bench.world_4_5))) <= 3 <= sqlite_int_max
  /\ fst (Bench.store "find AI trends" Bench.steps_A "done" 5 "search" true 12%Q
                      "2025-01-01T10:00:00" Bench.world_4) = StoredAs (id rec)
  /\ rec ∈ map record (fst (Bench.find "AI trends" 3 Bench.world_4_5)).
Proof.
  assert (Hkw : exists kw,
             kw ∈ extracted_keywords Bench.no_llm "AI trends" []
             /\ kw ∈ similarity_keywords
                      (built_record Bench.digest Bench.no_llm "find AI trends"
                                    Bench.steps_A "done" 5 "search" true 12%Q
                                    "2025-01-01T10:00:00")).
  { exists "ai". split; apply list_elem_of_In; vm_compute; auto 12. }
  assert (Hlimit : Z.of_nat (length (execution_records (db Bench.world_4_5))) <= 3
                   <= sqlite_int_max)
    by (split; vm_compute; discriminate).
  assert (Hr : 4 <= 5 <= sqlite_int_max) by (unfold sqlite_int_max; lia).
  split; [exact Hr|]. split; [exact Hkw|]. split; [exact Hlimit|].
  apply (store_then_find
           Bench.digest Bench.no_llm "find AI trends" Bench.steps_A "done" 5
           "search" true 12%Q "2025-01-01T10:00:00" "AI trends" 3 Bench.world_4);
    [exact Hr|exact Hkw|exact Hlimit].
Defined.

(** X25. A deleted record is no longer retrievable: after
    [delete_record], neither [find_similar_executions] nor
    [get_all_records] returns a record with the deleted id. *)
Theorem deleted_record_not_retrievable
        llm (rid question : string) (limit : Z) (w : World) :
  let w1 := snd (delete_record rid w) in
  Forall (fun x => id (record x) <> rid)
         (fst (find_similar_executions llm question limit w1))
  /\ Forall (fun r => id r <> rid) (fst (get_all_records limit w1)).
Proof.
  intros w1.
  assert (Hgone : forall r, r ∈ execution_records (db w1) -> id r <> rid).
  { intros r Hr. subst w1. rewrite delete_record_db in Hr.
    cbn [deleted_db execution_records] in Hr.
    apply list_elem_of_filter in Hr as [Hne _]. apply negb_True in Hne.
    intros Heq. apply Hne, Is_true_true. by apply String.eqb_eq. }
  split; apply Forall_forall.
  - intros x Hx. apply find_similar_result in Hx as [kws Hx].
    apply elem_of_sql_limit, elem_of_sort_by, elem_of_matching_rows in Hx
      as (r & -> & Hr & _).
    by apply Hgone.
  - intros r Hr. rewrite get_all_records_result in Hr.
    destruct (fits_sqlite_integer limit); [|by apply elem_of_nil in Hr].
    apply elem_of_sql_limit, elem_of_sort_by in Hr. by apply Hgone.
Qed.

(** X26. [get_strategy_suggestions] retrieves with [limit=5]: at most five
    records contribute, the records listed under ["similar_records"] are in
    ranking order (score, then rating, then timestamp, descending), and the
    message of a positive answer counts them and the five-star ones among
    them. *)
Theorem suggestions_use_at_most_five llm (question : string) (w : World) :
  let similar := fst (find_similar_executions llm question 5 w) in
  let contributing := filter is_high_quality similar in
  let s := fst (get_strategy_suggestions llm question w) in
  (length similar <= 5)%nat
  /\ (length (similar_records s) <= 5)%nat
  /\ StronglySorted ranks_no_later contributing
  /\ (has_suggestions s = true ->
      message s = BasedOn (Z.of_nat (length contributing))
                          (five_star_count contributing)).
Proof.
  intros similar contributing s. subst s.
  rewrite get_strategy_suggestions_result. fold similar.
  assert (Hlen : (length similar <= 5)%nat).
  { subst similar. rewrite find_similar_is_query by done. unfold similar_query.
    pose proof (length_sql_limit 5
                  (sort_by rank_before
                           (matching_rows (db w) (extracted_keywords llm question []))))
      as H.
    lia. }
  assert (Hsorted : StronglySorted ranks_no_later similar).
  { subst similar. rewrite find_similar_is_query by done. unfold similar_query.
    destruct (sql_limit_prefix 5
                (sort_by rank_before
                         (matching_rows (db w) (extracted_keywords llm question []))))
      as [rest Hrest].
    pose proof (sort_by_rank_StronglySorted
                  (matching_rows (db w) (extracted_keywords llm question []))) as Hs.
    rewrite Hrest in Hs. by apply StronglySorted_app_1_l in Hs. }
  pose proof (length_filter (fun r => Is_true (is_high_quality r)) similar) as Hf.
  fold contributing in Hf.
  split; [done|]. split; [|split].
  - unfold suggestions_from. destruct similar as [|r similar']; [cbn; lia|].
    rewrite collect_spec. fold contributing.
    destruct (flat_map entries_of contributing); [cbn; lia|].
    cbn [similar_records]. rewrite length_map. lia.
  - subst contributing. clear Hf Hlen.
    induction Hsorted as [|x l Hs IH Hall]; [constructor|].
    rewrite filter_cons. destruct (decide _); [|exact IH].
    constructor; [exact IH|].
    apply Forall_forall. intros y [_ Hy]%list_elem_of_filter.
    eapply Forall_forall in Hall; eauto.
  - intros Hs. unfold suggestions_from in *.
    destruct similar as [|r similar']; [done|].
    rewrite collect_spec in *. fold contributing in Hs |- *.
    by destruct (flat_map entries_of contributing).
Qed.
